(** * NumPy datetime core (numpy/core/src/multiarray/datetime.c)

    A shallow embedding of the calendar kernel, the struct/value codec,
    the unit-factor arithmetic, the casting rules, the metadata GCD and
    the metadata-string parser, followed by the properties checked
    against them.

    Conventions.  C integers are values in [Z]; every operation whose
    result is stored in a fixed width object is followed by the
    corresponding wrap-around ([i64], [i32], [u64]).  Signed overflow,
    which C leaves undefined, wraps around as well, so the model and the
    code agree wherever no signed operation overflows.  C's [/] and [%]
    truncate towards zero: they are [Z.quot] and [Z.rem]. *)

From Stdlib Require Import ZArith Lia List Bool String Ascii.
Import ListNotations.

Local Open Scope Z_scope.

(* ===================================================================== *)
(** ** Fixed width integers *)
(* ===================================================================== *)

(** Two's complement wrap-around to [w] bits. *)
Definition wrap_signed (w z : Z) : Z := (z + 2 ^ (w - 1)) mod 2 ^ w - 2 ^ (w - 1).

Definition NPY_MIN_INT64 : Z := -9223372036854775808.
Definition NPY_MAX_INT64 : Z := 9223372036854775807.

(** [npy_int64], [npy_datetime], [npy_timedelta]: a value in range is
    itself, any other wraps around (see [i64_wrap]). *)
Definition i64 (z : Z) : Z :=
  if (NPY_MIN_INT64 <=? z) && (z <=? NPY_MAX_INT64) then z else wrap_signed 64 z.

(** [int], [npy_int32] *)
Definition i32 (z : Z) : Z :=
  if (-2147483648 <=? z) && (z <=? 2147483647) then z else wrap_signed 32 z.

(** [npy_uint64] *)
Definition u64 (z : Z) : Z :=
  if (0 <=? z) && (z <=? 18446744073709551615) then z else z mod 2 ^ 64.

(** Modelled from the spec: the constant [NPY_DATETIME_NAT], defined in a
    header that is not part of the sources at hand; NaT is "the bit
    pattern i64::MIN". *)
Definition NPY_DATETIME_NAT : Z := NPY_MIN_INT64.

Definition add64 (a b : Z) : Z := i64 (a + b).
Definition sub64 (a b : Z) : Z := i64 (a - b).
Definition mul64 (a b : Z) : Z := i64 (a * b).
Definition div64 (a b : Z) : Z := i64 (Z.quot a b).
Definition mod64 (a b : Z) : Z := Z.rem a b.

(** C operators on [npy_int64] operands. *)
Infix "+!" := add64 (at level 50, left associativity).
Infix "-!" := sub64 (at level 50, left associativity).
Infix "*!" := mul64 (at level 40, left associativity).
Infix "/!" := div64 (at level 40, left associativity).
Infix "%!" := mod64 (at level 40, left associativity).

(* ===================================================================== *)
(** ** Data model *)
(* ===================================================================== *)

(** Modelled from the spec: the enumeration [NPY_DATETIMEUNIT], declared
    in a header that is not part of the sources at hand; the units are
    "totally ordered from coarsest to finest: Y, M, W, B, D, h, m, s, ms,
    us, ns, ps, fs, as, Generic", which is also the order of the tables
    [_datetime_strings] and [_datetime_factors]. *)
Inductive NPY_DATETIMEUNIT : Set :=
| NPY_FR_Y | NPY_FR_M | NPY_FR_W | NPY_FR_B | NPY_FR_D
| NPY_FR_h | NPY_FR_m | NPY_FR_s | NPY_FR_ms | NPY_FR_us
| NPY_FR_ns | NPY_FR_ps | NPY_FR_fs | NPY_FR_as | NPY_FR_GENERIC.

(** The integer value of an enumerator. *)
Definition unit_value (u : NPY_DATETIMEUNIT) : Z :=
  match u with
  | NPY_FR_Y => 0 | NPY_FR_M => 1 | NPY_FR_W => 2 | NPY_FR_B => 3
  | NPY_FR_D => 4 | NPY_FR_h => 5 | NPY_FR_m => 6 | NPY_FR_s => 7
  | NPY_FR_ms => 8 | NPY_FR_us => 9 | NPY_FR_ns => 10 | NPY_FR_ps => 11
  | NPY_FR_fs => 12 | NPY_FR_as => 13 | NPY_FR_GENERIC => 14
  end.

Definition all_units : list NPY_DATETIMEUNIT :=
  [NPY_FR_Y; NPY_FR_M; NPY_FR_W; NPY_FR_B; NPY_FR_D; NPY_FR_h; NPY_FR_m;
   NPY_FR_s; NPY_FR_ms; NPY_FR_us; NPY_FR_ns; NPY_FR_ps; NPY_FR_fs;
   NPY_FR_as; NPY_FR_GENERIC].

Definition unit_eqb (a b : NPY_DATETIMEUNIT) : bool := unit_value a =? unit_value b.
Definition unit_leb (a b : NPY_DATETIMEUNIT) : bool := unit_value a <=? unit_value b.
Definition unit_gtb (a b : NPY_DATETIMEUNIT) : bool := unit_value a >? unit_value b.

(** Modelled from the spec: the structure [PyArray_DatetimeMetaData],
    declared in a header that is not part of the sources at hand: "a pair
    (unit, multiplier)"; the code reads the fields [base] and [num], the
    latter an [int]. *)
Record PyArray_DatetimeMetaData : Set := mkMeta {
  base : NPY_DATETIMEUNIT;
  num : Z
}.

(** Modelled from the spec: the structure [npy_datetimestruct], declared
    in a header that is not part of the sources at hand: "fields year:
    i64, month, day, hour, minute, second: i32, us, ps, as: i32".  The
    field names are those the code uses; [as] is spelled [as_]. *)
Record npy_datetimestruct : Set := mkDts {
  year : Z;
  month : Z;
  day : Z;
  hour : Z;
  min : Z;
  sec : Z;
  us : Z;
  ps : Z;
  as_ : Z
}.

(** Python exceptions set by the code. *)
Inductive PyExc : Set :=
| PyExc_ValueError | PyExc_TypeError | PyExc_OverflowError | PyExc_RuntimeError.

(** A C function returning 0 with an output, or -1 with an exception set. *)
Inductive result (A : Type) : Type :=
| Ok (a : A)
| Error (e : PyExc).
Arguments Ok {A} a.
Arguments Error {A} e.

(* ===================================================================== *)
(** ** Calendar kernel *)
(* ===================================================================== *)

(** [get_day_of_week] *)
Definition get_day_of_week (date : Z) : Z :=
  let day_of_week := i32 ((date -! 4) %! 7) in
  if day_of_week <? 0 then i32 (day_of_week + 7) else day_of_week.

(** [_days_per_month_table] *)
Definition _days_per_month_table (isleap : bool) : list Z :=
  if isleap then [31; 29; 31; 30; 31; 30; 31; 31; 30; 31; 30; 31]
  else [31; 28; 31; 30; 31; 30; 31; 31; 30; 31; 30; 31].

(** [is_leapyear] *)
Definition is_leapyear (year : Z) : bool :=
  (Z.land year 3 =? 0) &&
  (negb (year %! 100 =? 0) || (year %! 400 =? 0)).

(** The loop [for (i = 0; i < month; ++i) days += month_lengths[i];]. *)
Definition add_month_lengths (month_lengths : list Z) (month days : Z) : Z :=
  fold_left (fun days i => days +! nth i month_lengths 0)
            (seq 0 (Z.to_nat month)) days.

(** [get_datetimestruct_days] *)
Definition get_datetimestruct_days (dts : npy_datetimestruct) : Z :=
  let year0 := year dts -! 1970 in
  let days := year0 *! 365 in
  let days :=
    if days >=? 0 then
      let year1 := year0 +! 1 in
      let days := days +! year1 /! 4 in
      let year2 := year1 +! 68 in
      let days := days -! year2 /! 100 in
      let year3 := year2 +! 300 in
      days +! year3 /! 400
    else
      let year1 := year0 -! 2 in
      let days := days +! year1 /! 4 in
      let year2 := year1 -! 28 in
      let days := days -! year2 /! 100 in
      days +! year2 /! 400 in
  let month_lengths := _days_per_month_table (is_leapyear (year dts)) in
  let month0 := i32 (month dts - 1) in
  let days := add_month_lengths month_lengths month0 days in
  days +! i32 (day dts - 1).

(** [get_datetimestruct_minutes] *)
Definition get_datetimestruct_minutes (dts : npy_datetimestruct) : Z :=
  let days := get_datetimestruct_days dts *! 24 *! 60 in
  let days := days +! i32 (hour dts * 60) in
  days +! min dts.

Definition days_per_400years : Z := 400 * 365 + 100 - 4 + 1.

(** First block of [days_to_yearsdays]: re-centre on 2000-01-01 and split
    off the 400 year cycles.  Returns [(year, days)]. *)
Definition split_400years (days_ : Z) : Z * Z :=
  let days := days_ -! (365 * 30 + 7) in
  if days >=? 0 then
    (400 *! (days /! days_per_400years), days %! days_per_400years)
  else
    let year := 400 *! ((days -! (days_per_400years - 1)) /! days_per_400years) in
    let days := days %! days_per_400years in
    (year, if days <? 0 then days +! days_per_400years else days).

(** Second block of [days_to_yearsdays]: the year and the day within the
    400 year cycle. *)
Definition within_400years (year days : Z) : Z * Z :=
  if days >=? 366 then
    let year := year +! 100 *! ((days -! 1) /! (100 * 365 + 25 - 1)) in
    let days := (days -! 1) %! (100 * 365 + 25 - 1) in
    if days >=? 365 then
      let year := year +! 4 *! ((days +! 1) /! (4 * 365 + 1)) in
      let days := (days +! 1) %! (4 * 365 + 1) in
      if days >=? 366 then
        (year +! (days -! 1) /! 365, (days -! 1) %! 365)
      else (year, days)
    else (year, days)
  else (year, days).

(** [days_to_yearsdays]: returns the year and the new value of [*days_]. *)
Definition days_to_yearsdays (days_ : Z) : Z * Z :=
  let '(year, days) := split_400years days_ in
  let '(year, days) := within_400years year days in
  (year +! 2000, days).

(** The loop of [set_datetimestruct_days] and [days_to_month_number],
    entered at index [i]; [None] when the loop falls through. *)
Fixpoint find_month (month_lengths : list Z) (i : Z) (days : Z) : option (Z * Z) :=
  match month_lengths with
  | [] => None
  | len :: rest =>
      if days <? len then Some (i + 1, days)
      else find_month rest (i + 1) (days -! len)
  end.

(** [days_to_month_number] *)
Definition days_to_month_number (days : Z) : Z :=
  let '(year, days) := days_to_yearsdays days in
  match find_month (_days_per_month_table (is_leapyear year)) 0 days with
  | Some (m, _) => m
  | None => 1
  end.

(** Field stores; a store into an [npy_int32] field truncates. *)
Definition set_year (y : Z) (dts : npy_datetimestruct) : npy_datetimestruct :=
  mkDts (i64 y) (month dts) (day dts) (hour dts) (min dts) (sec dts) (us dts) (ps dts) (as_ dts).
Definition set_month (v : Z) (dts : npy_datetimestruct) : npy_datetimestruct :=
  mkDts (year dts) (i32 v) (day dts) (hour dts) (min dts) (sec dts) (us dts) (ps dts) (as_ dts).
Definition set_day (v : Z) (dts : npy_datetimestruct) : npy_datetimestruct :=
  mkDts (year dts) (month dts) (i32 v) (hour dts) (min dts) (sec dts) (us dts) (ps dts) (as_ dts).
Definition set_hour (v : Z) (dts : npy_datetimestruct) : npy_datetimestruct :=
  mkDts (year dts) (month dts) (day dts) (i32 v) (min dts) (sec dts) (us dts) (ps dts) (as_ dts).
Definition set_min (v : Z) (dts : npy_datetimestruct) : npy_datetimestruct :=
  mkDts (year dts) (month dts) (day dts) (hour dts) (i32 v) (sec dts) (us dts) (ps dts) (as_ dts).
Definition set_sec (v : Z) (dts : npy_datetimestruct) : npy_datetimestruct :=
  mkDts (year dts) (month dts) (day dts) (hour dts) (min dts) (i32 v) (us dts) (ps dts) (as_ dts).
Definition set_us (v : Z) (dts : npy_datetimestruct) : npy_datetimestruct :=
  mkDts (year dts) (month dts) (day dts) (hour dts) (min dts) (sec dts) (i32 v) (ps dts) (as_ dts).
Definition set_ps (v : Z) (dts : npy_datetimestruct) : npy_datetimestruct :=
  mkDts (year dts) (month dts) (day dts) (hour dts) (min dts) (sec dts) (us dts) (i32 v) (as_ dts).
Definition set_as (v : Z) (dts : npy_datetimestruct) : npy_datetimestruct :=
  mkDts (year dts) (month dts) (day dts) (hour dts) (min dts) (sec dts) (us dts) (ps dts) (i32 v).

(** [set_datetimestruct_days] *)
Definition set_datetimestruct_days (days : Z) (dts : npy_datetimestruct)
  : npy_datetimestruct :=
  let '(y, days) := days_to_yearsdays days in
  let dts := set_year y dts in
  match find_month (_days_per_month_table (is_leapyear (year dts))) 0 days with
  | Some (m, d) => set_day (d +! 1) (set_month m dts)
  | None => dts
  end.

(** [get_nweekdays]; the result is an [int]. *)
Definition get_nweekdays (first second : Z) : Z :=
  let swapped := second <? first in
  let '(first, second) := if swapped then (second, first) else (first, second) in
  let dotw_first := get_day_of_week first in
  let dotw_second := get_day_of_week second in
  let dotw_first := if dotw_first >? 4 then 4 else dotw_first in
  let dotw_second := if dotw_second >? 4 then 4 else dotw_second in
  let dotw_second := if dotw_second <? dotw_first then i32 (dotw_second + 5) else dotw_second in
  let ndays := i32 (((second -! first) /! 7) *! 5 +! i32 (dotw_second - dotw_first)) in
  if swapped then i32 (- ndays) else ndays.

(* ===================================================================== *)
(** ** Adjusting a struct by minutes or seconds *)
(* ===================================================================== *)

(** [while (lo < 0) { lo += radix; hi--; }] on two [int] fields. *)
Fixpoint borrow_loop (fuel : nat) (radix lo hi : Z) : Z * Z :=
  match fuel with
  | O => (lo, hi)
  | S fuel =>
      if lo <? 0 then borrow_loop fuel radix (i32 (lo + radix)) (i32 (hi - 1))
      else (lo, hi)
  end.

(** [while (lo >= radix) { lo -= radix; hi++; }] on two [int] fields. *)
Fixpoint carry_loop (fuel : nat) (radix lo hi : Z) : Z * Z :=
  match fuel with
  | O => (lo, hi)
  | S fuel =>
      if lo >=? radix then carry_loop fuel radix (i32 (lo - radix)) (i32 (hi + 1))
      else (lo, hi)
  end.

(** Both loops move [lo] by [radix >= 1] at each turn, so [|lo|] turns
    are always enough (see [borrow_loop_exits] and [carry_loop_exits]). *)
Definition normalize_field (radix lo hi : Z) : Z * Z :=
  let '(lo, hi) := borrow_loop (Z.to_nat (- lo)) radix lo hi in
  carry_loop (Z.to_nat lo) radix lo hi.

(** [_days_per_month_table[isleap][month-1]] *)
Definition month_length (isleap : bool) (month : Z) : Z :=
  nth (Z.to_nat (month - 1)) (_days_per_month_table isleap) 0.

(** [add_minutes_to_datetimestruct] *)
Definition add_minutes_to_datetimestruct (dts : npy_datetimestruct) (minutes : Z)
  : npy_datetimestruct :=
  (* MINUTES *)
  let '(mi, ho) := normalize_field 60 (i32 (min dts + minutes)) (hour dts) in
  (* HOURS *)
  let '(ho, da) := normalize_field 24 ho (day dts) in
  let dts := set_day da (set_hour ho (set_min mi dts)) in
  (* DAYS *)
  if day dts <? 1 then
    let dts := set_month (month dts - 1) dts in
    let dts :=
      if month dts <? 1 then set_month 12 (set_year (year dts -! 1) dts) else dts in
    let isleap := is_leapyear (year dts) in
    set_day (day dts + month_length isleap (month dts)) dts
  else if day dts >? 28 then
    let isleap := is_leapyear (year dts) in
    if day dts >? month_length isleap (month dts) then
      let dts := set_day (day dts - month_length isleap (month dts)) dts in
      let dts := set_month (month dts + 1) dts in
      if month dts >? 12 then set_month 1 (set_year (year dts +! 1) dts) else dts
    else dts
  else dts.

(** [add_seconds_to_datetimestruct] *)
Definition add_seconds_to_datetimestruct (dts : npy_datetimestruct) (seconds : Z)
  : npy_datetimestruct :=
  let dts := set_sec (sec dts + seconds) dts in
  if sec dts <? 0 then
    let minutes := Z.quot (sec dts) 60 in
    let dts := set_sec (Z.rem (sec dts) 60) dts in
    let '(minutes, dts) :=
      if sec dts <? 0 then (i32 (minutes - 1), set_sec (sec dts + 60) dts)
      else (minutes, dts) in
    add_minutes_to_datetimestruct dts minutes
  else if sec dts >=? 60 then
    let minutes := Z.quot (sec dts) 60 in
    let dts := set_sec (Z.rem (sec dts) 60) dts in
    add_minutes_to_datetimestruct dts minutes
  else dts.

(* ===================================================================== *)
(** ** Struct <-> value codec *)
(* ===================================================================== *)

(** The block "Divide by the multiplier" of
    [convert_datetimestruct_to_datetime]. *)
Definition divide_by_multiplier (n ret : Z) : Z :=
  if n >? 1 then
    if ret >=? 0 then ret /! n else (ret -! n +! 1) /! n
  else ret.

(** [convert_datetimestruct_to_datetime].  The nested products of the
    source are named [hours], [minutes], ... here. *)
Definition convert_datetimestruct_to_datetime
    (meta : PyArray_DatetimeMetaData) (dts : npy_datetimestruct) : result Z :=
  if year dts =? NPY_DATETIME_NAT then Ok NPY_DATETIME_NAT
  else
    let unscaled : result Z :=
      match base meta with
      | NPY_FR_GENERIC => Error PyExc_ValueError
      | NPY_FR_Y => Ok (year dts -! 1970)
      | NPY_FR_M => Ok (12 *! (year dts -! 1970) +! i32 (month dts - 1))
      | b =>
          let days := get_datetimestruct_days dts in
          let hours := days *! 24 +! hour dts in
          let minutes := hours *! 60 +! min dts in
          let seconds := minutes *! 60 +! sec dts in
          let useconds := seconds *! 1000000 +! us dts in
          let pseconds := useconds *! 1000000 +! ps dts in
          match b with
          | NPY_FR_W => Ok (if days >=? 0 then days /! 7 else (days -! 6) /! 7)
          | NPY_FR_B => Ok (get_nweekdays 0 days)
          | NPY_FR_D => Ok days
          | NPY_FR_h => Ok hours
          | NPY_FR_m => Ok minutes
          | NPY_FR_s => Ok seconds
          | NPY_FR_ms => Ok (seconds *! 1000 +! Z.quot (us dts) 1000)
          | NPY_FR_us => Ok useconds
          | NPY_FR_ns => Ok (useconds *! 1000 +! Z.quot (ps dts) 1000)
          | NPY_FR_ps => Ok pseconds
          | NPY_FR_fs => Ok (pseconds *! 1000 +! Z.quot (as_ dts) 1000)
          | _ => Ok (pseconds *! 1000000 +! as_ dts)
          end
      end in
    match unscaled with
    | Ok ret => Ok (divide_by_multiplier (num meta) ret)
    | Error e => Error e
    end.

(** The output after [memset] and the three stores that follow it. *)
Definition initial_datetimestruct : npy_datetimestruct :=
  mkDts 1970 1 1 0 0 0 0 0 0.

(** The split into whole days and the rest of the day that the branches
    [h] ... [ps] of [convert_datetime_to_datetimestruct] each spell out. *)
Definition split_days (perday dt : Z) (out : npy_datetimestruct)
  : npy_datetimestruct * Z :=
  if dt >=? 0 then
    (set_datetimestruct_days (dt /! perday) out, dt %! perday)
  else
    (set_datetimestruct_days ((dt -! (perday - 1)) /! perday) out,
     (perday - 1) +! (dt +! 1) %! perday).

(** [convert_datetime_to_datetimestruct] *)
Definition convert_datetime_to_datetimestruct
    (meta : PyArray_DatetimeMetaData) (dt : Z) : result npy_datetimestruct :=
  let out := initial_datetimestruct in
  if dt =? NPY_DATETIME_NAT then Ok (set_year NPY_DATETIME_NAT out)
  else
    match base meta with
    | NPY_FR_GENERIC => Error PyExc_ValueError
    | b =>
        let dt := dt *! num meta in
        match b with
        | NPY_FR_Y => Ok (set_year (1970 +! dt) out)
        | NPY_FR_M =>
            if dt >=? 0 then
              Ok (set_month (dt %! 12 +! 1) (set_year (1970 +! dt /! 12) out))
            else
              Ok (set_month (12 +! (dt +! 1) %! 12)
                    (set_year (1969 +! (dt +! 1) /! 12) out))
        | NPY_FR_W => Ok (set_datetimestruct_days (dt *! 7) out)
        | NPY_FR_B =>
            let absdays :=
              if dt >=? 0 then 7 *! ((dt +! 3) /! 5) +! ((dt +! 3) %! 5) -! 3
              else 7 *! ((dt -! 1) /! 5) +! ((dt -! 1) %! 5) +! 1 in
            Ok (set_datetimestruct_days absdays out)
        | NPY_FR_D => Ok (set_datetimestruct_days dt out)
        | NPY_FR_h =>
            let '(out, dt) := split_days 24 dt out in
            Ok (set_hour dt out)
        | NPY_FR_m =>
            let '(out, dt) := split_days (24 * 60) dt out in
            Ok (set_min (dt %! 60) (set_hour (dt /! 60) out))
        | NPY_FR_s =>
            let '(out, dt) := split_days (24 * 60 * 60) dt out in
            Ok (set_sec (dt %! 60)
               (set_min ((dt /! 60) %! 60)
               (set_hour (dt /! (60 * 60)) out)))
        | NPY_FR_ms =>
            let '(out, dt) := split_days (24 * 60 * 60 * 1000) dt out in
            Ok (set_us ((dt %! 1000) *! 1000)
               (set_sec ((dt /! 1000) %! 60)
               (set_min ((dt /! (60 * 1000)) %! 60)
               (set_hour (dt /! (60 * 60 * 1000)) out))))
        | NPY_FR_us =>
            let '(out, dt) := split_days (24 * 60 * 60 * 1000 * 1000) dt out in
            Ok (set_us (dt %! 1000000)
               (set_sec ((dt /! 1000000) %! 60)
               (set_min ((dt /! (60 * 1000000)) %! 60)
               (set_hour (dt /! (60 * 60 * 1000000)) out))))
        | NPY_FR_ns =>
            let '(out, dt) :=
              split_days (24 * 60 * 60 * 1000 * 1000 * 1000) dt out in
            Ok (set_ps ((dt %! 1000) *! 1000)
               (set_us ((dt /! 1000) %! 1000000)
               (set_sec ((dt /! 1000000000) %! 60)
               (set_min ((dt /! (60 * 1000000000)) %! 60)
               (set_hour (dt /! (60 * 60 * 1000000000)) out)))))
        | NPY_FR_ps =>
            let '(out, dt) :=
              split_days (24 * 60 * 60 * 1000 * 1000 * 1000 * 1000) dt out in
            Ok (set_ps (dt %! 1000000)
               (set_us ((dt /! 1000000) %! 1000000)
               (set_sec ((dt /! 1000000000000) %! 60)
               (set_min ((dt /! (60 * 1000000000000)) %! 60)
               (set_hour (dt /! (60 * 60 * 1000000000000)) out)))))
        | NPY_FR_fs =>
            let sub_minute (dt : Z) (out : npy_datetimestruct) :=
              set_as ((dt %! 1000) *! 1000)
              (set_ps ((dt /! 1000) %! 1000000)
              (set_us ((dt /! 1000000000) %! 1000000)
              (set_sec ((dt /! 1000000000000000) %! 60) out))) in
            if dt >=? 0 then
              Ok (sub_minute dt
                 (set_min ((dt /! (60 * 1000000000000000)) %! 60)
                 (set_hour (dt /! (60 * 60 * 1000000000000000)) out)))
            else
              let minutes := dt /! (60 * 1000000000000000) in
              let dt := dt %! (60 * 1000000000000000) in
              let '(dt, minutes) :=
                if dt <? 0 then (dt +! 60 * 1000000000000000, minutes -! 1)
                else (dt, minutes) in
              Ok (sub_minute dt (add_minutes_to_datetimestruct out (i32 minutes)))
        | _ (* NPY_FR_as *) =>
            let sub_second (dt : Z) (out : npy_datetimestruct) :=
              set_as (dt %! 1000000)
              (set_ps ((dt /! 1000000) %! 1000000)
              (set_us ((dt /! 1000000000000) %! 1000000) out)) in
            if dt >=? 0 then
              Ok (sub_second dt (set_sec ((dt /! 1000000000000000000) %! 60) out))
            else
              let seconds := dt /! 1000000000000000000 in
              let dt := dt %! 1000000000000000000 in
              let '(dt, seconds) :=
                if dt <? 0 then (dt +! 1000000000000000000, seconds -! 1)
                else (dt, seconds) in
              Ok (sub_second dt (add_seconds_to_datetimestruct out (i32 seconds)))
        end
    end.

(* ===================================================================== *)
(** ** Unit-factor arithmetic *)
(* ===================================================================== *)

(** [_datetime_factors] *)
Definition _datetime_factors : list Z :=
  [ 1;    (* Years - not used *)
    1;    (* Months - not used *)
    7;    (* Weeks -> Days *)
    1;    (* Business days - not used *)
    24;   (* Days -> Hours *)
    60;   (* Hours -> Minutes *)
    60;   (* Minutes -> Seconds *)
    1000; 1000; 1000; 1000; 1000; 1000;
    1;    (* Attoseconds are the smallest base unit *)
    0 ].  (* Generic units don't have a conversion *)

(** The loop of [get_datetime_units_factor]; [n] is the number of turns
    left, that is [littlebase - unit] when that is positive. *)
Fixpoint units_factor_loop (n : nat) (unit factor : Z) : Z :=
  match n with
  | O => factor
  | S n =>
      let factor := u64 (factor * nth (Z.to_nat unit) _datetime_factors 0) in
      if negb (Z.land factor 0xff00000000000000 =? 0) then 0
      else units_factor_loop n (unit + 1) factor
  end.

(** [get_datetime_units_factor] *)
Definition get_datetime_units_factor (bigbase littlebase : NPY_DATETIMEUNIT) : Z :=
  units_factor_loop (Z.to_nat (unit_value littlebase - unit_value bigbase))
                    (unit_value bigbase) 1.

(** The loop of [_uint64_euclidean_gcd]:
    [while (x != y && y != 0) { tmp = x % y; x = y; y = tmp; }],
    run for at most [turns] turns. *)
Fixpoint euclid_loop (turns : nat) (x y : Z) : Z :=
  match turns with
  | O => x
  | S turns =>
      if negb (x =? y) && negb (y =? 0) then euclid_loop turns y (x mod y)
      else x
  end.

(** Two turns at least halve [y], so 129 turns are enough for any
    [npy_uint64] operands (see [euclid_loop_enough]). *)
Definition euclid_turns : nat := 129.

(** [_uint64_euclidean_gcd] *)
Definition _uint64_euclidean_gcd (x y : Z) : Z :=
  let '(x, y) := if x >? y then (y, x) else (x, y) in
  euclid_loop euclid_turns x y.

(** What [get_datetime_conversion_factor] leaves behind: the two outputs
    and the exception set, if any. *)
Record conversion_factor : Set := mkFactor {
  out_num : Z;
  out_denom : Z;
  raised : option PyExc
}.

(** The unit dependent part of [get_datetime_conversion_factor], for
    [src_base < dst_base]: the values of [num] and [denom] after it. *)
Definition base_conversion (src_base dst_base : NPY_DATETIMEUNIT) : Z * Z :=
  match src_base with
  | NPY_FR_Y =>
      match dst_base with
      | NPY_FR_M => (u64 (1 * 12), 1)
      | NPY_FR_W => (u64 (1 * (97 + 400 * 365)), u64 (1 * (400 * 7)))
      | NPY_FR_B =>
          let n := u64 (1 * Z.quot ((97 + 400 * 365) * 5) 7) in
          (u64 (n * get_datetime_units_factor NPY_FR_B dst_base), u64 (1 * 400))
      | _ =>
          let n := u64 (1 * (97 + 400 * 365)) in
          (u64 (n * get_datetime_units_factor NPY_FR_D dst_base), u64 (1 * 400))
      end
  | NPY_FR_M =>
      match dst_base with
      | NPY_FR_W => (u64 (1 * (97 + 400 * 365)), u64 (1 * (400 * 12 * 7)))
      | _ =>
          let n := u64 (1 * (97 + 400 * 365)) in
          let d := u64 (1 * (400 * 12)) in
          let '(n, d) :=
            match dst_base with
            | NPY_FR_B => (u64 (n * 5), u64 (d * 7))
            | _ => (n, d)
            end in
          (u64 (n * get_datetime_units_factor NPY_FR_D dst_base), d)
      end
  | _ => (u64 (1 * get_datetime_units_factor src_base dst_base), 1)
  end.

(** The last three statements of [get_datetime_conversion_factor]:
    "Return as a fraction in reduced form".  [None] stands for the
    undefined behaviour of the divisions when the computed gcd is 0. *)
Definition reduced_fraction (n d : Z) : option conversion_factor :=
  let gcd := _uint64_euclidean_gcd n d in
  if gcd =? 0 then None
  else Some (mkFactor (i64 (n / gcd)) (i64 (d / gcd)) None).

(** [get_datetime_conversion_factor] *)
Definition get_datetime_conversion_factor
    (src_meta dst_meta : PyArray_DatetimeMetaData) : option conversion_factor :=
  (* Generic units change to the destination with no conversion factor *)
  if unit_eqb (base src_meta) NPY_FR_GENERIC then Some (mkFactor 1 1 None)
  (* Converting to a generic unit from something other than a generic
     unit is an error. *)
  else if unit_eqb (base dst_meta) NPY_FR_GENERIC
  then Some (mkFactor 0 0 (Some PyExc_ValueError))
  else
    let '(src_base, dst_base, swapped) :=
      if unit_leb (base src_meta) (base dst_meta)
      then (base src_meta, base dst_meta, false)
      else (base dst_meta, base src_meta, true) in
    let '(n, d) :=
      if negb (unit_eqb src_base dst_base) then base_conversion src_base dst_base
      else (1, 1) in
    (* If something overflowed, make both num and denom 0 *)
    if d =? 0 then Some (mkFactor 0 0 (Some PyExc_OverflowError))
    else
      (* Swap the numerator and denominator if necessary *)
      let '(n, d) := if swapped then (d, n) else (n, d) in
      let n := u64 (n * u64 (num src_meta)) in
      let d := u64 (d * u64 (num dst_meta)) in
      reduced_fraction n d.

(** The chain of tests on nonlinear units of [datetime_metadata_divides],
    for two different non generic units: either the value returned at
    once, or the values of [num1] and [num2] to go on with. *)
Definition divides_nonlinear (b1 b2 : NPY_DATETIMEUNIT) (num1 num2 : Z)
    (strict_with_nonlinear_units : bool) : bool + Z * Z :=
  let same := unit_eqb in
  if same b1 NPY_FR_B || same b2 NPY_FR_B then inl false
  else if same b1 NPY_FR_Y then
    if same b2 NPY_FR_M then inr (u64 (num1 * 12), num2)
    else if strict_with_nonlinear_units then inl false
    else inl true
  else if same b2 NPY_FR_Y then
    if same b1 NPY_FR_M then inr (num1, u64 (num2 * 12))
    else if strict_with_nonlinear_units then inl false
    else inl true
  else if same b1 NPY_FR_M || same b2 NPY_FR_M then
    if strict_with_nonlinear_units then inl false
    else inl true
  else inr (num1, num2).

(** [datetime_metadata_divides].  [None] stands for the undefined
    behaviour of [num1 % num2] when [num2] is 0. *)
Definition datetime_metadata_divides
    (dividend divisor : PyArray_DatetimeMetaData)
    (strict_with_nonlinear_units : bool) : option bool :=
  let finish (num1 num2 : Z) : option bool :=
    (* Crude, incomplete check for overflow *)
    if negb (Z.land num1 0xff00000000000000 =? 0)
       || negb (Z.land num2 0xff00000000000000 =? 0) then Some false
    else if num2 =? 0 then None
    else Some (num1 mod num2 =? 0) in
  (* Generic units divide into anything *)
  if unit_eqb (base divisor) NPY_FR_GENERIC then Some true
  (* Non-generic units never divide into generic units *)
  else if unit_eqb (base dividend) NPY_FR_GENERIC then Some false
  else
    let num1 := u64 (num dividend) in
    let num2 := u64 (num divisor) in
    (* If the bases are different, factor in a conversion *)
    if negb (unit_eqb (base dividend) (base divisor)) then
      match divides_nonlinear (base dividend) (base divisor) num1 num2
              strict_with_nonlinear_units with
      | inl answer => Some answer
      | inr (num1, num2) =>
          (* Take the greater base (unit sizes are decreasing in enum) *)
          if unit_gtb (base dividend) (base divisor) then
            let num2 :=
              u64 (num2 * get_datetime_units_factor (base divisor) (base dividend)) in
            if num2 =? 0 then Some false else finish num1 num2
          else
            let num1 :=
              u64 (num1 * get_datetime_units_factor (base dividend) (base divisor)) in
            if num1 =? 0 then Some false else finish num1 num2
      end
    else finish num1 num2.

(* ===================================================================== *)
(** ** Casting rules *)
(* ===================================================================== *)

(** Modelled from the spec: the enumeration [NPY_CASTING], declared in a
    header that is not part of the sources at hand; the casting levels
    are "Unsafe, SameKind, Safe, Equiv (= No)". *)
Inductive NPY_CASTING : Set :=
| NPY_NO_CASTING | NPY_EQUIV_CASTING | NPY_SAFE_CASTING
| NPY_SAME_KIND_CASTING | NPY_UNSAFE_CASTING.

(** The body shared by [can_cast_datetime64_units] and
    [can_cast_timedelta64_units]; they differ in the unit [barrier] that
    separates the two kinds of units. *)
Definition can_cast_units_with_barrier (barrier src_unit dst_unit : NPY_DATETIMEUNIT)
    (casting : NPY_CASTING) : bool :=
  let same_side :=
    (unit_leb src_unit barrier && unit_leb dst_unit barrier) ||
    (unit_gtb src_unit barrier && unit_gtb dst_unit barrier) in
  match casting with
  | NPY_UNSAFE_CASTING => true
  | NPY_SAME_KIND_CASTING =>
      if unit_eqb src_unit NPY_FR_GENERIC || unit_eqb dst_unit NPY_FR_GENERIC
      then unit_eqb src_unit dst_unit
      else same_side
  | NPY_SAFE_CASTING =>
      if unit_eqb src_unit NPY_FR_GENERIC || unit_eqb dst_unit NPY_FR_GENERIC
      then unit_eqb src_unit dst_unit
      else unit_leb src_unit dst_unit && same_side
  | _ => unit_eqb src_unit dst_unit
  end.

(** [can_cast_datetime64_units] *)
Definition can_cast_datetime64_units := can_cast_units_with_barrier NPY_FR_D.

(** [can_cast_timedelta64_units] *)
Definition can_cast_timedelta64_units := can_cast_units_with_barrier NPY_FR_M.

(** [a && b] where [b] may be undefined: [b] is evaluated only when [a]
    holds. *)
Definition and_then (a : bool) (b : option bool) : option bool :=
  if a then b else Some false.

(** [can_cast_datetime64_metadata] *)
Definition can_cast_datetime64_metadata
    (src_meta dst_meta : PyArray_DatetimeMetaData) (casting : NPY_CASTING)
  : option bool :=
  match casting with
  | NPY_UNSAFE_CASTING => Some true
  | NPY_SAME_KIND_CASTING =>
      Some (can_cast_datetime64_units (base src_meta) (base dst_meta) casting)
  | NPY_SAFE_CASTING =>
      and_then (can_cast_datetime64_units (base src_meta) (base dst_meta) casting)
               (datetime_metadata_divides src_meta dst_meta false)
  | _ => Some (unit_eqb (base src_meta) (base dst_meta) && (num src_meta =? num dst_meta))
  end.

(** [can_cast_timedelta64_metadata] *)
Definition can_cast_timedelta64_metadata
    (src_meta dst_meta : PyArray_DatetimeMetaData) (casting : NPY_CASTING)
  : option bool :=
  match casting with
  | NPY_UNSAFE_CASTING => Some true
  | NPY_SAME_KIND_CASTING =>
      Some (can_cast_timedelta64_units (base src_meta) (base dst_meta) casting)
  | NPY_SAFE_CASTING =>
      and_then (can_cast_timedelta64_units (base src_meta) (base dst_meta) casting)
               (datetime_metadata_divides src_meta dst_meta true)
  | _ => Some (unit_eqb (base src_meta) (base dst_meta) && (num src_meta =? num dst_meta))
  end.

(* ===================================================================== *)
(** ** Metadata GCD *)
(* ===================================================================== *)

(** The chain of tests "First validate that the units have a reasonable
    GCD" of [compute_datetime_metadata_greatest_common_divisor], for two
    different non generic units.  It yields the values of [base] ([None]
    while unassigned), [num1] and [num2], or jumps to
    [incompatible_units]. *)
Definition validate_units (meta1 meta2 : PyArray_DatetimeMetaData)
    (num1 num2 : Z)
    (strict_with_nonlinear_units1 strict_with_nonlinear_units2 : bool)
  : result (option NPY_DATETIMEUNIT * Z * Z) :=
  let incompatible_units := Error PyExc_TypeError in
  let same := unit_eqb in
  if same (base meta1) NPY_FR_Y then
    if same (base meta2) NPY_FR_M then Ok (Some NPY_FR_M, u64 (num1 * 12), num2)
    else if strict_with_nonlinear_units1 then incompatible_units
    else Ok (Some (base meta2), num1, num2)
  else if same (base meta1) NPY_FR_B || same (base meta2) NPY_FR_B then
    if strict_with_nonlinear_units1 || strict_with_nonlinear_units2
    then incompatible_units
    else
      let b := if unit_gtb (base meta1) (base meta2)
               then base meta1 else base meta2 in
      (* When combining business days with other units, end up with
         days instead of business days. *)
      let b := if same b NPY_FR_B then NPY_FR_D else b in
      Ok (Some b, num1, num2)
  else if same (base meta2) NPY_FR_Y then
    if same (base meta1) NPY_FR_M then Ok (Some NPY_FR_M, num1, u64 (num2 * 12))
    else if strict_with_nonlinear_units2 then incompatible_units
    else Ok (Some (base meta1), num1, num2)
  else if same (base meta1) NPY_FR_M then
    if strict_with_nonlinear_units1 then incompatible_units
    else Ok (Some (base meta2), num1, num2)
  else if same (base meta2) NPY_FR_M then
    if strict_with_nonlinear_units2 then incompatible_units
    else Ok (Some (base meta1), num1, num2)
  else Ok (None, num1, num2).

(** The end of [compute_datetime_metadata_greatest_common_divisor], from
    "Compute the GCD of the resulting multipliers" on. *)
Definition fill_out_meta (b : NPY_DATETIMEUNIT) (num1 num2 : Z)
  : result PyArray_DatetimeMetaData :=
  let units_overflow := Error PyExc_OverflowError in
  (* Compute the GCD of the resulting multipliers *)
  let n := _uint64_euclidean_gcd num1 num2 in
  (* Fill the 'out_meta' values *)
  let out_meta := mkMeta b (i32 n) in
  if (num out_meta <=? 0) || negb (n =? u64 (num out_meta))
  then units_overflow else Ok out_meta.

(** [compute_datetime_metadata_greatest_common_divisor].  The block
    "Take the greater base" runs after every successful validation and
    assigns [base] again. *)
Definition compute_datetime_metadata_greatest_common_divisor
    (meta1 meta2 : PyArray_DatetimeMetaData)
    (strict_with_nonlinear_units1 strict_with_nonlinear_units2 : bool)
  : result PyArray_DatetimeMetaData :=
  let units_overflow := Error PyExc_OverflowError in
  (* If either unit is generic, adopt the metadata from the other one *)
  if unit_eqb (base meta1) NPY_FR_GENERIC then Ok meta2
  else if unit_eqb (base meta2) NPY_FR_GENERIC then Ok meta1
  else
    let num1 := u64 (num meta1) in
    let num2 := u64 (num meta2) in
    if unit_eqb (base meta1) (base meta2) then fill_out_meta (base meta1) num1 num2
    else
      match validate_units meta1 meta2 num1 num2
              strict_with_nonlinear_units1 strict_with_nonlinear_units2 with
      | Error e => Error e
      | Ok (_, num1, num2) =>
          (* Take the greater base (unit sizes are decreasing in enum) *)
          if unit_gtb (base meta1) (base meta2) then
            let num2 :=
              u64 (num2 * get_datetime_units_factor (base meta2) (base meta1)) in
            if num2 =? 0 then units_overflow else fill_out_meta (base meta1) num1 num2
          else
            let num1 :=
              u64 (num1 * get_datetime_units_factor (base meta1) (base meta2)) in
            if num1 =? 0 then units_overflow else fill_out_meta (base meta2) num1 num2
      end.

(** The test of [has_equivalent_datetime_metadata] on two metadata: for
    generic units, the [num] is ignored. *)
Definition equivalent_datetime_metadata (meta1 meta2 : PyArray_DatetimeMetaData) : bool :=
  (unit_eqb (base meta1) NPY_FR_GENERIC && unit_eqb (base meta2) NPY_FR_GENERIC)
  || (unit_eqb (base meta1) (base meta2) && (num meta1 =? num meta2)).

(* ===================================================================== *)
(** ** Metadata strings *)
(* ===================================================================== *)

Local Open Scope char_scope.

(** A C string is a [string]; the byte at its length is the terminating
    NUL.  Pointers into it are offsets. *)
Definition char_at (buf : string) (i : nat) : ascii :=
  match String.get i buf with
  | Some c => c
  | None => zero
  end.

(** The rest of [buf] from offset [i] on. *)
Definition from_offset (buf : string) (i : nat) : string :=
  String.substring i (String.length buf - i) buf.

Definition isspace (c : ascii) : bool :=
  let n := nat_of_ascii c in
  (n =? 32)%nat || ((9 <=? n)%nat && (n <=? 13)%nat).

Definition digit_value (c : ascii) : option Z :=
  let n := nat_of_ascii c in
  if ((48 <=? n)%nat && (n <=? 57)%nat)%bool then Some (Z.of_nat (n - 48)) else None.

Fixpoint skip_spaces (s : string) : nat :=
  match s with
  | String c rest => if isspace c then S (skip_spaces rest) else O
  | EmptyString => O
  end.

(** The digits at the head of [s]: their value after [acc] and their
    number. *)
Fixpoint scan_digits (s : string) (acc : Z) : Z * nat :=
  match s with
  | String c rest =>
      match digit_value c with
      | Some d => let '(v, n) := scan_digits rest (acc * 10 + d)%Z in (v, S n)
      | None => (acc, O)
      end
  | EmptyString => (acc, O)
  end.

(** The C library function [strtol] in base 10 (ISO C, 7.22.1.4):
    optional white space, an optional sign, then digits; the value
    saturates at the bounds of [long], taken to be 64 bits wide.  Returns
    the value and the number of characters consumed, which is 0 when
    there is no digit. *)
Definition strtol (s : string) : Z * nat :=
  let nspace := skip_spaces s in
  let s1 := from_offset s nspace in
  let '(negative, nsign) :=
    match s1 with
    | String "-" _ => (true, 1%nat)
    | String "+" _ => (false, 1%nat)
    | _ => (false, 0%nat)
    end in
  let '(v, ndigits) := scan_digits (from_offset s1 nsign) 0%Z in
  if (ndigits =? 0)%nat then (0%Z, 0%nat)
  else
    let v := if negative then Z.max NPY_MIN_INT64 (- v) else Z.min NPY_MAX_INT64 v in
    (v, (nspace + nsign + ndigits)%nat).

(** [parse_datetime_unit_from_string]; [None] for the error return -1. *)
Definition parse_datetime_unit_from_string (buf : string) (str len : nat)
  : option NPY_DATETIMEUNIT :=
  let c0 := char_at buf str in
  let c1 := char_at buf (str + 1) in
  if (len =? 1)%nat then
    match c0 with
    | "Y" => Some NPY_FR_Y
    | "M" => Some NPY_FR_M
    | "W" => Some NPY_FR_W
    | "B" => Some NPY_FR_B
    | "D" => Some NPY_FR_D
    | "h" => Some NPY_FR_h
    | "m" => Some NPY_FR_m
    | "s" => Some NPY_FR_s
    | _ => None
    end
  else if ((len =? 2)%nat && Ascii.eqb c1 "s")%bool then
    match c0 with
    | "m" => Some NPY_FR_ms
    | "u" => Some NPY_FR_us
    | "n" => Some NPY_FR_ns
    | "p" => Some NPY_FR_ps
    | "f" => Some NPY_FR_fs
    | "a" => Some NPY_FR_as
    | _ => None
    end
  else None.

Local Close Scope char_scope.

(** The outcome of parsing metadata.  [Unspecified] stands for the
    division [totry[i] / den] of [convert_datetime_divisor_to_multiple]
    when [den] is not positive: it is undefined for 0, and for a negative
    [den] it depends on the signedness the compiler gives the enumeration
    type of [_multiples_table]. *)
Inductive parse_outcome : Set :=
| Parsed (meta : PyArray_DatetimeMetaData)
| Raised (e : PyExc)
| Unspecified.

(** [_multiples_table]: the row of divisors to try and the row of the
    units they lead to.  For [s] and finer the code writes
    [base + 1] and [base + 2] into the last row before it reads it. *)
Definition _multiples_table (b : NPY_DATETIMEUNIT) : list Z * list NPY_DATETIMEUNIT :=
  match b with
  | NPY_FR_Y => ([12; 52; 365], [NPY_FR_M; NPY_FR_W; NPY_FR_D])
  | NPY_FR_M => ([4; 30; 720], [NPY_FR_W; NPY_FR_D; NPY_FR_h])
  | NPY_FR_W => ([5; 7; 168; 10080], [NPY_FR_B; NPY_FR_D; NPY_FR_h; NPY_FR_m])
  | NPY_FR_B => ([24; 1440; 86400], [NPY_FR_h; NPY_FR_m; NPY_FR_s])
  | NPY_FR_D => ([24; 1440; 86400], [NPY_FR_h; NPY_FR_m; NPY_FR_s])
  | NPY_FR_h => ([60; 3600], [NPY_FR_m; NPY_FR_s])
  | NPY_FR_m => ([60; 60000], [NPY_FR_s; NPY_FR_ms])
  | NPY_FR_s => ([1000; 1000000], [NPY_FR_ms; NPY_FR_us])
  | NPY_FR_ms => ([1000; 1000000], [NPY_FR_us; NPY_FR_ns])
  | NPY_FR_us => ([1000; 1000000], [NPY_FR_ns; NPY_FR_ps])
  | NPY_FR_ns => ([1000; 1000000], [NPY_FR_ps; NPY_FR_fs])
  | NPY_FR_ps => ([1000; 1000000], [NPY_FR_fs; NPY_FR_as])
  | NPY_FR_fs => ([1000; 1000000], [NPY_FR_as; NPY_FR_GENERIC])
  | _ => ([1000; 1000000], [NPY_FR_GENERIC; NPY_FR_GENERIC])
  end.

(** The number [num] of entries that [convert_datetime_divisor_to_multiple]
    tries. *)
Definition multiples_to_try (b : NPY_DATETIMEUNIT) : nat :=
  match b with
  | NPY_FR_W => 4
  | NPY_FR_Y | NPY_FR_M | NPY_FR_B | NPY_FR_D => 3
  | NPY_FR_fs => 1
  | NPY_FR_as => 0
  | _ => 2
  end.

(** The loop [for (i = 0; i < num; i++)] of
    [convert_datetime_divisor_to_multiple]: the first entry that [den]
    divides, with the quotient. *)
Fixpoint first_multiple (totry : list Z) (baseunit : list NPY_DATETIMEUNIT)
    (den : Z) : option (NPY_DATETIMEUNIT * Z) :=
  match totry, baseunit with
  | t :: totry, b :: baseunit =>
      if Z.rem t den =? 0 then Some (b, Z.quot t den)
      else first_multiple totry baseunit den
  | _, _ => None
  end.

(** [convert_datetime_divisor_to_multiple] *)
Definition convert_datetime_divisor_to_multiple
    (meta : PyArray_DatetimeMetaData) (den : Z) : parse_outcome :=
  match base meta with
  | NPY_FR_GENERIC => Raised PyExc_ValueError
  | b =>
      let '(totry, baseunit) := _multiples_table b in
      let n := multiples_to_try b in
      if (den <=? 0) && negb (n =? 0)%nat then Unspecified
      else
        match first_multiple (firstn n totry) (firstn n baseunit) den with
        | None => Raised PyExc_ValueError
        | Some (b', q) => Parsed (mkMeta b' (i32 (num meta * q)))
        end
  end.

(** [while (substrend - str < len && *substrend != stop) ++substrend;]
    with [limit] the offset [str + len]; [turns] bounds the turns. *)
Fixpoint scan_until (stop : ascii) (buf : string) (limit : nat)
    (turns : nat) (substrend : nat) : nat :=
  match turns with
  | O => substrend
  | S turns =>
      if ((substrend <? limit)%nat && negb (Ascii.eqb (char_at buf substrend) stop))%bool
      then scan_until stop buf limit turns (S substrend)
      else substrend
  end.

(** [parse_datetime_extended_unit_from_string]; [str] is an offset in
    [buf].  Every [bad_input] exit raises [TypeError]. *)
Definition parse_datetime_extended_unit_from_string
    (buf : string) (str len : nat) : parse_outcome :=
  let bad_input := Raised PyExc_TypeError in
  let limit := (str + len)%nat in
  (* First comes an optional integer multiplier *)
  let '(v, consumed) := strtol (from_offset buf str) in
  let num0 := if (consumed =? 0)%nat then 1 else i32 v in
  let substr := (str + consumed)%nat in
  (* Next comes the unit itself, followed by either '/' or the string end *)
  let substrend := scan_until "/" buf limit (limit - substr) substr in
  if (substr =? substrend)%nat then bad_input
  else
    match parse_datetime_unit_from_string buf substr (substrend - substr) with
    | None => Raised PyExc_TypeError
    | Some b =>
        let out_meta := mkMeta b num0 in
        let with_den (den : Z) : parse_outcome :=
          if negb (den =? 1) then convert_datetime_divisor_to_multiple out_meta den
          else Parsed out_meta in
        let substr := substrend in
        (* Next comes an optional integer denominator *)
        if ((substr <? limit)%nat && Ascii.eqb (char_at buf substr) "/")%bool then
          let substr := S substr in
          let '(d, consumed) := strtol (from_offset buf substr) in
          let substrend := (substr + consumed)%nat in
          (* If the '/' exists, there must be a number followed by ']' *)
          if ((consumed =? 0)%nat || negb (Ascii.eqb (char_at buf substrend) "]"))%bool
          then bad_input
          else with_den (i32 d)
        else if negb (substr =? limit)%nat then bad_input
        else with_den 1
    end.

(** [parse_datetime_metadata_from_metastr] *)
Definition parse_datetime_metadata_from_metastr (metastr : string) (len : nat)
  : parse_outcome :=
  let bad_input := Raised PyExc_TypeError in
  (* Treat the empty string as generic units *)
  if (len =? 0)%nat then Parsed (mkMeta NPY_FR_GENERIC 1)
  (* The metadata string must start with a '[' *)
  else if ((len <? 3)%nat || negb (Ascii.eqb (char_at metastr 0) "["))%bool then bad_input
  else
    let substr := 1%nat in
    let substrend := scan_until "]" metastr len (len - substr) substr in
    if ((substrend =? len)%nat || (substr =? substrend)%nat)%bool then bad_input
    else
      (* Parse the extended unit inside the [] *)
      match parse_datetime_extended_unit_from_string metastr substr (substrend - substr) with
      | Parsed meta =>
          let substr := S substrend in
          if negb (substr =? len)%nat then bad_input else Parsed meta
      | failure => failure
      end.

(* ===================================================================== *)
(** ** Reference calendar arithmetic used in the statements *)
(* ===================================================================== *)

(** Days from 1970-01-01 to January 1st of [y], by floor division. *)
Definition days_before_year (y : Z) : Z :=
  365 * (y - 1970) + (y - 1969) / 4 - (y - 1901) / 100 + (y - 1601) / 400.

(** Days from January 1st to the first day of [month]. *)
Definition days_before_month (isleap : bool) (month : Z) : Z :=
  fold_right Z.add 0 (firstn (Z.to_nat (month - 1)) (_days_per_month_table isleap)).

(** The length of [month] in [year]. *)
Definition days_in_month (year month : Z) : Z :=
  month_length (is_leapyear year) month.

(** The day offsets on which [days_to_yearsdays] re-centres without
    leaving [npy_int64]; it contains every offset on which no
    intermediate value of the calendar arithmetic leaves [npy_int64]. *)
Definition day_offset_in_range (d : Z) : Prop :=
  NPY_MIN_INT64 + (365 * 30 + 7) + (days_per_400years - 1) <= d <= NPY_MAX_INT64.

(** What the code computes for day [r] of the 400 year cycle that starts
    on 2000-01-01, compared with the reference arithmetic. *)
Definition cycle_day_ok (r : Z) : bool :=
  let '(y, dd) := within_400years 0 r in
  (0 <=? y) && (y <? 400) &&
  match find_month (_days_per_month_table (is_leapyear (2000 + y))) 0 dd with
  | Some (m, d) =>
      (1 <=? m) && (m <=? 12) && (0 <=? d) && (d <? days_in_month (2000 + y) m) &&
      (days_before_year (2000 + y) + days_before_month (is_leapyear (2000 + y)) m + d
       =? 365 * 30 + 7 + r)
  | None => false
  end.

(** [cycle_day_ok] on the [n] days from [r] on. *)
Fixpoint cycle_days_ok (n : nat) (r : Z) : bool :=
  match n with
  | O => true
  | S n => cycle_day_ok r && cycle_days_ok n (r + 1)
  end.

(** The multiplier that the validation leaves for a unit [b1] paired with
    [b2]: only years paired with months are scaled. *)
Definition scaled_multiplier (b1 b2 : NPY_DATETIMEUNIT) (n : Z) : Z :=
  if unit_eqb b1 NPY_FR_Y && unit_eqb b2 NPY_FR_M then u64 (n * 12) else n.

(* ===================================================================== *)
(** ** Reference notions used in the further properties *)
(* ===================================================================== *)

(** The day number that the reference arithmetic gives the date of a
    struct. *)
Definition reference_day (dts : npy_datetimestruct) : Z :=
  days_before_year (year dts)
  + days_before_month (is_leapyear (year dts)) (month dts)
  + (day dts - 1).

(** The date fields of a struct name a day of the calendar. *)
Definition valid_date (dts : npy_datetimestruct) : Prop :=
  1 <= month dts <= 12 /\ 1 <= day dts <= days_in_month (year dts) (month dts).

(** The time fields of a struct are in range; a second of 60 is only
    accepted on input and is not in range here. *)
Definition valid_time (dts : npy_datetimestruct) : Prop :=
  0 <= hour dts < 24 /\ 0 <= min dts < 60 /\ 0 <= sec dts < 60
  /\ 0 <= us dts < 1000000 /\ 0 <= ps dts < 1000000 /\ 0 <= as_ dts < 1000000.

(** Years for which the day number of any of their days, and every
    intermediate value of [get_datetimestruct_days], is well inside
    [npy_int64]. *)
Definition year_in_range (y : Z) : Prop :=
  -10000000000000000 <= y <= 10000000000000000.

(** The instant of a struct, in attoseconds from the epoch, by the
    reference arithmetic. *)
Definition struct_attoseconds (dts : npy_datetimestruct) : Z :=
  (((((reference_day dts * 24 + hour dts) * 60 + min dts) * 60 + sec dts)
    * 1000000 + us dts) * 1000000 + ps dts) * 1000000 + as_ dts.

(** The length of a unit in attoseconds, for the units of constant
    length: weeks, days and the units of time. *)
Definition unit_attoseconds (u : NPY_DATETIMEUNIT) : Z :=
  match u with
  | NPY_FR_W => 604800000000000000000000
  | NPY_FR_D => 86400000000000000000000
  | NPY_FR_h => 3600000000000000000000
  | NPY_FR_m => 60000000000000000000
  | NPY_FR_s => 1000000000000000000
  | NPY_FR_ms => 1000000000000000
  | NPY_FR_us => 1000000000000
  | NPY_FR_ns => 1000000000
  | NPY_FR_ps => 1000000
  | NPY_FR_fs => 1000
  | NPY_FR_as => 1
  | _ => 0
  end.

(** Weeks, days and the units of time. *)
Definition constant_length_unit (u : NPY_DATETIMEUNIT) : bool :=
  0 <? unit_attoseconds u.

(** The values for which the codec properties below are proved: the
    value times the multiplier is at most [2^58] in absolute value, and
    fits an [int] for business days, whose count [get_nweekdays] returns
    as an [int]. *)
Definition codec_bound (u : NPY_DATETIMEUNIT) : Z :=
  match u with
  | NPY_FR_B => 2147483647
  | _ => 288230376151711744
  end.

Definition value_in_codec_range (meta : PyArray_DatetimeMetaData) (v : Z) : Prop :=
  v <> NPY_DATETIME_NAT
  /\ - codec_bound (base meta) <= v * num meta <= codec_bound (base meta).

(* ===================================================================== *)
(** ** Casts between metadata *)
(* ===================================================================== *)

(** The test [src_meta->base == dst_meta->base && src_meta->num ==
    dst_meta->num] that short-circuits both casts. *)
Definition same_metadata (src_meta dst_meta : PyArray_DatetimeMetaData) : bool :=
  unit_eqb (base src_meta) (base dst_meta) && (num src_meta =? num dst_meta).

(** [cast_datetime_to_datetime]: [Ok dst_dt] for the return value 0;
    [Error e] for the return value -1, with [*dst_dt] set to NaT. *)
Definition cast_datetime_to_datetime
    (src_meta dst_meta : PyArray_DatetimeMetaData) (src_dt : Z) : result Z :=
  (* If the metadata is the same, short-circuit the conversion *)
  if same_metadata src_meta dst_meta then Ok src_dt
  else
    (* Otherwise convert through a datetimestruct *)
    match convert_datetime_to_datetimestruct src_meta src_dt with
    | Error e => Error e
    | Ok dts => convert_datetimestruct_to_datetime dst_meta dts
    end.

(** What [cast_timedelta_to_timedelta] does: it returns 0 with a value,
    returns -1 with or without an exception set, or divides by a zero
    denominator, which is undefined. *)
Inductive timedelta_cast : Set :=
| Cast (dst_dt : Z)
| CastFailed (exception : option PyExc)
| CastUndefined.

(** [cast_timedelta_to_timedelta] *)
Definition cast_timedelta_to_timedelta
    (src_meta dst_meta : PyArray_DatetimeMetaData) (src_dt : Z) : timedelta_cast :=
  (* If the metadata is the same, short-circuit the conversion *)
  if same_metadata src_meta dst_meta then Cast src_dt
  else
    (* Get the conversion factor *)
    match get_datetime_conversion_factor src_meta dst_meta with
    | None => CastUndefined
    | Some factor =>
        let n := out_num factor in
        let denom := out_denom factor in
        if n =? 0 then CastFailed (raised factor)
        else if denom =? 0 then CastUndefined
        (* Apply the scaling *)
        else if src_dt <? 0 then Cast ((src_dt *! n -! (denom -! 1)) /! denom)
        else Cast (src_dt *! n /! denom)
    end.

(* ===================================================================== *)
(** ** Reference counting of weekdays *)
(* ===================================================================== *)

(** Day [d] after 1970-01-01 falls on Monday to Friday; day 4 is Monday
    1970-01-05. *)
Definition is_weekday (d : Z) : bool := (d - 4) mod 7 <? 5.

(** The number of weekdays among the [n] days that follow day [d], that
    is among [d + 1], ..., [d + n]. *)
Fixpoint count_weekdays (n : nat) (d : Z) : Z :=
  match n with
  | O => 0
  | S n => (if is_weekday (d + 1) then 1 else 0) + count_weekdays n (d + 1)
  end.

(* ===================================================================== *)
(** ** Conversion to Python objects *)
(* ===================================================================== *)

(** The object that a conversion hands back: [None], an integer made by
    [PyLong_FromLongLong], or the request it makes to the interpreter's
    datetime module, with the [int] arguments it passes:
    [PyDate_FromDate], [PyDateTime_FromDateAndTime], [PyDelta_FromDSU]. *)
Inductive PyObject : Set :=
| Py_None
| PyLong_FromLongLong (v : Z)
| PyDate_FromDate (year month day : Z)
| PyDateTime_FromDateAndTime (year month day hour minute second usecond : Z)
| PyDelta_FromDSU (days seconds useconds : Z).

(** [convert_datetime_to_pyobject]; [Error e] for the return value NULL
    with the exception of [convert_datetime_to_datetimestruct] set.  The
    [npy_int64] year is passed as an [int]. *)
Definition convert_datetime_to_pyobject (dt : Z) (meta : PyArray_DatetimeMetaData)
  : result PyObject :=
  (* Convert NaT (not-a-time) and any value with generic units into None. *)
  if (dt =? NPY_DATETIME_NAT) || unit_eqb (base meta) NPY_FR_GENERIC then Ok Py_None
  (* If the type's precision is greater than microseconds, return an int *)
  else if unit_gtb (base meta) NPY_FR_us then Ok (PyLong_FromLongLong dt)
  else
    (* Convert to a datetimestruct *)
    match convert_datetime_to_datetimestruct meta dt with
    | Error e => Error e
    | Ok dts =>
        (* If the year is outside the range of years supported by Python's
           datetime, or the datetime64 falls on a leap second, return a
           raw int. *)
        if (year dts <? 1) || (year dts >? 9999) || (sec dts =? 60)
        then Ok (PyLong_FromLongLong dt)
        (* If the type's precision is greater than days, return a datetime *)
        else if unit_gtb (base meta) NPY_FR_D then
          Ok (PyDateTime_FromDateAndTime (i32 (year dts)) (month dts) (day dts)
                (hour dts) (min dts) (sec dts) (us dts))
        (* Otherwise return a date *)
        else Ok (PyDate_FromDate (i32 (year dts)) (month dts) (day dts))
    end.

(** The [switch] of [convert_timedelta_to_pyobject]: from [value] in
    units of [b] to days in [value], with [seconds] and [useconds]. *)
Definition timedelta_days_seconds_useconds (b : NPY_DATETIMEUNIT) (value : Z)
  : Z * Z * Z :=
  match b with
  | NPY_FR_W => (value *! 7, 0, 0)
  | NPY_FR_D => (value, 0, 0)
  | NPY_FR_h =>
      let seconds := i32 ((value %! 24) *! (60 * 60)) in
      (value /! 24, seconds, 0)
  | NPY_FR_m =>
      let seconds := i32 (i32 (value %! (24 * 60)) * 60) in
      (value /! (24 * 60), seconds, 0)
  | NPY_FR_s =>
      let seconds := i32 (value %! (24 * 60 * 60)) in
      (value /! (24 * 60 * 60), seconds, 0)
  | NPY_FR_ms =>
      let useconds := i32 (i32 (value %! 1000) * 1000) in
      let value := value /! 1000 in
      let seconds := i32 (value %! (24 * 60 * 60)) in
      (value /! (24 * 60 * 60), seconds, useconds)
  | NPY_FR_us =>
      let useconds := i32 (value %! (1000 * 1000)) in
      let value := value /! (1000 * 1000) in
      let seconds := i32 (value %! (24 * 60 * 60)) in
      (value /! (24 * 60 * 60), seconds, useconds)
  | _ => (value, 0, 0)
  end.

(** [convert_timedelta_to_pyobject] *)
Definition convert_timedelta_to_pyobject (td : Z) (meta : PyArray_DatetimeMetaData)
  : PyObject :=
  (* Convert NaT (not-a-time) into None. *)
  if td =? NPY_DATETIME_NAT then Py_None
  (* If the type's precision is greater than microseconds, is Y/M/B
     (nonlinear units), or is generic units, return an int *)
  else if unit_gtb (base meta) NPY_FR_us
          || unit_eqb (base meta) NPY_FR_Y
          || unit_eqb (base meta) NPY_FR_M
          || unit_eqb (base meta) NPY_FR_B
          || unit_eqb (base meta) NPY_FR_GENERIC
  then PyLong_FromLongLong td
  else
    (* Apply the unit multiplier (TODO: overflow treatment...) *)
    let value := td *! num meta in
    (* Convert to days/seconds/useconds *)
    let '(value, seconds, useconds) :=
      timedelta_days_seconds_useconds (base meta) value in
    (* If it would overflow the datetime.timedelta days, return a raw int *)
    if (value <? -999999999) || (value >? 999999999) then PyLong_FromLongLong td
    else PyDelta_FromDSU (i32 value) seconds useconds.

(* ===================================================================== *)
(** ** Properties *)
(* ===================================================================== *)

(** *** Fixed width integers *)

Lemma wrap_signed_small w z :
  0 < w -> - 2 ^ (w - 1) <= z < 2 ^ (w - 1) -> wrap_signed w z = z.
Proof.
  intros Hw H. unfold wrap_signed.
  assert (2 ^ w = 2 * 2 ^ (w - 1)) as ->.
  { rewrite <- Z.pow_succ_r by lia. f_equal. lia. }
  rewrite Z.mod_small; lia.
Qed.

Lemma i64_wrap z : i64 z = wrap_signed 64 z.
Proof.
  unfold i64, NPY_MIN_INT64, NPY_MAX_INT64.
  destruct (Z.leb_spec (-9223372036854775808) z), (Z.leb_spec z 9223372036854775807);
    cbn [andb]; try reflexivity.
  symmetry. apply wrap_signed_small; [lia|]. change (2 ^ (64 - 1)) with 9223372036854775808. lia.
Qed.

Lemma i64_small z : NPY_MIN_INT64 <= z <= NPY_MAX_INT64 -> i64 z = z.
Proof.
  unfold i64. intros [H1 H2].
  apply Z.leb_le in H1, H2. rewrite H1, H2. reflexivity.
Qed.

Lemma i32_small z : -2147483648 <= z <= 2147483647 -> i32 z = z.
Proof.
  unfold i32. intros [H1 H2].
  apply Z.leb_le in H1, H2. rewrite H1, H2. reflexivity.
Qed.

Lemma u64_mod z : u64 z = z mod 2 ^ 64.
Proof.
  unfold u64.
  destruct (Z.leb_spec 0 z), (Z.leb_spec z 18446744073709551615);
    cbn [andb]; try reflexivity.
  symmetry. apply Z.mod_small. change (2 ^ 64) with 18446744073709551616. lia.
Qed.

Lemma i64_add_l a b : i64 (i64 a + b) = i64 (a + b).
Proof.
  rewrite !i64_wrap. unfold wrap_signed. f_equal.
  replace ((a + 2 ^ (64 - 1)) mod 2 ^ 64 - 2 ^ (64 - 1) + b + 2 ^ (64 - 1))
    with ((a + 2 ^ (64 - 1)) mod 2 ^ 64 + b) by ring.
  rewrite Zplus_mod_idemp_l. f_equal. ring.
Qed.

Lemma i64_add_r a b : i64 (a + i64 b) = i64 (a + b).
Proof. rewrite Z.add_comm, i64_add_l. f_equal. ring. Qed.

Lemma i64_sub_l a b : i64 (i64 a - b) = i64 (a - b).
Proof. unfold Z.sub. apply i64_add_l. Qed.

Ltac zdiv := Z.to_euclidean_division_equations; lia.

Lemma is_leapyear_mod y :
  is_leapyear y = (y mod 4 =? 0) && (negb (y mod 100 =? 0) || (y mod 400 =? 0)).
Proof.
  unfold is_leapyear, mod64.
  change 3 with (Z.ones 2). rewrite Z.land_ones by lia. change (2 ^ 2) with 4.
  destruct (Z.eqb_spec (y mod 4) 0); [|reflexivity]. cbn [andb].
  destruct (Z.eqb_spec (Z.rem y 100) 0), (Z.eqb_spec (y mod 100) 0),
           (Z.eqb_spec (Z.rem y 400) 0), (Z.eqb_spec (y mod 400) 0);
    try reflexivity; exfalso; zdiv.
Qed.

Lemma is_leapyear_shift y q : is_leapyear (y + 400 * q) = is_leapyear y.
Proof.
  rewrite !is_leapyear_mod.
  replace ((y + 400 * q) mod 4) with (y mod 4) by zdiv.
  replace ((y + 400 * q) mod 100) with (y mod 100) by zdiv.
  replace ((y + 400 * q) mod 400) with (y mod 400) by zdiv.
  reflexivity.
Qed.

Lemma days_before_year_shift y q :
  days_before_year (y + 400 * q) = days_before_year y + days_per_400years * q.
Proof. unfold days_before_year, days_per_400years. zdiv. Qed.

(** Strip the wrap-around from every operation whose exact result is
    in range. *)
Ltac strip64 :=
  repeat match goal with
    | |- context [i64 ?z] =>
        rewrite (i64_small z) by (unfold NPY_MIN_INT64, NPY_MAX_INT64; zdiv)
    end.

Lemma split_400years_floor d :
  day_offset_in_range d ->
  split_400years d =
    (400 * ((d - (365 * 30 + 7)) / days_per_400years),
     (d - (365 * 30 + 7)) mod days_per_400years).
Proof.
  unfold day_offset_in_range, NPY_MIN_INT64, NPY_MAX_INT64, split_400years,
    days_per_400years, add64, sub64, mul64, div64, mod64.
  intros H. cbn -[Z.mul Z.add Z.sub Z.div Z.modulo Z.quot Z.rem i64 Z.geb Z.ltb] in *.
  strip64.
  destruct (Z.geb_spec (d - (365 * 30 + 7)) 0).
  - strip64. f_equal; zdiv.
  - destruct (Z.ltb_spec (Z.rem (d - (365 * 30 + 7)) (400 * 365 + 100 - 4 + 1)) 0);
      strip64; f_equal; zdiv.
Qed.

Lemma within_400years_shift y0 r :
  - 2 ^ 62 <= y0 <= 2 ^ 62 -> 0 <= r < days_per_400years ->
  within_400years y0 r =
    (y0 + fst (within_400years 0 r), snd (within_400years 0 r)).
Proof.
  unfold within_400years, days_per_400years, add64, sub64, mul64, div64, mod64.
  intros Hy Hr.
  destruct (Z.geb_spec r 366); [|cbn; f_equal; lia].
  strip64.
  destruct (Z.geb_spec (Z.rem (r - 1) (100 * 365 + 25 - 1)) 365);
    [|cbn; strip64; f_equal; lia].
  strip64.
  destruct (Z.geb_spec (Z.rem (Z.rem (r - 1) (100 * 365 + 25 - 1) + 1) (4 * 365 + 1)) 366);
    cbn [fst snd]; strip64; f_equal; lia.
Qed.

Lemma cycle_days_ok_all n r0 r :
  cycle_days_ok n r0 = true -> r0 <= r < r0 + Z.of_nat n -> cycle_day_ok r = true.
Proof.
  revert r0. induction n as [|n IH]; intros r0 Hn Hr; [lia|].
  cbn [cycle_days_ok] in Hn. apply andb_true_iff in Hn as [Hhead Htail].
  destruct (Z.eq_dec r r0) as [->|Hne]; [exact Hhead|].
  apply (IH (r0 + 1)); [exact Htail|lia].
Qed.

Lemma cycle_table_checked : cycle_days_ok (Z.to_nat days_per_400years) 0 = true.
Proof. vm_compute. reflexivity. Qed.

Lemma cycle_day_checked r : 0 <= r < days_per_400years -> cycle_day_ok r = true.
Proof.
  intros Hr. apply (cycle_days_ok_all _ 0 r cycle_table_checked).
  rewrite Z2Nat.id; lia.
Qed.

(** *** The reference form of [get_datetimestruct_days] *)

Lemma add_month_lengths_reference isleap m x :
  1 <= m <= 12 ->
  add_month_lengths (_days_per_month_table isleap) (m - 1) (i64 x)
  = i64 (x + days_before_month isleap m).
Proof.
  intros Hm.
  assert (m = 1 \/ m = 2 \/ m = 3 \/ m = 4 \/ m = 5 \/ m = 6 \/ m = 7 \/ m = 8
          \/ m = 9 \/ m = 10 \/ m = 11 \/ m = 12) as Hcases by lia.
  unfold add_month_lengths, days_before_month, add64.
  repeat (destruct Hcases as [->|Hcases]); [..|subst m];
    repeat match goal with
      | |- context [Z.to_nat ?e] =>
          let n := eval vm_compute in (Z.to_nat e) in change (Z.to_nat e) with n
      end;
    destruct isleap; cbn -[i64 Z.add];
    repeat (rewrite i64_add_l || rewrite <- Z.add_assoc); f_equal; ring.
Qed.

Lemma year_days_reference y :
  NPY_MIN_INT64 <= (y - 1970) * 365 <= NPY_MAX_INT64 ->
  (let year0 := y -! 1970 in
   let days := year0 *! 365 in
   if days >=? 0 then
     let year1 := year0 +! 1 in
     let days := days +! year1 /! 4 in
     let year2 := year1 +! 68 in
     let days := days -! year2 /! 100 in
     let year3 := year2 +! 300 in
     days +! year3 /! 400
   else
     let year1 := year0 -! 2 in
     let days := days +! year1 /! 4 in
     let year2 := year1 -! 28 in
     let days := days -! year2 /! 100 in
     days +! year2 /! 400) = i64 (days_before_year y).
Proof.
  unfold NPY_MIN_INT64, NPY_MAX_INT64. intros Hy.
  cbv zeta. unfold add64, sub64, mul64, div64, days_before_year.
  rewrite (i64_small (y - 1970)) by (unfold NPY_MIN_INT64, NPY_MAX_INT64; lia).
  rewrite (i64_small ((y - 1970) * 365)) by (unfold NPY_MIN_INT64, NPY_MAX_INT64; lia).
  destruct (Z.geb_spec ((y - 1970) * 365) 0).
  - rewrite (i64_small (y - 1970 + 1)) by (unfold NPY_MIN_INT64, NPY_MAX_INT64; lia).
    rewrite (i64_small (y - 1970 + 1 + 68)) by (unfold NPY_MIN_INT64, NPY_MAX_INT64; lia).
    rewrite (i64_small (y - 1970 + 1 + 68 + 300)) by (unfold NPY_MIN_INT64, NPY_MAX_INT64; lia).
    rewrite (i64_small (Z.quot _ 4)) by (unfold NPY_MIN_INT64, NPY_MAX_INT64; zdiv).
    rewrite (i64_small (Z.quot _ 100)) by (unfold NPY_MIN_INT64, NPY_MAX_INT64; zdiv).
    rewrite (i64_small (Z.quot _ 400)) by (unfold NPY_MIN_INT64, NPY_MAX_INT64; zdiv).
    rewrite i64_sub_l, i64_add_l. f_equal. zdiv.
  - rewrite (i64_small (y - 1970 - 2)) by (unfold NPY_MIN_INT64, NPY_MAX_INT64; lia).
    rewrite (i64_small (y - 1970 - 2 - 28)) by (unfold NPY_MIN_INT64, NPY_MAX_INT64; lia).
    rewrite (i64_small (Z.quot _ 4)) by (unfold NPY_MIN_INT64, NPY_MAX_INT64; zdiv).
    rewrite (i64_small (Z.quot _ 100)) by (unfold NPY_MIN_INT64, NPY_MAX_INT64; zdiv).
    rewrite (i64_small (Z.quot _ 400)) by (unfold NPY_MIN_INT64, NPY_MAX_INT64; zdiv).
    rewrite i64_sub_l, i64_add_l. f_equal. zdiv.
Qed.

Lemma get_datetimestruct_days_reference dts :
  NPY_MIN_INT64 <= (year dts - 1970) * 365 <= NPY_MAX_INT64 ->
  1 <= month dts <= 12 ->
  -2147483647 <= day dts <= 2147483647 ->
  get_datetimestruct_days dts
  = i64 (days_before_year (year dts)
         + days_before_month (is_leapyear (year dts)) (month dts)
         + (day dts - 1)).
Proof.
  intros Hy Hm Hd. unfold get_datetimestruct_days.
  pose proof (year_days_reference _ Hy) as Hyear.
  cbv zeta in Hyear |- *. rewrite Hyear.
  rewrite (i32_small (month dts - 1)) by lia.
  rewrite (i32_small (day dts - 1)) by lia.
  rewrite add_month_lengths_reference by exact Hm.
  unfold add64. rewrite i64_add_l. reflexivity.
Qed.

Lemma month_length_bounds isleap m :
  1 <= m <= 12 -> 28 <= month_length isleap m <= 31.
Proof.
  intros Hm.
  assert (m = 1 \/ m = 2 \/ m = 3 \/ m = 4 \/ m = 5 \/ m = 6 \/ m = 7 \/ m = 8
          \/ m = 9 \/ m = 10 \/ m = 11 \/ m = 12) as Hcases by lia.
  repeat (destruct Hcases as [->|Hcases]); [..|subst m];
    destruct isleap; vm_compute; split; discriminate.
Qed.

(** *** C10: day offset round trip *)

(** C10.  For every day offset on which the calendar arithmetic stays
    within [npy_int64], [set_datetimestruct_days] followed by
    [get_datetimestruct_days] yields the offset again, and the struct
    produced has a month between 1 and 12 and a day between 1 and the
    length of that month in that year. *)
Theorem set_get_datetimestruct_days_roundtrip (d : Z) (dts : npy_datetimestruct) :
  day_offset_in_range d ->
  get_datetimestruct_days (set_datetimestruct_days d dts) = d /\
  1 <= month (set_datetimestruct_days d dts) <= 12 /\
  1 <= day (set_datetimestruct_days d dts)
    <= days_in_month (year (set_datetimestruct_days d dts))
                     (month (set_datetimestruct_days d dts)).
Proof.
  intros Hd.
  remember (set_datetimestruct_days d dts) as out eqn:Hout.
  unfold set_datetimestruct_days, days_to_yearsdays in Hout.
  rewrite (split_400years_floor d Hd) in Hout.
  unfold day_offset_in_range, NPY_MIN_INT64, NPY_MAX_INT64 in Hd.
  pose proof (Z.div_mod (d - (365 * 30 + 7)) days_per_400years) as Hdiv.
  pose proof (Z.mod_pos_bound (d - (365 * 30 + 7)) days_per_400years) as Hr.
  set (q := (d - (365 * 30 + 7)) / days_per_400years) in *.
  set (r := (d - (365 * 30 + 7)) mod days_per_400years) in *.
  unfold days_per_400years in Hd, Hdiv, Hr.
  specialize (Hdiv ltac:(lia)). specialize (Hr ltac:(lia)).
  rewrite (within_400years_shift (400 * q) r) in Hout
    by (unfold days_per_400years; lia).
  pose proof (cycle_day_checked r ltac:(unfold days_per_400years; lia)) as Hok.
  unfold cycle_day_ok in Hok.
  destruct (within_400years 0 r) as [y dd]. cbn [fst snd] in Hout.
  apply andb_true_iff in Hok as [Hy Hok].
  apply andb_true_iff in Hy as [Hy0 Hy1].
  apply Z.leb_le in Hy0. apply Z.ltb_lt in Hy1.
  assert (Hyear : i64 (2000 + y + 400 * q) = 2000 + y + 400 * q)
    by (apply i64_small; unfold NPY_MIN_INT64, NPY_MAX_INT64; lia).
  unfold add64, set_year in Hout. cbn [year] in Hout.
  replace (400 * q + y + 2000) with (2000 + y + 400 * q) in Hout by ring.
  rewrite !Hyear, is_leapyear_shift in Hout.
  destruct (find_month _ 0 dd) as [[m dday]|]; [|discriminate Hok].
  repeat (apply andb_true_iff in Hok as [Hok ?]).
  repeat match goal with
    | H : (_ <=? _) = true |- _ => apply Z.leb_le in H
    | H : (_ <? _) = true |- _ => apply Z.ltb_lt in H
    | H : (_ =? _) = true |- _ => apply Z.eqb_eq in H
    end.
  pose proof (month_length_bounds (is_leapyear (2000 + y)) m ltac:(lia)) as Hlen.
  unfold days_in_month in *.
  unfold set_day, set_month in Hout. cbn [year month day hour min sec us ps as_] in Hout.
  rewrite (i32_small m) in Hout by lia.
  rewrite (i64_small (dday + 1)) in Hout
    by (unfold NPY_MIN_INT64, NPY_MAX_INT64; lia).
  rewrite (i32_small (dday + 1)) in Hout by lia.
  subst out. cbn [year month day]. rewrite is_leapyear_shift.
  split; [|lia].
  rewrite get_datetimestruct_days_reference; cbn [year month day];
    try (unfold NPY_MIN_INT64, NPY_MAX_INT64; lia).
  rewrite is_leapyear_shift, days_before_year_shift. unfold days_per_400years.
  replace (days_before_year (2000 + y) + (400 * 365 + 100 - 4 + 1) * q
           + days_before_month (is_leapyear (2000 + y)) m + (dday + 1 - 1))
    with d by lia.
  apply i64_small. unfold NPY_MIN_INT64, NPY_MAX_INT64. lia.
Qed.

Lemma set_get_datetimestruct_days_roundtrip_witness :
  day_offset_in_range (-1)
  /\ (get_datetimestruct_days (set_datetimestruct_days (-1) initial_datetimestruct) = -1
      /\ 1 <= month (set_datetimestruct_days (-1) initial_datetimestruct) <= 12
      /\ 1 <= day (set_datetimestruct_days (-1) initial_datetimestruct)
           <= days_in_month
                (year (set_datetimestruct_days (-1) initial_datetimestruct))
                (month (set_datetimestruct_days (-1) initial_datetimestruct))).
Proof.
  assert (Hrange : day_offset_in_range (-1))
    by (unfold day_offset_in_range, NPY_MIN_INT64, NPY_MAX_INT64, days_per_400years; lia).
  split; [exact Hrange|].
  exact (set_get_datetimestruct_days_roundtrip (-1) initial_datetimestruct Hrange).
Defined.

(** *** The loops run to their exit *)

Lemma borrow_loop_exits radix : 0 < radix <= 2147483647 ->
  forall fuel lo hi, -2147483648 <= lo -> - lo <= Z.of_nat fuel ->
    0 <= fst (borrow_loop fuel radix lo hi).
Proof.
  intros Hradix. induction fuel as [|fuel IH]; intros lo hi Hlo Hfuel; cbn [borrow_loop].
  - cbn [fst]. lia.
  - destruct (Z.ltb_spec lo 0); [|cbn [fst]; lia].
    rewrite (i32_small (lo + radix)) by lia. apply IH; lia.
Qed.

Lemma carry_loop_exits radix : 0 < radix ->
  forall fuel lo hi, lo <= 2147483647 -> lo <= Z.of_nat fuel ->
    fst (carry_loop fuel radix lo hi) < radix.
Proof.
  intros Hradix. induction fuel as [|fuel IH]; intros lo hi Hlo Hfuel; cbn [carry_loop].
  - cbn [fst]. lia.
  - destruct (Z.geb_spec lo radix); [|cbn [fst]; lia].
    rewrite (i32_small (lo - radix)) by lia. apply IH; lia.
Qed.

Lemma euclid_loop_step turns x y :
  euclid_loop (S turns) x y =
    if negb (x =? y) && negb (y =? 0) then euclid_loop turns y (x mod y) else x.
Proof. reflexivity. Qed.

Lemma euclid_loop_stable n : forall x y k,
  0 <= y < 2 ^ Z.of_nat n ->
  euclid_loop (2 * n + 1 + k) x y = euclid_loop (2 * n + 1) x y.
Proof.
  induction n as [|n IH]; intros x y k Hy.
  - assert (y = 0) as -> by (cbn in Hy; lia).
    cbn [Nat.mul Nat.add]. rewrite !euclid_loop_step. cbn [Z.eqb negb andb].
    rewrite andb_false_r. reflexivity.
  - replace (2 * S n + 1 + k)%nat with (S (S (2 * n + 1 + k))) by lia.
    replace (2 * S n + 1)%nat with (S (S (2 * n + 1))) by lia.
    rewrite (euclid_loop_step (S (2 * n + 1 + k))), (euclid_loop_step (S (2 * n + 1))).
    destruct (negb (x =? y) && negb (y =? 0)) eqn:Hc1; [|reflexivity].
    apply andb_true_iff in Hc1 as [_ Hy0]. apply negb_true_iff, Z.eqb_neq in Hy0.
    rewrite !euclid_loop_step.
    destruct (negb (y =? x mod y) && negb (x mod y =? 0)) eqn:Hc2; [|reflexivity].
    apply andb_true_iff in Hc2 as [_ Hr0]. apply negb_true_iff, Z.eqb_neq in Hr0.
    pose proof (Z.mod_pos_bound x y ltac:(lia)) as Hr.
    pose proof (Z.mod_pos_bound y (x mod y) ltac:(lia)) as Ht.
    pose proof (Z.div_mod y (x mod y) Hr0) as Hdiv.
    assert (1 <= y / (x mod y)) by (apply Z.div_le_lower_bound; lia).
    apply IH. rewrite Nat2Z.inj_succ, Z.pow_succ_r in Hy by lia. nia.
Qed.

Lemma euclid_loop_enough x y k :
  0 <= y < 2 ^ 64 -> euclid_loop (euclid_turns + k) x y = euclid_loop euclid_turns x y.
Proof. intros Hy. apply (euclid_loop_stable 64). exact Hy. Qed.

Lemma _uint64_euclidean_gcd_sym x y :
  _uint64_euclidean_gcd x y = _uint64_euclidean_gcd y x.
Proof.
  unfold _uint64_euclidean_gcd.
  destruct (Z.gtb_spec x y), (Z.gtb_spec y x); try reflexivity; try lia.
  replace y with x by lia. reflexivity.
Qed.

Lemma _uint64_euclidean_gcd_same x : _uint64_euclidean_gcd x x = x.
Proof.
  unfold _uint64_euclidean_gcd, euclid_turns.
  rewrite Z.gtb_ltb, Z.ltb_irrefl, euclid_loop_step, Z.eqb_refl.
  reflexivity.
Qed.

(** *** Units *)

Lemma unit_value_inj a b : unit_value a = unit_value b -> a = b.
Proof. destruct a, b; cbn; intros H; try reflexivity; discriminate H. Qed.

Lemma unit_eqb_eq a b : unit_eqb a b = true <-> a = b.
Proof.
  unfold unit_eqb. rewrite Z.eqb_eq. split; [apply unit_value_inj|intros ->; reflexivity].
Qed.

Lemma unit_eqb_refl a : unit_eqb a a = true.
Proof. apply unit_eqb_eq. reflexivity. Qed.

Lemma unit_eqb_sym a b : unit_eqb a b = unit_eqb b a.
Proof. unfold unit_eqb. apply Z.eqb_sym. Qed.

(** *** C1: the Safe casting level *)

Lemma can_cast_units_safe barrier src_unit dst_unit :
  can_cast_units_with_barrier barrier src_unit dst_unit NPY_SAFE_CASTING
  = can_cast_units_with_barrier barrier src_unit dst_unit NPY_SAME_KIND_CASTING
    && unit_leb src_unit dst_unit.
Proof.
  unfold can_cast_units_with_barrier.
  destruct (unit_eqb src_unit NPY_FR_GENERIC || unit_eqb dst_unit NPY_FR_GENERIC).
  - destruct (unit_eqb src_unit dst_unit) eqn:He; [|reflexivity].
    apply unit_eqb_eq in He as ->. unfold unit_leb. rewrite Z.leb_refl. reflexivity.
  - apply andb_comm.
Qed.

(** C1, as amended.  A cast is legal under the Safe level if and only if
    it is legal under SameKind, the source unit is coarser than or equal
    to the destination unit, and [datetime_metadata_divides] holds with
    the source metadata as dividend and the destination metadata as
    divisor; the nonlinear units are treated strictly for timedelta
    casts and not for datetime casts. *)
Theorem safe_cast_iff_same_kind_and_source_divisible
    (src_meta dst_meta : PyArray_DatetimeMetaData) :
  (can_cast_datetime64_metadata src_meta dst_meta NPY_SAFE_CASTING = Some true <->
     can_cast_datetime64_metadata src_meta dst_meta NPY_SAME_KIND_CASTING = Some true
     /\ unit_leb (base src_meta) (base dst_meta) = true
     /\ datetime_metadata_divides src_meta dst_meta false = Some true)
  /\
  (can_cast_timedelta64_metadata src_meta dst_meta NPY_SAFE_CASTING = Some true <->
     can_cast_timedelta64_metadata src_meta dst_meta NPY_SAME_KIND_CASTING = Some true
     /\ unit_leb (base src_meta) (base dst_meta) = true
     /\ datetime_metadata_divides src_meta dst_meta true = Some true).
Proof.
  unfold can_cast_datetime64_metadata, can_cast_timedelta64_metadata,
    can_cast_datetime64_units, can_cast_timedelta64_units.
  rewrite !can_cast_units_safe.
  split.
  - destruct (can_cast_units_with_barrier NPY_FR_D _ _ NPY_SAME_KIND_CASTING),
      (unit_leb (base src_meta) (base dst_meta)); cbn [andb and_then];
      intuition congruence.
  - destruct (can_cast_units_with_barrier NPY_FR_M _ _ NPY_SAME_KIND_CASTING),
      (unit_leb (base src_meta) (base dst_meta)); cbn [andb and_then];
      intuition congruence.
Qed.

(** C1, as stated, fails for the datetime cast from [2D] to [D]: the cast
    is legal under Safe, while [datetime_metadata_divides] with the
    destination as dividend and the source as divisor does not hold. *)
Lemma safe_cast_destination_dividend_counterexample :
  let src_meta := mkMeta NPY_FR_D 2 in
  let dst_meta := mkMeta NPY_FR_D 1 in
  ~ (can_cast_datetime64_metadata src_meta dst_meta NPY_SAFE_CASTING = Some true <->
       can_cast_datetime64_metadata src_meta dst_meta NPY_SAME_KIND_CASTING = Some true
       /\ unit_leb (base src_meta) (base dst_meta) = true
       /\ datetime_metadata_divides dst_meta src_meta false = Some true).
Proof.
  cbv zeta. intros [Hsafe _].
  specialize (Hsafe eq_refl). destruct Hsafe as (_ & _ & Hdiv).
  vm_compute in Hdiv. discriminate Hdiv.
Qed.

(** *** C2: 2000-02-29 at unit D *)

(** C2, as amended.  The struct 2000-02-29 00:00:00 converts to 11016 at
    unit D with multiplier 1, and 11016 converts back to
    2000-02-29 00:00:00.0. *)
Theorem leap_day_2000_is_day_11016 :
  convert_datetimestruct_to_datetime (mkMeta NPY_FR_D 1)
    (mkDts 2000 2 29 0 0 0 0 0 0) = Ok 11016
  /\ convert_datetime_to_datetimestruct (mkMeta NPY_FR_D 1) 11016
     = Ok (mkDts 2000 2 29 0 0 0 0 0 0).
Proof. split; vm_compute; reflexivity. Qed.

(** C2, as stated, fails: the struct 2000-02-29 does not convert to
    10957 (which is 2000-01-01). *)
Lemma leap_day_2000_is_not_day_10957 :
  ~ (convert_datetimestruct_to_datetime (mkMeta NPY_FR_D 1)
       (mkDts 2000 2 29 0 0 0 0 0 0) = Ok 10957
     /\ convert_datetime_to_datetimestruct (mkMeta NPY_FR_D 1) 10957
        = Ok (mkDts 2000 2 29 0 0 0 0 0 0)).
Proof. intros [H _]. vm_compute in H. discriminate H. Qed.

(** *** C3: overflow of the conversion factor *)

(** C3 fails on the code.  From [D] to [ps] the units factor trips its
    guard and returns 0, yet [get_datetime_conversion_factor] raises
    nothing and returns the numerator 0 with the denominator 1. *)
Theorem conversion_factor_overflow_goes_unreported :
  get_datetime_units_factor NPY_FR_D NPY_FR_ps = 0
  /\ get_datetime_conversion_factor (mkMeta NPY_FR_D 1) (mkMeta NPY_FR_ps 1)
     = Some (mkFactor 0 1 None).
Proof. split; vm_compute; reflexivity. Qed.

(** *** C4: business days and another unit *)

Lemma fill_out_meta_base b num1 num2 r :
  fill_out_meta b num1 num2 = Ok r -> base r = b.
Proof.
  unfold fill_out_meta.
  destruct (_ || _); [discriminate|]. intros [= <-]. reflexivity.
Qed.

(** The block "Take the greater base" assigns [base] after every
    successful validation, so the unit that the validation chose, the
    coercion of [B] to [D] included, never reaches the result. *)
Lemma gcd_result_unit a b s1 s2 r :
  base a <> NPY_FR_GENERIC -> base b <> NPY_FR_GENERIC ->
  compute_datetime_metadata_greatest_common_divisor a b s1 s2 = Ok r ->
  base r = (if unit_value (base b) <? unit_value (base a) then base a else base b).
Proof.
  intros Ha Hb. unfold compute_datetime_metadata_greatest_common_divisor.
  destruct (unit_eqb (base a) NPY_FR_GENERIC) eqn:Hga;
    [apply unit_eqb_eq in Hga; contradiction|].
  destruct (unit_eqb (base b) NPY_FR_GENERIC) eqn:Hgb;
    [apply unit_eqb_eq in Hgb; contradiction|].
  unfold unit_gtb. rewrite Z.gtb_ltb.
  destruct (unit_eqb (base a) (base b)) eqn:Hsame.
  - apply unit_eqb_eq in Hsame. rewrite <- Hsame, Z.ltb_irrefl.
    rewrite Hsame at 1. intros H. apply fill_out_meta_base in H. congruence.
  - destruct (validate_units a b _ _ s1 s2) as [[[o k1] k2]|e]; [|discriminate].
    destruct (unit_value (base b) <? unit_value (base a)).
    + destruct (_ =? 0); [discriminate|]. apply fill_out_meta_base.
    + destruct (_ =? 0); [discriminate|]. apply fill_out_meta_base.
Qed.




(** *** C5: NaT *)

(** C5.  For every metadata, generic units included, a struct whose year
    is the NaT sentinel converts to the NaT value without error, and the
    NaT value converts to a struct whose year is the NaT sentinel
    without error. *)
Theorem nat_converts_to_nat
    (meta : PyArray_DatetimeMetaData) (dts : npy_datetimestruct) :
  year dts = NPY_DATETIME_NAT ->
  convert_datetimestruct_to_datetime meta dts = Ok NPY_DATETIME_NAT
  /\ exists out, convert_datetime_to_datetimestruct meta NPY_DATETIME_NAT = Ok out
                 /\ year out = NPY_DATETIME_NAT.
Proof.
  intros Hyear. split.
  - unfold convert_datetimestruct_to_datetime. rewrite Hyear, Z.eqb_refl. reflexivity.
  - exists (set_year NPY_DATETIME_NAT initial_datetimestruct).
    unfold convert_datetime_to_datetimestruct. rewrite Z.eqb_refl.
    split; reflexivity.
Qed.

Lemma nat_converts_to_nat_witness :
  let meta := mkMeta NPY_FR_GENERIC 1 in
  let dts := mkDts NPY_DATETIME_NAT 1 1 0 0 0 0 0 0 in
  year dts = NPY_DATETIME_NAT
  /\ (convert_datetimestruct_to_datetime meta dts = Ok NPY_DATETIME_NAT
      /\ exists out, convert_datetime_to_datetimestruct meta NPY_DATETIME_NAT = Ok out
                     /\ year out = NPY_DATETIME_NAT).
Proof.
  cbv zeta. split; [reflexivity|].
  apply (nat_converts_to_nat (mkMeta NPY_FR_GENERIC 1)
           (mkDts NPY_DATETIME_NAT 1 1 0 0 0 0 0 0)).
  reflexivity.
Defined.

(** *** C6: one second before the epoch *)

(** C6.  The struct 1969-12-31 23:59:59 converts to -1 at unit s with
    multiplier 1, and -1 converts back to 1969-12-31 23:59:59. *)
Theorem second_before_epoch_is_minus_one :
  convert_datetimestruct_to_datetime (mkMeta NPY_FR_s 1)
    (mkDts 1969 12 31 23 59 59 0 0 0) = Ok (-1)
  /\ convert_datetime_to_datetimestruct (mkMeta NPY_FR_s 1) (-1)
     = Ok (mkDts 1969 12 31 23 59 59 0 0 0).
Proof. split; vm_compute; reflexivity. Qed.

(** *** C7: the metadata GCD is commutative and idempotent *)

Lemma equivalent_datetime_metadata_refl meta :
  equivalent_datetime_metadata meta meta = true.
Proof.
  unfold equivalent_datetime_metadata.
  rewrite unit_eqb_refl, Z.eqb_refl. apply orb_true_r.
Qed.

Lemma equivalent_datetime_metadata_specific meta1 meta2 :
  equivalent_datetime_metadata meta1 meta2 = true ->
  base meta1 <> NPY_FR_GENERIC -> meta1 = meta2.
Proof.
  unfold equivalent_datetime_metadata. intros H Hspecific.
  apply orb_true_iff in H as [H|H]; apply andb_true_iff in H as [H1 H2].
  - apply unit_eqb_eq in H1. contradiction.
  - apply unit_eqb_eq in H1. apply Z.eqb_eq in H2.
    destruct meta1, meta2; cbn in *; congruence.
Qed.

Lemma fill_out_meta_sym b num1 num2 :
  fill_out_meta b num1 num2 = fill_out_meta b num2 num1.
Proof. unfold fill_out_meta. rewrite (_uint64_euclidean_gcd_sym num1 num2). reflexivity. Qed.

Lemma validate_units_multipliers meta1 meta2 num1 num2 strict1 strict2 b k1 k2 :
  validate_units meta1 meta2 num1 num2 strict1 strict2 = Ok (b, k1, k2) ->
  k1 = scaled_multiplier (base meta1) (base meta2) num1
  /\ k2 = scaled_multiplier (base meta2) (base meta1) num2.
Proof.
  destruct meta1 as [b1 n1], meta2 as [b2 n2].
  unfold validate_units, scaled_multiplier. cbn [base].
  destruct b1, b2, strict1, strict2; cbn;
    intros H; try discriminate H; injection H as _ <- <-; split; reflexivity.
Qed.

Lemma gcd_commutative a b s1 s2 t1 t2 r1 r2 :
  compute_datetime_metadata_greatest_common_divisor a b s1 s2 = Ok r1 ->
  compute_datetime_metadata_greatest_common_divisor b a t1 t2 = Ok r2 ->
  equivalent_datetime_metadata r1 r2 = true.
Proof.
  unfold compute_datetime_metadata_greatest_common_divisor.
  destruct (unit_eqb (base a) NPY_FR_GENERIC) eqn:Ha,
           (unit_eqb (base b) NPY_FR_GENERIC) eqn:Hb.
  - intros [= <-] [= <-]. unfold equivalent_datetime_metadata.
    rewrite Ha, Hb. reflexivity.
  - intros [= <-] [= <-]. apply equivalent_datetime_metadata_refl.
  - intros [= <-] [= <-]. apply equivalent_datetime_metadata_refl.
  - rewrite (unit_eqb_sym (base b) (base a)).
    destruct (unit_eqb (base a) (base b)) eqn:Hab.
    + apply unit_eqb_eq in Hab. rewrite Hab, (fill_out_meta_sym _ (u64 (num b))).
      intros H1 H2. rewrite H1 in H2. injection H2 as <-.
      apply equivalent_datetime_metadata_refl.
    + destruct (validate_units a b _ _ s1 s2) as [[[o1 k1] k2]|] eqn:V1;
        [|discriminate].
      destruct (validate_units b a _ _ t1 t2) as [[[o2 k1'] k2']|] eqn:V2;
        [|discriminate].
      apply validate_units_multipliers in V1 as [-> ->].
      apply validate_units_multipliers in V2 as [-> ->].
      unfold unit_eqb in Hab. apply Z.eqb_neq in Hab.
      unfold unit_gtb.
      destruct (Z.gtb_spec (unit_value (base a)) (unit_value (base b))),
               (Z.gtb_spec (unit_value (base b)) (unit_value (base a)));
        try lia;
        match goal with
        | |- context [if ?c =? 0 then _ else _] => destruct (c =? 0); [discriminate|]
        end;
        rewrite (fill_out_meta_sym (base _) (u64 _));
        intros H1 H2; rewrite H1 in H2; injection H2 as <-;
        apply equivalent_datetime_metadata_refl.
Qed.

Lemma gcd_idempotent a s1 s2 :
  0 < num a <= 2147483647 ->
  compute_datetime_metadata_greatest_common_divisor a a s1 s2 = Ok a.
Proof.
  intros Hnum. unfold compute_datetime_metadata_greatest_common_divisor.
  destruct (unit_eqb (base a) NPY_FR_GENERIC); [reflexivity|].
  rewrite unit_eqb_refl. unfold fill_out_meta.
  rewrite _uint64_euclidean_gcd_same. cbn [num].
  assert (Hu : u64 (num a) = num a).
  { rewrite u64_mod. apply Z.mod_small. change (2 ^ 64) with 18446744073709551616. lia. }
  rewrite Hu, (i32_small (num a)) by lia. rewrite Hu, Z.eqb_refl.
  destruct (Z.leb_spec (num a) 0); [lia|].
  destruct a. reflexivity.
Qed.

(** C7.  With the same strict flags on both sides, the GCD of [a] and
    [b] and the GCD of [b] and [a] are equal whenever both are defined,
    equal as metadata: for generic units the multiplier is ignored, as
    in [has_equivalent_datetime_metadata].  The GCD of [a] with itself is
    [a], for every metadata [a] whose multiplier is a positive [int]. *)
Theorem gcd_metadata_commutative_and_idempotent
    (a b : PyArray_DatetimeMetaData) (strict1 strict2 : bool) :
  (forall r1 r2,
      compute_datetime_metadata_greatest_common_divisor a b strict1 strict2 = Ok r1 ->
      compute_datetime_metadata_greatest_common_divisor b a strict1 strict2 = Ok r2 ->
      equivalent_datetime_metadata r1 r2 = true)
  /\ (0 < num a <= 2147483647 ->
      compute_datetime_metadata_greatest_common_divisor a a strict1 strict2 = Ok a).
Proof.
  split.
  - intros r1 r2. apply gcd_commutative.
  - apply gcd_idempotent.
Qed.

Lemma gcd_metadata_commutative_and_idempotent_witness :
  (compute_datetime_metadata_greatest_common_divisor
     (mkMeta NPY_FR_h 3) (mkMeta NPY_FR_s 1800) true false = Ok (mkMeta NPY_FR_s 1800)
   /\ compute_datetime_metadata_greatest_common_divisor
        (mkMeta NPY_FR_s 1800) (mkMeta NPY_FR_h 3) true false = Ok (mkMeta NPY_FR_s 1800)
   /\ 0 < num (mkMeta NPY_FR_h 3) <= 2147483647)
  /\ (equivalent_datetime_metadata (mkMeta NPY_FR_s 1800) (mkMeta NPY_FR_s 1800) = true
      /\ compute_datetime_metadata_greatest_common_divisor
           (mkMeta NPY_FR_h 3) (mkMeta NPY_FR_h 3) true false = Ok (mkMeta NPY_FR_h 3)).
Proof.
  split.
  - split; [vm_compute; reflexivity|].
    split; [vm_compute; reflexivity|]. cbn [num]. lia.
  - split.
    + apply (proj1 (gcd_metadata_commutative_and_idempotent
                      (mkMeta NPY_FR_h 3) (mkMeta NPY_FR_s 1800) true false));
        vm_compute; reflexivity.
    + apply (proj2 (gcd_metadata_commutative_and_idempotent
                      (mkMeta NPY_FR_h 3) (mkMeta NPY_FR_s 1800) true false)).
      cbn [num]. lia.
Defined.

(** *** C3, continued: the overflow exit is never taken *)

Lemma base_conversion_denominator src_base dst_base :
  (snd (base_conversion src_base dst_base) =? 0) = false.
Proof. destruct src_base, dst_base; vm_compute; reflexivity. Qed.

Lemma conversion_factor_never_reports_overflow src_meta dst_meta :
  get_datetime_conversion_factor src_meta dst_meta
  <> Some (mkFactor 0 0 (Some PyExc_OverflowError)).
Proof.
  unfold get_datetime_conversion_factor, reduced_fraction.
  destruct (unit_eqb (base src_meta) NPY_FR_GENERIC); [discriminate|].
  destruct (unit_eqb (base dst_meta) NPY_FR_GENERIC); [discriminate|].
  destruct (unit_leb (base src_meta) (base dst_meta)); cbv beta iota zeta;
    match goal with
    | |- context [if negb ?c then base_conversion ?s ?d else _] =>
        pose proof (base_conversion_denominator s d) as Hden;
        destruct (negb c); [destruct (base_conversion s d) as [n0 d0]|];
        cbn [snd] in *; rewrite ?Hden; cbn [Z.eqb]
    end;
    match goal with
    | |- context [if ?g =? 0 then None else _] => destruct (g =? 0); discriminate
    end.
Qed.

(** *** C8: conversion factors in the two directions *)

Lemma reduced_fraction_swap n d r :
  reduced_fraction n d = Some r ->
  reduced_fraction d n = Some (mkFactor (out_denom r) (out_num r) None).
Proof.
  unfold reduced_fraction. rewrite (_uint64_euclidean_gcd_sym d n).
  destruct (_uint64_euclidean_gcd n d =? 0); [discriminate|].
  intros [= <-]. reflexivity.
Qed.

(** C8, as amended.  Whenever the conversion factors from [a] to [b] and
    from [b] to [a] are both returned without an error, they are
    reciprocal: the product of the numerators equals the product of the
    denominators. *)
Theorem conversion_factors_are_reciprocal
    (a b : PyArray_DatetimeMetaData) (r1 r2 : conversion_factor) :
  get_datetime_conversion_factor a b = Some r1 ->
  get_datetime_conversion_factor b a = Some r2 ->
  raised r1 = None -> raised r2 = None ->
  out_num r1 * out_num r2 = out_denom r1 * out_denom r2.
Proof.
  unfold get_datetime_conversion_factor.
  destruct (unit_eqb (base a) NPY_FR_GENERIC),
           (unit_eqb (base b) NPY_FR_GENERIC);
    try (intros [= <-] [= <-]; cbn; (reflexivity || discriminate)).
  unfold unit_leb, unit_eqb.
  destruct (Z.leb_spec (unit_value (base a)) (unit_value (base b))),
           (Z.leb_spec (unit_value (base b)) (unit_value (base a)));
    try lia; cbv beta iota zeta.
  - replace (unit_value (base a) =? unit_value (base b)) with true
      by (symmetry; apply Z.eqb_eq; lia).
    replace (unit_value (base b) =? unit_value (base a)) with true
      by (symmetry; apply Z.eqb_eq; lia).
    cbn [negb Z.eqb]. intros H1 H2 _ _.
    apply reduced_fraction_swap in H1. rewrite H1 in H2.
    injection H2 as <-. cbn [out_num out_denom]. ring.
  - destruct (if negb _ then _ else _) as [n d].
    destruct (d =? 0); [intros [= <-]; discriminate|].
    intros H1 H2 _ _.
    apply reduced_fraction_swap in H1. rewrite H1 in H2.
    injection H2 as <-. cbn [out_num out_denom]. ring.
  - destruct (if negb _ then _ else _) as [n d].
    destruct (d =? 0); [intros [= <-]; discriminate|].
    intros H1 H2 _ _.
    apply reduced_fraction_swap in H2. rewrite H2 in H1.
    injection H1 as <-. cbn [out_num out_denom]. ring.
Qed.

Lemma conversion_factors_are_reciprocal_witness :
  (get_datetime_conversion_factor (mkMeta NPY_FR_W 1) (mkMeta NPY_FR_D 1)
     = Some (mkFactor 7 1 None)
   /\ get_datetime_conversion_factor (mkMeta NPY_FR_D 1) (mkMeta NPY_FR_W 1)
      = Some (mkFactor 1 7 None)
   /\ raised (mkFactor 7 1 None) = None /\ raised (mkFactor 1 7 None) = None)
  /\ out_num (mkFactor 7 1 None) * out_num (mkFactor 1 7 None)
     = out_denom (mkFactor 7 1 None) * out_denom (mkFactor 1 7 None).
Proof.
  split.
  - repeat split; vm_compute; reflexivity.
  - apply (conversion_factors_are_reciprocal
             (mkMeta NPY_FR_W 1) (mkMeta NPY_FR_D 1)); vm_compute; reflexivity.
Defined.

(** C8, as stated, fails between weeks and days: the factors are 7/1 and
    1/7, and 7 * 7 is not 1 * 1. *)
Lemma conversion_factors_cross_product_counterexample :
  ~ (forall r1 r2 : conversion_factor,
       get_datetime_conversion_factor (mkMeta NPY_FR_W 1) (mkMeta NPY_FR_D 1) = Some r1 ->
       get_datetime_conversion_factor (mkMeta NPY_FR_D 1) (mkMeta NPY_FR_W 1) = Some r2 ->
       raised r1 = None -> raised r2 = None ->
       out_num r1 * out_denom r2 = out_denom r1 * out_num r2).
Proof.
  intros H.
  specialize (H (mkFactor 7 1 None) (mkFactor 1 7 None)
                ltac:(vm_compute; reflexivity) ltac:(vm_compute; reflexivity)
                eq_refl eq_refl).
  cbn in H. discriminate H.
Qed.

(** *** C9: a zero multiplier in a metadata string *)

(** C9 fails on the code.  The metadata string ["[0D]"] is parsed
    without error into metadata with the multiplier 0, and ["[-3D]"]
    into metadata with the multiplier -3. *)
Theorem metastr_zero_multiplier_is_accepted :
  parse_datetime_metadata_from_metastr "[0D]"%string 4 = Parsed (mkMeta NPY_FR_D 0)
  /\ parse_datetime_metadata_from_metastr "[-3D]"%string 5 = Parsed (mkMeta NPY_FR_D (-3)).
Proof. split; vm_compute; reflexivity. Qed.

(** *** Scenarios of the specification, evaluated on the code *)

Example leap_years :
  map is_leapyear [1600; 1700; 1800; 1900; 2000; 2004; 2100; 2400]
  = [true; false; false; false; true; true; false; true].
Proof. vm_compute. reflexivity. Qed.

Example monday_1970_01_05 :
  get_day_of_week (get_datetimestruct_days (mkDts 1970 1 5 0 0 0 0 0 0)) = 0.
Proof. vm_compute. reflexivity. Qed.

Example year_to_day_factor :
  get_datetime_conversion_factor (mkMeta NPY_FR_Y 1) (mkMeta NPY_FR_D 1)
  = Some (mkFactor 146097 400 None).
Proof. vm_compute. reflexivity. Qed.

Example week_to_day_factor :
  get_datetime_conversion_factor (mkMeta NPY_FR_W 1) (mkMeta NPY_FR_D 1)
  = Some (mkFactor 7 1 None).
Proof. vm_compute. reflexivity. Qed.

Example hour_to_minute_same_kind :
  can_cast_datetime64_metadata (mkMeta NPY_FR_h 1) (mkMeta NPY_FR_m 1)
    NPY_SAME_KIND_CASTING = Some true.
Proof. vm_compute. reflexivity. Qed.

Example day_to_hour_same_kind :
  can_cast_datetime64_metadata (mkMeta NPY_FR_D 1) (mkMeta NPY_FR_h 1)
    NPY_SAME_KIND_CASTING = Some false.
Proof. vm_compute. reflexivity. Qed.

Example gcd_year_month :
  compute_datetime_metadata_greatest_common_divisor
    (mkMeta NPY_FR_Y 1) (mkMeta NPY_FR_M 1) false false = Ok (mkMeta NPY_FR_M 1).
Proof. vm_compute. reflexivity. Qed.

Example gcd_business_day_day_strict :
  compute_datetime_metadata_greatest_common_divisor
    (mkMeta NPY_FR_B 1) (mkMeta NPY_FR_D 1) true true = Error PyExc_TypeError.
Proof. vm_compute. reflexivity. Qed.

Example parse_7D :
  parse_datetime_metadata_from_metastr "[7D]"%string 4 = Parsed (mkMeta NPY_FR_D 7).
Proof. vm_compute. reflexivity. Qed.

Example parse_1M_30 :
  parse_datetime_metadata_from_metastr "[1M/30]"%string 7 = Parsed (mkMeta NPY_FR_D 1).
Proof. vm_compute. reflexivity. Qed.

(* ===================================================================== *)
(** ** Further properties of the code *)
(* ===================================================================== *)

(** *** The calendar kernel, further *)

Ltac int64_bounds := unfold NPY_MIN_INT64, NPY_MAX_INT64 in *.

(** What [days_to_yearsdays] and the month loop compute, in terms of the
    reference arithmetic. *)
Lemma days_to_yearsdays_reference d :
  day_offset_in_range d ->
  exists y doy m dd,
    days_to_yearsdays d = (y, doy)
    /\ find_month (_days_per_month_table (is_leapyear y)) 0 doy = Some (m, dd - 1)
    /\ i64 y = y /\ i32 m = m /\ i32 dd = dd /\ i64 (dd - 1 + 1) = dd
    /\ 1 <= m <= 12 /\ 1 <= dd <= days_in_month y m
    /\ days_before_year y + days_before_month (is_leapyear y) m + (dd - 1) = d
    /\ NPY_MIN_INT64 <= (y - 1970) * 365 <= NPY_MAX_INT64.
Proof.
  intros Hd.
  unfold days_to_yearsdays.
  rewrite (split_400years_floor d Hd).
  unfold day_offset_in_range, NPY_MIN_INT64, NPY_MAX_INT64 in Hd.
  pose proof (Z.div_mod (d - (365 * 30 + 7)) days_per_400years) as Hdiv.
  pose proof (Z.mod_pos_bound (d - (365 * 30 + 7)) days_per_400years) as Hr.
  set (q := (d - (365 * 30 + 7)) / days_per_400years) in *.
  set (r := (d - (365 * 30 + 7)) mod days_per_400years) in *.
  unfold days_per_400years in Hd, Hdiv, Hr.
  specialize (Hdiv ltac:(lia)). specialize (Hr ltac:(lia)).
  rewrite (within_400years_shift (400 * q) r)
    by (unfold days_per_400years; lia).
  pose proof (cycle_day_checked r ltac:(unfold days_per_400years; lia)) as Hok.
  unfold cycle_day_ok in Hok.
  destruct (within_400years 0 r) as [y dd]. cbn [fst snd].
  apply andb_true_iff in Hok as [Hy Hok].
  apply andb_true_iff in Hy as [Hy0 Hy1].
  apply Z.leb_le in Hy0. apply Z.ltb_lt in Hy1.
  assert (Hyear : i64 (2000 + y + 400 * q) = 2000 + y + 400 * q)
    by (apply i64_small; int64_bounds; lia).
  unfold add64. replace (400 * q + y + 2000) with (2000 + y + 400 * q) by ring.
  rewrite Hyear.
  destruct (find_month _ 0 dd) as [[m dday]|] eqn:Hfind; [|discriminate Hok].
  repeat (apply andb_true_iff in Hok as [Hok ?]).
  repeat match goal with
    | H : (_ <=? _) = true |- _ => apply Z.leb_le in H
    | H : (_ <? _) = true |- _ => apply Z.ltb_lt in H
    | H : (_ =? _) = true |- _ => apply Z.eqb_eq in H
    end.
  pose proof (month_length_bounds (is_leapyear (2000 + y)) m ltac:(lia)) as Hlen.
  unfold days_in_month in *.
  exists (2000 + y + 400 * q), dd, m, (dday + 1).
  rewrite is_leapyear_shift, days_before_year_shift, Hyear. unfold days_per_400years.
  replace (dday + 1 - 1) with dday by ring.
  repeat split; try (int64_bounds; lia).
  - exact Hfind.
  - apply i32_small; lia.
  - apply i32_small; lia.
  - apply i64_small; int64_bounds; lia.
Qed.

(** What [set_datetimestruct_days] stores. *)
Lemma set_datetimestruct_days_reference d dts :
  day_offset_in_range d ->
  exists y m dd,
    set_datetimestruct_days d dts
    = mkDts y m dd (hour dts) (min dts) (sec dts) (us dts) (ps dts) (as_ dts)
    /\ 1 <= m <= 12 /\ 1 <= dd <= days_in_month y m
    /\ days_before_year y + days_before_month (is_leapyear y) m + (dd - 1) = d
    /\ NPY_MIN_INT64 <= (y - 1970) * 365 <= NPY_MAX_INT64.
Proof.
  intros Hd.
  destruct (days_to_yearsdays_reference d Hd)
    as (y & doy & m & dd & Hyd & Hfind & Hy64 & Hm32 & Hd32 & Hd64 & H).
  exists y, m, dd. split; [|exact H].
  unfold set_datetimestruct_days. rewrite Hyd. cbv zeta.
  replace (year (set_year y dts)) with y
    by (unfold set_year; cbn [year]; symmetry; exact Hy64).
  rewrite Hfind. unfold set_day, set_month, set_year, add64.
  cbn [year month day hour min sec us ps as_].
  rewrite Hy64, Hm32, Hd64, Hd32. reflexivity.
Qed.

Lemma year_length y :
  days_before_year (y + 1)
  = days_before_year y + 365 + (if is_leapyear y then 1 else 0).
Proof.
  rewrite is_leapyear_mod. unfold days_before_year.
  destruct (Z.eqb_spec (y mod 4) 0), (Z.eqb_spec (y mod 100) 0),
           (Z.eqb_spec (y mod 400) 0); cbn [andb orb negb]; zdiv.
Qed.

Lemma days_before_year_mono y y' :
  y <= y' -> days_before_year y <= days_before_year y'.
Proof. unfold days_before_year. intros H. zdiv. Qed.

Ltac month_cases m :=
  let H := fresh "Hcases" in
  assert (m = 1 \/ m = 2 \/ m = 3 \/ m = 4 \/ m = 5 \/ m = 6 \/ m = 7 \/ m = 8
          \/ m = 9 \/ m = 10 \/ m = 11 \/ m = 12) as H by lia;
  repeat (destruct H as [->|H]); [..|subst m].

Lemma day_of_year_bounds isleap m d :
  1 <= m <= 12 -> 1 <= d <= month_length isleap m ->
  0 <= days_before_month isleap m + (d - 1) < 365 + (if isleap then 1 else 0).
Proof.
  intros Hm. month_cases m; destruct isleap; vm_compute month_length;
    vm_compute days_before_month; lia.
Qed.

Lemma day_of_year_injective isleap m d m' d' :
  1 <= m <= 12 -> 1 <= d <= month_length isleap m ->
  1 <= m' <= 12 -> 1 <= d' <= month_length isleap m' ->
  days_before_month isleap m + d = days_before_month isleap m' + d' ->
  m = m' /\ d = d'.
Proof.
  intros Hm Hd Hm' Hd'. revert Hd Hd'.
  month_cases m; month_cases m'; destruct isleap; vm_compute month_length;
    vm_compute days_before_month; lia.
Qed.

Lemma reference_day_injective s s' :
  valid_date s -> valid_date s' -> reference_day s = reference_day s' ->
  year s = year s' /\ month s = month s' /\ day s = day s'.
Proof.
  unfold valid_date, reference_day, days_in_month.
  intros [Hm Hd] [Hm' Hd'] Heq.
  pose proof (day_of_year_bounds _ _ _ Hm Hd) as Hb.
  pose proof (day_of_year_bounds _ _ _ Hm' Hd') as Hb'.
  pose proof (year_length (year s)) as Hl.
  pose proof (year_length (year s')) as Hl'.
  assert (year s = year s') as Hy.
  { destruct (Z.lt_trichotomy (year s) (year s')) as [Hlt|[?|Hgt]]; [|assumption|].
    - pose proof (days_before_year_mono (year s + 1) (year s') ltac:(lia)). lia.
    - pose proof (days_before_year_mono (year s' + 1) (year s) ltac:(lia)). lia. }
  split; [exact Hy|]. rewrite Hy in *.
  apply (day_of_year_injective (is_leapyear (year s'))); try assumption. lia.
Qed.

Lemma reference_day_bounds s :
  valid_date s -> year_in_range (year s) ->
  -3700000000000000000 <= reference_day s <= 3700000000000000000.
Proof.
  unfold valid_date, year_in_range, reference_day, days_in_month.
  intros [Hm Hd] Hy.
  pose proof (day_of_year_bounds _ _ _ Hm Hd) as Hb.
  assert (0 <= days_before_month (is_leapyear (year s)) (month s) + (day s - 1) < 366)
    by (destruct (is_leapyear (year s)); lia).
  unfold days_before_year. zdiv.
Qed.

Lemma get_datetimestruct_days_valid s :
  valid_date s -> year_in_range (year s) ->
  get_datetimestruct_days s = reference_day s.
Proof.
  intros Hv Hy. pose proof (reference_day_bounds s Hv Hy) as Hb.
  destruct Hv as [Hm Hd]. unfold days_in_month in Hd.
  pose proof (month_length_bounds (is_leapyear (year s)) (month s) Hm).
  unfold year_in_range in Hy.
  rewrite get_datetimestruct_days_reference by (int64_bounds; lia).
  apply i64_small. int64_bounds. lia.
Qed.

(** X1.  [is_leapyear] is the Gregorian rule for every year, negative
    years included. *)
Theorem is_leapyear_gregorian (y : Z) :
  is_leapyear y = true <-> y mod 4 = 0 /\ (y mod 100 <> 0 \/ y mod 400 = 0).
Proof.
  rewrite is_leapyear_mod, andb_true_iff, orb_true_iff, negb_true_iff,
    !Z.eqb_eq, Z.eqb_neq.
  reflexivity.
Qed.

(** X2.  Filling a struct from the day number of a valid date gives that
    date back, and leaves the time fields of the struct alone. *)
Theorem get_set_datetimestruct_days_roundtrip (s t : npy_datetimestruct) :
  valid_date s -> year_in_range (year s) ->
  set_datetimestruct_days (get_datetimestruct_days s) t
  = mkDts (year s) (month s) (day s) (hour t) (min t) (sec t) (us t) (ps t) (as_ t).
Proof.
  intros Hv Hy.
  rewrite (get_datetimestruct_days_valid s Hv Hy).
  pose proof (reference_day_bounds s Hv Hy) as Hb.
  destruct (set_datetimestruct_days_reference (reference_day s) t)
    as (y & m & dd & -> & Hm & Hd & Href & _).
  { unfold day_offset_in_range, days_per_400years. int64_bounds. lia. }
  destruct (reference_day_injective (mkDts y m dd 0 0 0 0 0 0) s)
    as (Ey & Em & Ed); [split; assumption|exact Hv|exact Href|].
  cbn [year month day] in Ey, Em, Ed. subst y m dd. reflexivity.
Qed.

Lemma get_set_datetimestruct_days_roundtrip_witness :
  (valid_date (mkDts 2000 2 29 0 0 0 0 0 0) /\ year_in_range 2000)
  /\ set_datetimestruct_days
       (get_datetimestruct_days (mkDts 2000 2 29 0 0 0 0 0 0))
       (mkDts 1970 1 1 13 14 15 0 0 0)
     = mkDts 2000 2 29 13 14 15 0 0 0.
Proof.
  assert (Hv : valid_date (mkDts 2000 2 29 0 0 0 0 0 0))
    by (unfold valid_date; vm_compute; repeat split; discriminate).
  assert (Hy : year_in_range 2000) by (unfold year_in_range; lia).
  split; [split; assumption|].
  exact (get_set_datetimestruct_days_roundtrip
           (mkDts 2000 2 29 0 0 0 0 0 0) (mkDts 1970 1 1 13 14 15 0 0 0) Hv Hy).
Defined.

Lemma get_day_of_week_floor date :
  NPY_MIN_INT64 + 4 <= date <= NPY_MAX_INT64 ->
  get_day_of_week date = (date - 4) mod 7.
Proof.
  intros Hd. unfold get_day_of_week, sub64, mod64.
  rewrite (i64_small (date - 4)) by (int64_bounds; lia).
  rewrite (i32_small (Z.rem (date - 4) 7)) by zdiv.
  destruct (Z.ltb_spec (Z.rem (date - 4) 7) 0).
  - rewrite i32_small by zdiv. zdiv.
  - zdiv.
Qed.

(** X3.  The day of the week is a number from 0 to 6, Monday being 0:
    it is the remainder of [date - 4] modulo 7, also for dates before
    the epoch. *)
Theorem get_day_of_week_is_floor_mod (date : Z) :
  NPY_MIN_INT64 + 4 <= date <= NPY_MAX_INT64 ->
  get_day_of_week date = (date - 4) mod 7 /\ 0 <= get_day_of_week date <= 6.
Proof.
  intros Hd. rewrite (get_day_of_week_floor date Hd).
  split; [reflexivity|]. pose proof (Z.mod_pos_bound (date - 4) 7). lia.
Qed.

Lemma get_day_of_week_is_floor_mod_witness :
  NPY_MIN_INT64 + 4 <= -3 <= NPY_MAX_INT64
  /\ (get_day_of_week (-3) = (-3 - 4) mod 7 /\ 0 <= get_day_of_week (-3) <= 6).
Proof.
  assert (H : NPY_MIN_INT64 + 4 <= -3 <= NPY_MAX_INT64) by (int64_bounds; lia).
  split; [exact H|]. exact (get_day_of_week_is_floor_mod (-3) H).
Defined.


(** X4.  [days_to_month_number] is the month that
    [set_datetimestruct_days] stores for the same day number, a number
    from 1 to 12. *)
Theorem days_to_month_number_is_stored_month (d : Z) (dts : npy_datetimestruct) :
  day_offset_in_range d ->
  days_to_month_number d = month (set_datetimestruct_days d dts)
  /\ 1 <= days_to_month_number d <= 12.
Proof.
  intros Hd.
  destruct (days_to_yearsdays_reference d Hd)
    as (y & doy & m & dd & Hyd & Hfind & Hy64 & Hm32 & Hd32 & Hd64 & Hm & _).
  assert (E : days_to_month_number d = m)
    by (unfold days_to_month_number; rewrite Hyd, Hfind; reflexivity).
  rewrite E. split; [|exact Hm].
  unfold set_datetimestruct_days. rewrite Hyd. cbv zeta.
  replace (year (set_year y dts)) with y
    by (unfold set_year; cbn [year]; symmetry; exact Hy64).
  rewrite Hfind. unfold set_day, set_month. cbn [month]. symmetry. exact Hm32.
Qed.

Lemma days_to_month_number_is_stored_month_witness :
  day_offset_in_range 11016
  /\ (days_to_month_number 11016
      = month (set_datetimestruct_days 11016 initial_datetimestruct)
      /\ 1 <= days_to_month_number 11016 <= 12).
Proof.
  assert (H : day_offset_in_range 11016)
    by (unfold day_offset_in_range, days_per_400years; int64_bounds; lia).
  split; [exact H|].
  exact (days_to_month_number_is_stored_month 11016 initial_datetimestruct H).
Defined.

(** *** The struct/value codec, further *)

(** C's truncating division, corrected the way the code corrects it for
    negative operands, is the floor division. *)
Lemma quot_floor_negative x p :
  1 <= p -> x < 0 -> Z.quot (x - (p - 1)) p = x / p.
Proof.
  intros Hp Hx.
  pose proof (Z.div_mod x p ltac:(lia)) as Hdm.
  pose proof (Z.mod_pos_bound x p ltac:(lia)) as Hmb.
  replace (x - (p - 1)) with (- (p * (- (x / p)) + (p - 1 - x mod p))) by lia.
  rewrite Z.quot_opp_l by lia.
  rewrite Z.quot_div_nonneg by nia.
  rewrite Z.mul_comm, Z.div_add_l by lia.
  rewrite (Z.div_small (p - 1 - x mod p)) by lia. lia.
Qed.

Lemma rem_floor_negative x p :
  1 <= p -> x < 0 -> (p - 1) + Z.rem (x + 1) p = x mod p.
Proof.
  intros Hp Hx.
  pose proof (Z.div_mod x p ltac:(lia)) as Hdm.
  pose proof (Z.mod_pos_bound x p ltac:(lia)) as Hmb.
  replace (x + 1) with (- (p * (- (x / p) - 1) + (p - 1 - x mod p))) by lia.
  rewrite Z.rem_opp_l by lia.
  rewrite Z.rem_mod_nonneg by nia.
  replace (p * (- (x / p) - 1) + (p - 1 - x mod p))
    with ((p - 1 - x mod p) + (- (x / p) - 1) * p) by ring.
  rewrite Z.mod_add by lia.
  rewrite (Z.mod_small (p - 1 - x mod p)) by lia. lia.
Qed.

Lemma div_bounds x p : 1 <= p -> - Z.abs x <= x / p <= Z.abs x.
Proof.
  intros Hp.
  pose proof (Z.div_mod x p ltac:(lia)) as Hdm.
  pose proof (Z.mod_pos_bound x p ltac:(lia)) as Hmb.
  nia.
Qed.

Lemma divide_by_multiplier_floor n ret :
  1 <= n <= 2147483647 ->
  NPY_MIN_INT64 + 2147483647 <= ret <= NPY_MAX_INT64 ->
  divide_by_multiplier n ret = ret / n.
Proof.
  intros Hn Hret. unfold divide_by_multiplier, div64, add64, sub64.
  pose proof (div_bounds ret n ltac:(lia)) as Hb.
  destruct (Z.gtb_spec n 1) as [Hgt|Hle].
  - destruct (Z.geb_spec ret 0) as [Hpos|Hneg].
    + rewrite Z.quot_div_nonneg by lia. apply i64_small. int64_bounds. lia.
    + rewrite (i64_small (ret - n)) by (int64_bounds; lia).
      rewrite (i64_small (ret - n + 1)) by (int64_bounds; lia).
      replace (ret - n + 1) with (ret - (n - 1)) by ring.
      rewrite quot_floor_negative by lia. apply i64_small. int64_bounds. lia.
  - assert (n = 1) as -> by lia. rewrite Z.div_1_r. reflexivity.
Qed.

Lemma split_days_reference p dt out :
  1 <= p <= 100000000000000000 ->
  - 2 ^ 62 <= dt <= 2 ^ 62 ->
  split_days p dt out = (set_datetimestruct_days (dt / p) out, dt mod p).
Proof.
  change (2 ^ 62) with 4611686018427387904.
  intros Hp Hdt. unfold split_days, div64, add64, sub64, mod64.
  pose proof (div_bounds dt p ltac:(lia)) as Hb.
  pose proof (Z.mod_pos_bound dt p ltac:(lia)) as Hmb.
  destruct (Z.geb_spec dt 0) as [Hpos|Hneg].
  - rewrite Z.quot_div_nonneg, Z.rem_mod_nonneg by lia.
    rewrite i64_small by (int64_bounds; lia). reflexivity.
  - rewrite (i64_small (dt - (p - 1))) by (int64_bounds; lia).
    rewrite (i64_small (dt + 1)) by (int64_bounds; lia).
    rewrite quot_floor_negative by lia.
    rewrite (i64_small (dt / p)) by (int64_bounds; lia).
    rewrite rem_floor_negative by lia.
    rewrite i64_small by (int64_bounds; lia). reflexivity.
Qed.

Lemma year_in_range_not_nat y : year_in_range y -> (y =? NPY_DATETIME_NAT) = false.
Proof.
  unfold year_in_range, NPY_DATETIME_NAT, NPY_MIN_INT64. intros H.
  apply Z.eqb_neq. lia.
Qed.

(** The value of a valid struct at a unit of constant length, before the
    division by the multiplier: the floor of its instant over the length
    of the unit. *)
Lemma struct_to_value_reference meta s :
  valid_date s -> valid_time s -> year_in_range (year s) ->
  constant_length_unit (base meta) = true ->
  1 <= num meta <= 2147483647 ->
  - 2 ^ 62 <= struct_attoseconds s / unit_attoseconds (base meta) <= 2 ^ 62 ->
  convert_datetimestruct_to_datetime meta s
  = Ok (struct_attoseconds s / unit_attoseconds (base meta) / num meta).
Proof.
  intros Hvd Hvt Hy Hu Hn Hq.
  pose proof (get_datetimestruct_days_valid s Hvd Hy) as Hdays.
  pose proof (reference_day_bounds s Hvd Hy) as Hrd.
  destruct Hvt as (Hh & Hmi & Hs & Hus & Hps & Has).
  change (2 ^ 62) with 4611686018427387904 in Hq.
  unfold convert_datetimestruct_to_datetime.
  rewrite (year_in_range_not_nat _ Hy).
  destruct meta as [u n]. cbn [base num] in *.
  unfold struct_attoseconds in *.
  destruct u; try discriminate Hu; cbv beta iota zeta; rewrite Hdays;
    cbn [unit_attoseconds] in *;
    unfold add64, sub64, mul64, div64;
    try match goal with
      | |- context [if ?c >=? 0 then _ else _] => destruct (Z.geb_spec c 0)
      end;
    strip64;
    match goal with
    | |- Ok (divide_by_multiplier ?n ?r) = _ =>
        rewrite (divide_by_multiplier_floor n r) by (int64_bounds; zdiv)
    end;
    apply f_equal; apply (f_equal (fun x => x / _)); zdiv.
Qed.

Ltac strip32 :=
  repeat match goal with
    | |- context [i32 ?z] => rewrite (i32_small z) by zdiv
    end.

(** [m] is one of the [n] integers from [k] downwards, and the goal holds
    by evaluation for each. *)
Ltac by_cases_down m k n :=
  lazymatch n with
  | O => exfalso; lia
  | S ?n' =>
      let k' := eval vm_compute in (k - 1) in
      destruct (Z.eq_dec m k) as [->|?];
      [vm_compute; reflexivity|by_cases_down m k' n']
  end.

Lemma add_minutes_before_epoch m :
  -20 <= m <= -1 ->
  add_minutes_to_datetimestruct initial_datetimestruct m
  = mkDts 1969 12 31 23 (60 + m) 0 0 0 0.
Proof. intros H. by_cases_down m (-1) 20%nat. Qed.

Lemma add_seconds_before_epoch s :
  -2 <= s <= -1 ->
  add_seconds_to_datetimestruct initial_datetimestruct s
  = mkDts 1969 12 31 23 59 (60 + s) 0 0 0.
Proof. intros H. by_cases_down s (-1) 2%nat. Qed.

Lemma nat_eqb_false v : v <> NPY_DATETIME_NAT -> (v =? NPY_DATETIME_NAT) = false.
Proof. intros H. apply Z.eqb_neq. exact H. Qed.

Lemma year_of_reference_day y m dd d :
  1 <= m <= 12 -> 1 <= dd <= days_in_month y m ->
  days_before_year y + days_before_month (is_leapyear y) m + (dd - 1) = d ->
  - 2 ^ 61 <= d <= 2 ^ 61 -> year_in_range y.
Proof.
  change (2 ^ 61) with 2305843009213693952.
  unfold days_in_month, year_in_range. intros Hm Hd Href Hb.
  pose proof (day_of_year_bounds _ _ _ Hm Hd) as Hdoy.
  assert (0 <= days_before_month (is_leapyear y) m + (dd - 1) < 366)
    by (destruct (is_leapyear y); lia).
  unfold days_before_year in Href. zdiv.
Qed.

(** The struct of a value at a unit of constant length: a valid struct
    whose instant is the value times the multiplier times the length of
    the unit. *)
Lemma value_to_struct_reference meta v :
  constant_length_unit (base meta) = true ->
  v <> NPY_DATETIME_NAT ->
  - 2 ^ 58 <= v * num meta <= 2 ^ 58 ->
  exists out,
    convert_datetime_to_datetimestruct meta v = Ok out
    /\ valid_date out /\ valid_time out /\ year_in_range (year out)
    /\ struct_attoseconds out = v * num meta * unit_attoseconds (base meta).
Proof.
  intros Hu Hnat Hb.
  change (2 ^ 58) with 288230376151711744 in Hb.
  unfold convert_datetime_to_datetimestruct. rewrite (nat_eqb_false v Hnat).
  destruct meta as [u n]. cbn [base num] in *.
  assert (Hdt : v *! n = v * n) by (apply i64_small; int64_bounds; lia).
  cbv zeta. rewrite Hdt. set (dt := v * n) in *.
  destruct u; try discriminate Hu; cbv beta iota.
  (* W, D *)
  1, 2:
    unfold mul64; rewrite ?(i64_small (dt * 7)) by (int64_bounds; lia);
    match goal with
    | |- context [set_datetimestruct_days ?d _] =>
        destruct (set_datetimestruct_days_reference d initial_datetimestruct)
          as (y & m & dd & -> & Hm & Hd & Href & Hyb);
        [unfold day_offset_in_range, days_per_400years; int64_bounds; lia|];
        pose proof (year_of_reference_day y m dd _ Hm Hd Href
                      ltac:(change (2 ^ 61) with 2305843009213693952; lia)) as Hy
    end;
    eexists; (split; [reflexivity|]);
    unfold valid_date, valid_time, struct_attoseconds, reference_day;
    cbn [year month day hour min sec us ps as_ unit_attoseconds initial_datetimestruct];
    rewrite Href; repeat split; try assumption;
    try (unfold year_in_range in Hy; lia); lia.
  (* h ... ps *)
  1-7:
    rewrite split_days_reference by (change (2 ^ 62) with 4611686018427387904; lia);
    match goal with
    | |- context [set_datetimestruct_days ?d _] =>
        destruct (set_datetimestruct_days_reference d initial_datetimestruct)
          as (y & m & dd & -> & Hm & Hd & Href & Hyb);
        [unfold day_offset_in_range, days_per_400years; int64_bounds; zdiv|];
        pose proof (year_of_reference_day y m dd _ Hm Hd Href
                      ltac:(change (2 ^ 61) with 2305843009213693952; zdiv)) as Hy
    end;
    unfold set_hour, set_min, set_sec, set_us, set_ps, set_as,
      mul64, div64, mod64, add64;
    cbn [year month day hour min sec us ps as_ initial_datetimestruct];
    strip64; strip32;
    eexists; (split; [reflexivity|]);
    unfold valid_date, valid_time, struct_attoseconds, reference_day;
    cbn [year month day hour min sec us ps as_ unit_attoseconds];
    rewrite Href; repeat split; try assumption;
    try (unfold year_in_range in Hy; lia); zdiv.
  (* fs, as *)
  all: destruct (Z.geb_spec dt 0) as [Hpos|Hneg];
    [|unfold mod64 at 1;
      match goal with
      | |- context [if ?c <? 0 then _ else _] => destruct (Z.ltb_spec c 0)
      end; cbv beta iota;
      unfold add64, sub64, div64, mod64; strip64; strip32;
      (rewrite add_minutes_before_epoch by zdiv)
      || (rewrite add_seconds_before_epoch by zdiv)];
    unfold set_hour, set_min, set_sec, set_us, set_ps, set_as,
      mul64, div64, mod64, add64;
    cbn [year month day hour min sec us ps as_ initial_datetimestruct];
    strip64; strip32;
    (eexists; (split; [reflexivity|]));
    unfold valid_date, valid_time, struct_attoseconds, reference_day, year_in_range;
    cbn [year month day hour min sec us ps as_ unit_attoseconds];
    match goal with
    | |- context [days_in_month ?y ?m] =>
        let a := eval vm_compute in (days_in_month y m) in
        let b := eval vm_compute in (days_before_year y) in
        let c := eval vm_compute in (days_before_month (is_leapyear y) m) in
        change (days_in_month y m) with a;
        change (days_before_year y) with b;
        change (days_before_month (is_leapyear y) m) with c
    end;
    repeat split; zdiv.
Qed.

(** The numbering of business days is inverted by [get_nweekdays]. *)
Lemma business_day_number dt :
  -2147483647 <= dt <= 2147483647 ->
  get_nweekdays 0
    (if dt >=? 0 then 7 *! ((dt +! 3) /! 5) +! ((dt +! 3) %! 5) -! 3
     else 7 *! ((dt -! 1) /! 5) +! ((dt -! 1) %! 5) +! 1) = dt.
Proof.
  intros Hdt. unfold add64, sub64, mul64, div64, mod64.
  destruct (Z.geb_spec dt 0) as [Hpos|Hneg]; strip64;
    match goal with
    | |- context [Z.quot ?a 5] =>
        let q := fresh "q" in let r := fresh "r" in
        set (q := Z.quot a 5) in *; set (r := Z.rem a 5) in *;
        assert (Hq : a = 5 * q + r /\ -5 < r < 5 /\ (0 <= a -> 0 <= r)
                     /\ (a <= 0 -> r <= 0)) by (subst q r; zdiv);
        clearbody q r
    end;
    match goal with
    | |- get_nweekdays 0 ?d = _ => set (days := d) in *
    end;
    unfold get_nweekdays;
    [replace (days <? 0) with false by (symmetry; apply Z.ltb_ge; subst days; lia)
    |replace (days <? 0) with true by (symmetry; apply Z.ltb_lt; subst days; lia)];
    cbv beta iota zeta;
    rewrite !get_day_of_week_floor by (int64_bounds; subst days; lia);
    unfold add64, sub64, mul64, div64, mod64; subst days.
  all: repeat match goal with
    | |- context [if ?a >? ?b then _ else _] => destruct (Z.gtb_spec a b)
    | |- context [if ?a <? ?b then _ else _] => destruct (Z.ltb_spec a b)
    end.
  all: try (exfalso; zdiv).
  all: repeat (progress (strip64; strip32)); zdiv.
Qed.

Lemma days_in_january y : days_in_month y 1 = 31.
Proof. unfold days_in_month. destruct (is_leapyear y); reflexivity. Qed.

(** The codec at the units of years, months and business days: the
    struct of a value is valid, and its value at the same unit with a
    multiplier [n'] is the floor of the ticks over [n']. *)
Lemma calendar_unit_codec meta v :
  base meta = NPY_FR_Y \/ base meta = NPY_FR_M \/ base meta = NPY_FR_B ->
  value_in_codec_range meta v ->
  exists out,
    convert_datetime_to_datetimestruct meta v = Ok out
    /\ valid_date out /\ valid_time out
    /\ forall n', 1 <= n' <= 2147483647 ->
         convert_datetimestruct_to_datetime (mkMeta (base meta) n') out
         = Ok (v * num meta / n').
Proof.
  intros Hu [Hnat Hb].
  unfold convert_datetime_to_datetimestruct. rewrite (nat_eqb_false v Hnat).
  destruct meta as [u n]. cbn [base num] in *.
  assert (Hb' : -288230376151711744 <= v * n <= 288230376151711744)
    by (destruct u; cbn [codec_bound] in Hb; lia).
  assert (Hdt : v *! n = v * n) by (apply i64_small; int64_bounds; lia).
  cbv zeta. rewrite Hdt. set (dt := v * n) in *.
  destruct Hu as [ -> | [ -> | -> ] ]; cbv beta iota; cbn [codec_bound] in Hb.
  - (* Y *)
    unfold set_year, add64. cbn [year month day hour min sec us ps as_ initial_datetimestruct].
    rewrite !(i64_small (1970 + dt)) by (int64_bounds; lia).
    eexists. split; [reflexivity|].
    unfold valid_date, valid_time. cbn [year month day hour min sec us ps as_].
    rewrite days_in_january.
    split; [lia|]. split; [lia|].
    intros n' Hn'. unfold convert_datetimestruct_to_datetime. cbn [year base num].
    replace (1970 + dt =? NPY_DATETIME_NAT) with false
      by (symmetry; apply Z.eqb_neq; unfold NPY_DATETIME_NAT; int64_bounds; lia).
    unfold sub64. rewrite (i64_small (1970 + dt - 1970)) by (int64_bounds; lia).
    rewrite divide_by_multiplier_floor by (int64_bounds; lia).
    do 2 f_equal. ring.
  - (* M *)
    destruct (Z.geb_spec dt 0) as [Hpos|Hneg];
      unfold set_year, set_month, add64, sub64, mul64, div64, mod64;
      cbn [year month day hour min sec us ps as_ initial_datetimestruct];
      repeat (progress (strip64; strip32));
      (eexists; (split; [reflexivity|]));
      unfold valid_date, valid_time; cbn [year month day hour min sec us ps as_];
      (split; [split; [zdiv|]|]);
      try (unfold days_in_month;
           match goal with
           | |- 1 <= 1 <= month_length ?l ?m =>
               pose proof (month_length_bounds l m ltac:(zdiv)); lia
           end);
      (split; [lia|]);
      intros n' Hn'; unfold convert_datetimestruct_to_datetime; cbn [year month base num];
      match goal with
      | |- context [?y =? NPY_DATETIME_NAT] =>
          replace (y =? NPY_DATETIME_NAT) with false
            by (symmetry; apply Z.eqb_neq; unfold NPY_DATETIME_NAT; int64_bounds; zdiv)
      end;
      unfold add64, sub64, mul64; repeat (progress (strip64; strip32));
      (rewrite divide_by_multiplier_floor by (int64_bounds; zdiv));
      apply f_equal; apply (f_equal (fun x => x / _)); zdiv.
  - (* B *)
    pose proof (business_day_number dt Hb) as Hnum.
    match type of Hnum with
    | get_nweekdays 0 ?d = _ => set (absdays := d) in *
    end.
    assert (Habs : -4000000000 <= absdays <= 4000000000).
    { subst absdays. unfold add64, sub64, mul64, div64, mod64.
      destruct (Z.geb_spec dt 0); strip64; zdiv. }
    destruct (set_datetimestruct_days_reference absdays initial_datetimestruct)
      as (y & m & dd & -> & Hm & Hd & Href & Hyb).
    { unfold day_offset_in_range, days_per_400years; int64_bounds; lia. }
    pose proof (year_of_reference_day y m dd _ Hm Hd Href
                  ltac:(change (2 ^ 61) with 2305843009213693952; lia)) as Hy.
    eexists. split; [reflexivity|].
    cbn [initial_datetimestruct hour min sec us ps as_].
    split; [split; assumption|].
    split; [unfold valid_time; cbn; lia|].
    intros n' Hn'. unfold convert_datetimestruct_to_datetime. cbn [year base num].
    rewrite (year_in_range_not_nat _ Hy). cbv beta iota zeta.
    rewrite get_datetimestruct_days_valid
      by (first [exact Hy | split; [exact Hm | exact Hd]]).
    unfold reference_day. cbn [year month day]. rewrite Href, Hnum.
    rewrite divide_by_multiplier_floor by (int64_bounds; lia). reflexivity.
Qed.

Lemma codec_bound_le u : codec_bound u <= 288230376151711744.
Proof. destruct u; cbn; lia. Qed.

Lemma unit_kinds u :
  u = NPY_FR_GENERIC
  \/ (u = NPY_FR_Y \/ u = NPY_FR_M \/ u = NPY_FR_B)
  \/ constant_length_unit u = true.
Proof. destruct u; auto. Qed.

Lemma unit_attoseconds_positive u :
  constant_length_unit u = true -> 0 < unit_attoseconds u.
Proof. unfold constant_length_unit. apply Z.ltb_lt. Qed.

Lemma struct_of_value_is_valid meta v :
  base meta <> NPY_FR_GENERIC ->
  value_in_codec_range meta v ->
  exists out,
    convert_datetime_to_datetimestruct meta v = Ok out
    /\ valid_date out /\ valid_time out.
Proof.
  intros Hg Hr.
  destruct (unit_kinds (base meta)) as [Hu|[Hu|Hu]]; [contradiction| |].
  - destruct (calendar_unit_codec meta v Hu Hr) as (out & H1 & H2 & H3 & _).
    exists out. auto.
  - destruct Hr as [Hnat Hb]. pose proof (codec_bound_le (base meta)).
    destruct (value_to_struct_reference meta v Hu Hnat)
      as (out & H1 & H2 & H3 & _).
    { change (2 ^ 58) with 288230376151711744. lia. }
    exists out. auto.
Qed.

(** X5.  The struct of a value that is not NaT, at any unit but the
    generic one, is a valid struct: a day of the calendar and a time of
    day in range. *)
Theorem converted_struct_is_valid (meta : PyArray_DatetimeMetaData) (v : Z) :
  base meta <> NPY_FR_GENERIC ->
  value_in_codec_range meta v ->
  exists out,
    convert_datetime_to_datetimestruct meta v = Ok out
    /\ valid_date out /\ valid_time out.
Proof. apply struct_of_value_is_valid. Qed.

Lemma converted_struct_is_valid_witness :
  (base (mkMeta NPY_FR_ms 25) <> NPY_FR_GENERIC
   /\ value_in_codec_range (mkMeta NPY_FR_ms 25) (-7))
  /\ exists out,
       convert_datetime_to_datetimestruct (mkMeta NPY_FR_ms 25) (-7) = Ok out
       /\ valid_date out /\ valid_time out.
Proof.
  assert (H1 : base (mkMeta NPY_FR_ms 25) <> NPY_FR_GENERIC) by discriminate.
  assert (H2 : value_in_codec_range (mkMeta NPY_FR_ms 25) (-7)).
  { split; [discriminate|]. cbn. lia. }
  split; [split; assumption|].
  exact (converted_struct_is_valid (mkMeta NPY_FR_ms 25) (-7) H1 H2).
Defined.

(** X6.  A value that is not NaT, converted to a struct and back at the
    same metadata, is the value again, at every unit but the generic one
    and for every positive multiplier. *)
Theorem value_struct_value_roundtrip (meta : PyArray_DatetimeMetaData) (v : Z) :
  base meta <> NPY_FR_GENERIC ->
  1 <= num meta <= 2147483647 ->
  value_in_codec_range meta v ->
  exists out,
    convert_datetime_to_datetimestruct meta v = Ok out
    /\ convert_datetimestruct_to_datetime meta out = Ok v.
Proof.
  intros Hg Hn Hr.
  destruct (unit_kinds (base meta)) as [Hu|[Hu|Hu]]; [contradiction| |].
  - destruct (calendar_unit_codec meta v Hu Hr) as (out & H1 & _ & _ & H4).
    exists out. split; [exact H1|].
    specialize (H4 (num meta) Hn). destruct meta as [u n]. cbn [base num] in *.
    rewrite H4, Z.div_mul by lia. reflexivity.
  - destruct Hr as [Hnat Hb]. pose proof (codec_bound_le (base meta)).
    pose proof (unit_attoseconds_positive _ Hu) as HU.
    destruct (value_to_struct_reference meta v Hu Hnat)
      as (out & H1 & H2 & H3 & H4 & H5).
    { change (2 ^ 58) with 288230376151711744. lia. }
    exists out. split; [exact H1|].
    rewrite (struct_to_value_reference meta out H2 H3 H4 Hu Hn);
      rewrite H5, Z.div_mul by lia.
    + rewrite Z.div_mul by lia. reflexivity.
    + change (2 ^ 62) with 4611686018427387904. lia.
Qed.

Lemma value_struct_value_roundtrip_witness :
  (base (mkMeta NPY_FR_B 3) <> NPY_FR_GENERIC
   /\ 1 <= num (mkMeta NPY_FR_B 3) <= 2147483647
   /\ value_in_codec_range (mkMeta NPY_FR_B 3) (-11))
  /\ exists out,
       convert_datetime_to_datetimestruct (mkMeta NPY_FR_B 3) (-11) = Ok out
       /\ convert_datetimestruct_to_datetime (mkMeta NPY_FR_B 3) out = Ok (-11).
Proof.
  assert (H1 : base (mkMeta NPY_FR_B 3) <> NPY_FR_GENERIC) by discriminate.
  assert (H2 : 1 <= num (mkMeta NPY_FR_B 3) <= 2147483647) by (cbn; lia).
  assert (H3 : value_in_codec_range (mkMeta NPY_FR_B 3) (-11)).
  { split; [discriminate|]. cbn. lia. }
  split; [split; [exact H1 | split; [exact H2 | exact H3]]|].
  exact (value_struct_value_roundtrip (mkMeta NPY_FR_B 3) (-11) H1 H2 H3).
Defined.

(** X7.  A datetime cast between units of constant length (weeks, days
    and the units of time) is exact up to a floor: the result is the
    floor of the source instant over the length of a destination tick. *)
Theorem cast_datetime_is_floor_of_instant
    (src_meta dst_meta : PyArray_DatetimeMetaData) (v : Z) :
  constant_length_unit (base src_meta) = true ->
  constant_length_unit (base dst_meta) = true ->
  1 <= num dst_meta <= 2147483647 ->
  v <> NPY_DATETIME_NAT ->
  - 2 ^ 58 <= v * num src_meta <= 2 ^ 58 ->
  - 2 ^ 62 <= v * num src_meta * unit_attoseconds (base src_meta)
                / unit_attoseconds (base dst_meta) <= 2 ^ 62 ->
  cast_datetime_to_datetime src_meta dst_meta v
  = Ok (v * num src_meta * unit_attoseconds (base src_meta)
        / (unit_attoseconds (base dst_meta) * num dst_meta)).
Proof.
  intros Hs Hd Hn Hnat Hb Hq.
  pose proof (unit_attoseconds_positive _ Hs) as HUs.
  pose proof (unit_attoseconds_positive _ Hd) as HUd.
  unfold cast_datetime_to_datetime, same_metadata.
  destruct (unit_eqb (base src_meta) (base dst_meta) && (num src_meta =? num dst_meta))
    eqn:Hsame.
  - apply andb_true_iff in Hsame as [Hbase Hnum].
    apply unit_eqb_eq in Hbase. apply Z.eqb_eq in Hnum. rewrite Hbase, Hnum.
    f_equal. rewrite <- Z.mul_assoc, (Z.mul_comm (num dst_meta)).
    rewrite Z.div_mul by lia. reflexivity.
  - destruct (value_to_struct_reference src_meta v Hs Hnat Hb)
      as (out & -> & H2 & H3 & H4 & H5).
    rewrite (struct_to_value_reference dst_meta out H2 H3 H4 Hd Hn);
      rewrite H5; [|exact Hq].
    rewrite Z.div_div by lia. reflexivity.
Qed.

Lemma cast_datetime_is_floor_of_instant_witness :
  (constant_length_unit (base (mkMeta NPY_FR_h 1)) = true
   /\ constant_length_unit (base (mkMeta NPY_FR_D 2)) = true
   /\ 1 <= num (mkMeta NPY_FR_D 2) <= 2147483647
   /\ -1 <> NPY_DATETIME_NAT
   /\ - 2 ^ 58 <= -1 * num (mkMeta NPY_FR_h 1) <= 2 ^ 58
   /\ - 2 ^ 62 <= -1 * num (mkMeta NPY_FR_h 1) * unit_attoseconds (base (mkMeta NPY_FR_h 1))
                   / unit_attoseconds (base (mkMeta NPY_FR_D 2)) <= 2 ^ 62)
  /\ cast_datetime_to_datetime (mkMeta NPY_FR_h 1) (mkMeta NPY_FR_D 2) (-1)
     = Ok (-1 * num (mkMeta NPY_FR_h 1) * unit_attoseconds (base (mkMeta NPY_FR_h 1))
           / (unit_attoseconds (base (mkMeta NPY_FR_D 2)) * num (mkMeta NPY_FR_D 2))).
Proof.
  assert (H1 : constant_length_unit (base (mkMeta NPY_FR_h 1)) = true) by reflexivity.
  assert (H2 : constant_length_unit (base (mkMeta NPY_FR_D 2)) = true) by reflexivity.
  assert (H3 : 1 <= num (mkMeta NPY_FR_D 2) <= 2147483647) by (cbn; lia).
  assert (H4 : -1 <> NPY_DATETIME_NAT) by discriminate.
  assert (H5 : - 2 ^ 58 <= -1 * num (mkMeta NPY_FR_h 1) <= 2 ^ 58)
    by (vm_compute; split; discriminate).
  assert (H6 : - 2 ^ 62 <= -1 * num (mkMeta NPY_FR_h 1)
                 * unit_attoseconds (base (mkMeta NPY_FR_h 1))
                 / unit_attoseconds (base (mkMeta NPY_FR_D 2)) <= 2 ^ 62)
    by (vm_compute; split; discriminate).
  split; [repeat (split; [assumption|]); assumption|].
  exact (cast_datetime_is_floor_of_instant _ _ _ H1 H2 H3 H4 H5 H6).
Defined.

(** X8.  A datetime cast of NaT is NaT and succeeds, whatever the two
    metadata, generic units included. *)
Theorem cast_datetime_of_nat_is_nat (src_meta dst_meta : PyArray_DatetimeMetaData) :
  cast_datetime_to_datetime src_meta dst_meta NPY_DATETIME_NAT = Ok NPY_DATETIME_NAT.
Proof.
  unfold cast_datetime_to_datetime.
  destruct (same_metadata src_meta dst_meta); [reflexivity|].
  unfold convert_datetime_to_datetimestruct. rewrite Z.eqb_refl.
  unfold convert_datetimestruct_to_datetime. reflexivity.
Qed.

(** *** The Euclidean loop computes the greatest common divisor *)

Lemma euclid_loop_gcd n : forall x y,
  0 <= x -> 0 <= y < 2 ^ Z.of_nat n ->
  euclid_loop (2 * n + 1) x y = Z.gcd x y.
Proof.
  induction n as [|n IH]; intros x y Hx Hy.
  - assert (y = 0) as -> by (cbn in Hy; lia).
    cbn [Nat.mul Nat.add]. rewrite euclid_loop_step. cbn [Z.eqb negb andb].
    rewrite andb_false_r, Z.gcd_0_r, Z.abs_eq by lia. reflexivity.
  - replace (2 * S n + 1)%nat with (S (S (2 * n + 1))) by lia.
    rewrite euclid_loop_step.
    destruct (negb (x =? y) && negb (y =? 0)) eqn:Hc1.
    + apply andb_true_iff in Hc1 as [_ Hy0]. apply negb_true_iff, Z.eqb_neq in Hy0.
      pose proof (Z.mod_pos_bound x y ltac:(lia)) as Hr.
      rewrite euclid_loop_step.
      rewrite (Z.gcd_comm x y), <- (Z.gcd_mod x y Hy0).
      destruct (negb (y =? x mod y) && negb (x mod y =? 0)) eqn:Hc2.
      * apply andb_true_iff in Hc2 as [_ Hr0]. apply negb_true_iff, Z.eqb_neq in Hr0.
        pose proof (Z.mod_pos_bound y (x mod y) ltac:(lia)) as Ht.
        pose proof (Z.div_mod y (x mod y) Hr0) as Hdiv.
        assert (1 <= y / (x mod y)) by (apply Z.div_le_lower_bound; lia).
        rewrite IH.
        -- rewrite <- (Z.gcd_mod y (x mod y) Hr0). apply Z.gcd_comm.
        -- lia.
        -- rewrite Nat2Z.inj_succ, Z.pow_succ_r in Hy by lia. nia.
      * apply andb_false_iff in Hc2 as [Hc2|Hc2]; apply negb_false_iff, Z.eqb_eq in Hc2;
          [lia|]. rewrite Hc2, Z.gcd_0_l, Z.abs_eq by lia. reflexivity.
    + apply andb_false_iff in Hc1 as [Hc1|Hc1]; apply negb_false_iff, Z.eqb_eq in Hc1.
      * subst y. rewrite Z.gcd_diag, Z.abs_eq by lia. reflexivity.
      * subst y. rewrite Z.gcd_0_r, Z.abs_eq by lia. reflexivity.
Qed.

Lemma euclidean_gcd_spec x y :
  0 <= x < 2 ^ 64 -> 0 <= y < 2 ^ 64 -> _uint64_euclidean_gcd x y = Z.gcd x y.
Proof.
  intros Hx Hy. unfold _uint64_euclidean_gcd.
  destruct (x >? y).
  - rewrite Z.gcd_comm. apply (euclid_loop_gcd 64); [lia|exact Hx].
  - apply (euclid_loop_gcd 64); [lia|exact Hy].
Qed.

(** X9.  On two [npy_uint64] operands the Euclidean loop returns their
    greatest common divisor; in particular it returns the other operand
    when one of them is 0, and 0 only when both are. *)
Theorem _uint64_euclidean_gcd_is_gcd (x y : Z) :
  0 <= x < 2 ^ 64 -> 0 <= y < 2 ^ 64 ->
  _uint64_euclidean_gcd x y = Z.gcd x y.
Proof. apply euclidean_gcd_spec. Qed.

Lemma _uint64_euclidean_gcd_is_gcd_witness :
  (0 <= 18446744073709551615 < 2 ^ 64 /\ 0 <= 0 < 2 ^ 64)
  /\ _uint64_euclidean_gcd 18446744073709551615 0 = Z.gcd 18446744073709551615 0.
Proof.
  assert (H1 : 0 <= 18446744073709551615 < 2 ^ 64) by (vm_compute; split; [discriminate|reflexivity]).
  assert (H2 : 0 <= 0 < 2 ^ 64) by (vm_compute; split; [discriminate|reflexivity]).
  split; [split; assumption|].
  exact (_uint64_euclidean_gcd_is_gcd 18446744073709551615 0 H1 H2).
Defined.

(** *** The factor between two units *)

Lemma units_factor_exact big little :
  constant_length_unit big = true ->
  constant_length_unit little = true ->
  get_datetime_units_factor big little
  = if unit_leb big little
    then if unit_attoseconds big / unit_attoseconds little <? 2 ^ 56
         then unit_attoseconds big / unit_attoseconds little
         else 0
    else 1.
Proof.
  destruct big, little; intros Hb Hl; try discriminate Hb; try discriminate Hl;
    vm_compute; reflexivity.
Qed.

Lemma unit_length_divides big little :
  constant_length_unit big = true ->
  constant_length_unit little = true ->
  unit_leb big little = true ->
  unit_attoseconds big / unit_attoseconds little * unit_attoseconds little
  = unit_attoseconds big.
Proof.
  destruct big, little; intros Hb Hl; try discriminate Hb; try discriminate Hl;
    vm_compute; intros H; first [reflexivity | discriminate H].
Qed.

(** X10.  Between two units of constant length, from the coarser to the
    finer, [get_datetime_units_factor] is the exact ratio of the two
    lengths whenever that ratio is below 2^56, and 0 otherwise: the
    product it accumulates never wraps around unnoticed. *)
Theorem get_datetime_units_factor_is_ratio_or_zero (bigbase littlebase : NPY_DATETIMEUNIT) :
  constant_length_unit bigbase = true ->
  constant_length_unit littlebase = true ->
  unit_value bigbase <= unit_value littlebase ->
  unit_attoseconds littlebase * (unit_attoseconds bigbase / unit_attoseconds littlebase)
  = unit_attoseconds bigbase
  /\ get_datetime_units_factor bigbase littlebase
     = if unit_attoseconds bigbase / unit_attoseconds littlebase <? 2 ^ 56
       then unit_attoseconds bigbase / unit_attoseconds littlebase
       else 0.
Proof.
  intros Hb Hl Hle. apply Z.leb_le in Hle. split.
  - rewrite Z.mul_comm. apply unit_length_divides; assumption.
  - rewrite (units_factor_exact _ _ Hb Hl). unfold unit_leb. rewrite Hle. reflexivity.
Qed.

Lemma get_datetime_units_factor_is_ratio_or_zero_witness :
  (constant_length_unit NPY_FR_W = true
   /\ constant_length_unit NPY_FR_ps = true
   /\ unit_value NPY_FR_W <= unit_value NPY_FR_ps)
  /\ unit_attoseconds NPY_FR_ps * (unit_attoseconds NPY_FR_W / unit_attoseconds NPY_FR_ps)
     = unit_attoseconds NPY_FR_W
  /\ get_datetime_units_factor NPY_FR_W NPY_FR_ps
     = if unit_attoseconds NPY_FR_W / unit_attoseconds NPY_FR_ps <? 2 ^ 56
       then unit_attoseconds NPY_FR_W / unit_attoseconds NPY_FR_ps
       else 0.
Proof.
  assert (H1 : constant_length_unit NPY_FR_W = true) by reflexivity.
  assert (H2 : constant_length_unit NPY_FR_ps = true) by reflexivity.
  assert (H3 : unit_value NPY_FR_W <= unit_value NPY_FR_ps) by (vm_compute; discriminate).
  split; [split; [exact H1 | split; [exact H2 | exact H3]]|].
  exact (get_datetime_units_factor_is_ratio_or_zero NPY_FR_W NPY_FR_ps H1 H2 H3).
Defined.

(** *** The metadata GCD *)

Lemma u64_small z : 0 <= z < 2 ^ 64 -> u64 z = z.
Proof. intros H. rewrite u64_mod. apply Z.mod_small. exact H. Qed.

Lemma fill_out_meta_gcd b num1 num2 :
  1 <= num1 <= 2147483647 -> 0 <= num2 < 2 ^ 64 ->
  fill_out_meta b num1 num2 = Ok (mkMeta b (Z.gcd num1 num2)).
Proof.
  intros H1 H2. unfold fill_out_meta.
  rewrite euclidean_gcd_spec by (change (2 ^ 64) with 18446744073709551616 in *; lia).
  pose proof (Z.gcd_nonneg num1 num2) as Hg0.
  assert (Hgle : Z.gcd num1 num2 <= num1).
  { apply Z.divide_pos_le; [lia|apply Z.gcd_divide_l]. }
  assert (Hgne : Z.gcd num1 num2 <> 0).
  { intros Hz. apply Z.gcd_eq_0_l in Hz. lia. }
  cbn [num]. rewrite (i32_small (Z.gcd num1 num2)) by lia.
  rewrite u64_small by (change (2 ^ 64) with 18446744073709551616; lia).
  rewrite Z.eqb_refl.
  destruct (Z.leb_spec (Z.gcd num1 num2) 0); [lia|]. reflexivity.
Qed.

Lemma gcd_same_unit a b s1 s2 :
  base a <> NPY_FR_GENERIC -> base b = base a ->
  1 <= num a <= 2147483647 -> 1 <= num b <= 2147483647 ->
  compute_datetime_metadata_greatest_common_divisor a b s1 s2
  = Ok (mkMeta (base a) (Z.gcd (num a) (num b))).
Proof.
  intros Hg Hb Ha Hnb. unfold compute_datetime_metadata_greatest_common_divisor.
  rewrite Hb.
  destruct (unit_eqb (base a) NPY_FR_GENERIC) eqn:He;
    [apply unit_eqb_eq in He; contradiction|].
  rewrite unit_eqb_refl.
  rewrite !u64_small by (change (2 ^ 64) with 18446744073709551616; lia).
  apply fill_out_meta_gcd; [lia|change (2 ^ 64) with 18446744073709551616; lia].
Qed.

(** X11.  For two metadata of the same unit, not generic, with positive
    multipliers, the GCD metadata is that unit with the greatest common
    divisor of the two multipliers, whatever the strict flags. *)
Theorem gcd_same_unit_is_gcd_of_multipliers
    (a b : PyArray_DatetimeMetaData) (s1 s2 : bool) :
  base a <> NPY_FR_GENERIC -> base b = base a ->
  1 <= num a <= 2147483647 -> 1 <= num b <= 2147483647 ->
  compute_datetime_metadata_greatest_common_divisor a b s1 s2
  = Ok (mkMeta (base a) (Z.gcd (num a) (num b))).
Proof. apply gcd_same_unit. Qed.

Lemma gcd_same_unit_is_gcd_of_multipliers_witness :
  (base (mkMeta NPY_FR_B 6) <> NPY_FR_GENERIC
   /\ base (mkMeta NPY_FR_B 4) = base (mkMeta NPY_FR_B 6)
   /\ 1 <= num (mkMeta NPY_FR_B 6) <= 2147483647
   /\ 1 <= num (mkMeta NPY_FR_B 4) <= 2147483647)
  /\ compute_datetime_metadata_greatest_common_divisor
       (mkMeta NPY_FR_B 6) (mkMeta NPY_FR_B 4) true true
     = Ok (mkMeta (base (mkMeta NPY_FR_B 6))
                  (Z.gcd (num (mkMeta NPY_FR_B 6)) (num (mkMeta NPY_FR_B 4)))).
Proof.
  assert (H1 : base (mkMeta NPY_FR_B 6) <> NPY_FR_GENERIC) by discriminate.
  assert (H2 : base (mkMeta NPY_FR_B 4) = base (mkMeta NPY_FR_B 6)) by reflexivity.
  assert (H3 : 1 <= num (mkMeta NPY_FR_B 6) <= 2147483647) by (cbn; lia).
  assert (H4 : 1 <= num (mkMeta NPY_FR_B 4) <= 2147483647) by (cbn; lia).
  split; [split; [exact H1 | split; [exact H2 | split; [exact H3 | exact H4]]]|].
  exact (gcd_same_unit_is_gcd_of_multipliers _ _ true true H1 H2 H3 H4).
Defined.

Lemma validate_units_constant_length a b num1 num2 s1 s2 :
  constant_length_unit (base a) = true ->
  constant_length_unit (base b) = true ->
  validate_units a b num1 num2 s1 s2 = Ok (None, num1, num2).
Proof.
  destruct a as [b1 n1], b as [b2 n2]. cbn [base].
  destruct b1, b2; intros H1 H2; try discriminate H1; try discriminate H2; reflexivity.
Qed.

Lemma gcd_mul_r_nonneg n m p : 0 <= p -> Z.gcd n m * p = Z.gcd (n * p) (m * p).
Proof. intros Hp. symmetry. apply Z.gcd_mul_mono_r_nonneg. exact Hp. Qed.

Lemma gcd_constant_length a b s1 s2 r :
  constant_length_unit (base a) = true ->
  constant_length_unit (base b) = true ->
  1 <= num a <= 2147483647 -> 1 <= num b <= 2147483647 ->
  num a * get_datetime_units_factor (base a) (base b) < 2 ^ 64 ->
  num b * get_datetime_units_factor (base b) (base a) < 2 ^ 64 ->
  compute_datetime_metadata_greatest_common_divisor a b s1 s2 = Ok r ->
  base r = (if unit_gtb (base a) (base b) then base a else base b)
  /\ num r * unit_attoseconds (base r)
     = Z.gcd (num a * unit_attoseconds (base a)) (num b * unit_attoseconds (base b)).
Proof.
  intros Ha Hb Hna Hnb Hwa Hwb.
  pose proof (unit_attoseconds_positive _ Ha) as HUa.
  pose proof (unit_attoseconds_positive _ Hb) as HUb.
  destruct (unit_eqb (base a) (base b)) eqn:Hsame.
  - apply unit_eqb_eq in Hsame.
    rewrite (gcd_same_unit a b s1 s2); [|destruct (base a); discriminate|auto|auto|auto].
    intros [= <-]. cbn [base num]. rewrite <- Hsame. split.
    + destruct (unit_gtb (base a) (base a)); reflexivity.
    + apply gcd_mul_r_nonneg. lia.
  - unfold compute_datetime_metadata_greatest_common_divisor.
    destruct (unit_eqb (base a) NPY_FR_GENERIC) eqn:Hga;
      [apply unit_eqb_eq in Hga; rewrite Hga in Ha; discriminate|].
    destruct (unit_eqb (base b) NPY_FR_GENERIC) eqn:Hgb;
      [apply unit_eqb_eq in Hgb; rewrite Hgb in Hb; discriminate|].
    rewrite Hsame, (validate_units_constant_length a b _ _ s1 s2 Ha Hb).
    rewrite !(u64_small (num _)) by (change (2 ^ 64) with 18446744073709551616; lia).
    assert (Hne : unit_value (base a) <> unit_value (base b)).
    { intros Hv. apply unit_value_inj in Hv. rewrite Hv, unit_eqb_refl in Hsame.
      discriminate. }
    unfold unit_gtb in *. destruct (Z.gtb_spec (unit_value (base a)) (unit_value (base b))) as [Hgt|Hle].
    + pose proof (units_factor_exact (base b) (base a) Hb Ha) as Hf.
      unfold unit_leb in Hf.
      replace (unit_value (base b) <=? unit_value (base a)) with true in Hf
        by (symmetry; apply Z.leb_le; lia).
      pose proof (unit_length_divides (base b) (base a) Hb Ha) as Hd.
      unfold unit_leb in Hd. specialize (Hd ltac:(apply Z.leb_le; lia)).
      assert (Hq : 0 <= unit_attoseconds (base b) / unit_attoseconds (base a))
        by (apply Z.div_pos; lia).
      destruct (unit_attoseconds (base b) / unit_attoseconds (base a) <? 2 ^ 56).
      * rewrite Hf in *.
        rewrite (u64_small (num b * _)) by nia.
        destruct (Z.eqb_spec (num b * (unit_attoseconds (base b) / unit_attoseconds (base a))) 0);
          [discriminate|].
        rewrite fill_out_meta_gcd by nia.
        intros [= <-]. cbn [base num]. split; [reflexivity|].
        rewrite gcd_mul_r_nonneg by lia. f_equal.
        rewrite <- Z.mul_assoc, Hd. reflexivity.
      * rewrite Hf, Z.mul_0_r. cbn. discriminate.
    + pose proof (units_factor_exact (base a) (base b) Ha Hb) as Hf.
      unfold unit_leb in Hf.
      replace (unit_value (base a) <=? unit_value (base b)) with true in Hf
        by (symmetry; apply Z.leb_le; lia).
      pose proof (unit_length_divides (base a) (base b) Ha Hb) as Hd.
      unfold unit_leb in Hd. specialize (Hd ltac:(apply Z.leb_le; lia)).
      assert (Hq : 0 <= unit_attoseconds (base a) / unit_attoseconds (base b))
        by (apply Z.div_pos; lia).
      destruct (unit_attoseconds (base a) / unit_attoseconds (base b) <? 2 ^ 56).
      * rewrite Hf in *.
        rewrite (u64_small (num a * _)) by nia.
        destruct (Z.eqb_spec (num a * (unit_attoseconds (base a) / unit_attoseconds (base b))) 0);
          [discriminate|].
        rewrite fill_out_meta_sym, fill_out_meta_gcd by nia.
        intros [= <-]. cbn [base num]. split; [reflexivity|].
        rewrite gcd_mul_r_nonneg by lia. rewrite Z.gcd_comm. f_equal.
        rewrite <- Z.mul_assoc, Hd. reflexivity.
      * rewrite Hf, Z.mul_0_r. cbn. discriminate.
Qed.

(** X12.  For two metadata with units of constant length and positive
    multipliers, whenever the scaled multipliers fit an [npy_uint64] and
    a GCD metadata is returned, its tick is the greatest common divisor
    of the two ticks, all three measured in attoseconds. *)
Theorem gcd_tick_is_gcd_of_ticks
    (a b : PyArray_DatetimeMetaData) (s1 s2 : bool) (r : PyArray_DatetimeMetaData) :
  constant_length_unit (base a) = true ->
  constant_length_unit (base b) = true ->
  1 <= num a <= 2147483647 -> 1 <= num b <= 2147483647 ->
  num a * get_datetime_units_factor (base a) (base b) < 2 ^ 64 ->
  num b * get_datetime_units_factor (base b) (base a) < 2 ^ 64 ->
  compute_datetime_metadata_greatest_common_divisor a b s1 s2 = Ok r ->
  num r * unit_attoseconds (base r)
  = Z.gcd (num a * unit_attoseconds (base a)) (num b * unit_attoseconds (base b)).
Proof.
  intros Ha Hb Hna Hnb Hwa Hwb Hr.
  exact (proj2 (gcd_constant_length a b s1 s2 r Ha Hb Hna Hnb Hwa Hwb Hr)).
Qed.

Lemma gcd_tick_is_gcd_of_ticks_witness :
  (constant_length_unit (base (mkMeta NPY_FR_W 3)) = true
   /\ constant_length_unit (base (mkMeta NPY_FR_h 36)) = true
   /\ 1 <= num (mkMeta NPY_FR_W 3) <= 2147483647
   /\ 1 <= num (mkMeta NPY_FR_h 36) <= 2147483647
   /\ num (mkMeta NPY_FR_W 3)
      * get_datetime_units_factor (base (mkMeta NPY_FR_W 3)) (base (mkMeta NPY_FR_h 36)) < 2 ^ 64
   /\ num (mkMeta NPY_FR_h 36)
      * get_datetime_units_factor (base (mkMeta NPY_FR_h 36)) (base (mkMeta NPY_FR_W 3)) < 2 ^ 64
   /\ compute_datetime_metadata_greatest_common_divisor
        (mkMeta NPY_FR_W 3) (mkMeta NPY_FR_h 36) true true = Ok (mkMeta NPY_FR_h 36))
  /\ num (mkMeta NPY_FR_h 36) * unit_attoseconds (base (mkMeta NPY_FR_h 36))
     = Z.gcd (num (mkMeta NPY_FR_W 3) * unit_attoseconds (base (mkMeta NPY_FR_W 3)))
             (num (mkMeta NPY_FR_h 36) * unit_attoseconds (base (mkMeta NPY_FR_h 36))).
Proof.
  assert (H1 : constant_length_unit (base (mkMeta NPY_FR_W 3)) = true) by reflexivity.
  assert (H2 : constant_length_unit (base (mkMeta NPY_FR_h 36)) = true) by reflexivity.
  assert (H3 : 1 <= num (mkMeta NPY_FR_W 3) <= 2147483647) by (cbn; lia).
  assert (H4 : 1 <= num (mkMeta NPY_FR_h 36) <= 2147483647) by (cbn; lia).
  assert (H5 : num (mkMeta NPY_FR_W 3)
      * get_datetime_units_factor (base (mkMeta NPY_FR_W 3)) (base (mkMeta NPY_FR_h 36)) < 2 ^ 64)
    by (vm_compute; reflexivity).
  assert (H6 : num (mkMeta NPY_FR_h 36)
      * get_datetime_units_factor (base (mkMeta NPY_FR_h 36)) (base (mkMeta NPY_FR_W 3)) < 2 ^ 64)
    by (vm_compute; reflexivity).
  assert (H7 : compute_datetime_metadata_greatest_common_divisor
        (mkMeta NPY_FR_W 3) (mkMeta NPY_FR_h 36) true true = Ok (mkMeta NPY_FR_h 36))
    by (vm_compute; reflexivity).
  split; [repeat (split; [assumption|]); assumption|].
  exact (gcd_tick_is_gcd_of_ticks _ _ true true _ H1 H2 H3 H4 H5 H6 H7).
Defined.

(** X13.  Years against months, in either order and whatever the strict
    flags: the GCD metadata is months, with the greatest common divisor
    of twelve times the multiplier of the years and the multiplier of
    the months. *)
Theorem gcd_years_months_is_months
    (a b : PyArray_DatetimeMetaData) (s1 s2 : bool) :
  base a = NPY_FR_Y -> base b = NPY_FR_M ->
  1 <= num a <= 2147483647 -> 1 <= num b <= 2147483647 ->
  compute_datetime_metadata_greatest_common_divisor a b s1 s2
  = Ok (mkMeta NPY_FR_M (Z.gcd (12 * num a) (num b)))
  /\ compute_datetime_metadata_greatest_common_divisor b a s1 s2
     = Ok (mkMeta NPY_FR_M (Z.gcd (12 * num a) (num b))).
Proof.
  intros Ha Hb Hna Hnb.
  destruct a as [b1 n1], b as [b2 n2]. cbn [base num] in *. subst b1 b2.
  unfold compute_datetime_metadata_greatest_common_divisor, validate_units.
  cbn [base num unit_eqb unit_gtb unit_value Z.eqb Z.gtb Z.compare Pos.compare
       Pos.compare_cont Pos.eqb orb andb negb].
  change (get_datetime_units_factor NPY_FR_Y NPY_FR_M) with 1.
  rewrite !Z.mul_1_r.
  rewrite !(u64_small n1), !(u64_small n2)
    by (change (2 ^ 64) with 18446744073709551616; lia).
  rewrite !(u64_small (n1 * 12)) by (change (2 ^ 64) with 18446744073709551616; lia).
  destruct (Z.eqb_spec (n1 * 12) 0); [lia|].
  rewrite (fill_out_meta_sym NPY_FR_M (n1 * 12) n2).
  rewrite fill_out_meta_gcd by (change (2 ^ 64) with 18446744073709551616; lia).
  rewrite (Z.gcd_comm n2), (Z.mul_comm n1 12). split; reflexivity.
Qed.

Lemma gcd_years_months_is_months_witness :
  (base (mkMeta NPY_FR_Y 5) = NPY_FR_Y /\ base (mkMeta NPY_FR_M 8) = NPY_FR_M
   /\ 1 <= num (mkMeta NPY_FR_Y 5) <= 2147483647
   /\ 1 <= num (mkMeta NPY_FR_M 8) <= 2147483647)
  /\ compute_datetime_metadata_greatest_common_divisor
       (mkMeta NPY_FR_Y 5) (mkMeta NPY_FR_M 8) true true
     = Ok (mkMeta NPY_FR_M (Z.gcd (12 * num (mkMeta NPY_FR_Y 5)) (num (mkMeta NPY_FR_M 8))))
  /\ compute_datetime_metadata_greatest_common_divisor
       (mkMeta NPY_FR_M 8) (mkMeta NPY_FR_Y 5) true true
     = Ok (mkMeta NPY_FR_M (Z.gcd (12 * num (mkMeta NPY_FR_Y 5)) (num (mkMeta NPY_FR_M 8)))).
Proof.
  assert (H1 : base (mkMeta NPY_FR_Y 5) = NPY_FR_Y) by reflexivity.
  assert (H2 : base (mkMeta NPY_FR_M 8) = NPY_FR_M) by reflexivity.
  assert (H3 : 1 <= num (mkMeta NPY_FR_Y 5) <= 2147483647) by (cbn; lia).
  assert (H4 : 1 <= num (mkMeta NPY_FR_M 8) <= 2147483647) by (cbn; lia).
  split; [split; [exact H1 | split; [exact H2 | split; [exact H3 | exact H4]]]|].
  exact (gcd_years_months_is_months _ _ true true H1 H2 H3 H4).
Defined.

(** X14.  Whenever a GCD metadata is returned for two units that are not
    generic, its unit is the finer of the two units, the one later in
    the enumeration: no combination of units yields a third unit, and
    business days are never replaced by days. *)
Theorem gcd_unit_is_the_finer_unit
    (a b : PyArray_DatetimeMetaData) (s1 s2 : bool) (r : PyArray_DatetimeMetaData) :
  base a <> NPY_FR_GENERIC -> base b <> NPY_FR_GENERIC ->
  compute_datetime_metadata_greatest_common_divisor a b s1 s2 = Ok r ->
  base r = (if unit_value (base b) <? unit_value (base a) then base a else base b).
Proof. apply gcd_result_unit. Qed.

Lemma gcd_unit_is_the_finer_unit_witness :
  (base (mkMeta NPY_FR_B 1) <> NPY_FR_GENERIC
   /\ base (mkMeta NPY_FR_W 1) <> NPY_FR_GENERIC
   /\ compute_datetime_metadata_greatest_common_divisor
        (mkMeta NPY_FR_B 1) (mkMeta NPY_FR_W 1) false false = Ok (mkMeta NPY_FR_B 1))
  /\ base (mkMeta NPY_FR_B 1)
     = (if unit_value (base (mkMeta NPY_FR_W 1)) <? unit_value (base (mkMeta NPY_FR_B 1))
        then base (mkMeta NPY_FR_B 1) else base (mkMeta NPY_FR_W 1)).
Proof.
  assert (H1 : base (mkMeta NPY_FR_B 1) <> NPY_FR_GENERIC) by discriminate.
  assert (H2 : base (mkMeta NPY_FR_W 1) <> NPY_FR_GENERIC) by discriminate.
  assert (H3 : compute_datetime_metadata_greatest_common_divisor
        (mkMeta NPY_FR_B 1) (mkMeta NPY_FR_W 1) false false = Ok (mkMeta NPY_FR_B 1))
    by (vm_compute; reflexivity).
  split; [split; [exact H1 | split; [exact H2 | exact H3]]|].
  exact (gcd_unit_is_the_finer_unit _ _ false false _ H1 H2 H3).
Defined.

(** *** The casting levels *)

Lemma same_side_refl barrier u :
  (unit_leb u barrier && unit_leb u barrier)
  || (unit_gtb u barrier && unit_gtb u barrier) = true.
Proof.
  unfold unit_leb, unit_gtb. rewrite Z.gtb_ltb, !andb_diag.
  destruct (Z.leb_spec (unit_value u) (unit_value barrier)); [reflexivity|].
  apply Z.ltb_lt. assumption.
Qed.

Lemma can_cast_units_refl barrier u casting :
  can_cast_units_with_barrier barrier u u casting = true.
Proof.
  unfold can_cast_units_with_barrier.
  rewrite same_side_refl, unit_eqb_refl.
  assert (unit_leb u u = true) as -> by (apply Z.leb_refl).
  destruct casting, (unit_eqb u NPY_FR_GENERIC); reflexivity.
Qed.

Lemma metadata_divides_itself a strict :
  1 <= num a <= 2147483647 ->
  datetime_metadata_divides a a strict = Some true.
Proof.
  intros Hn. unfold datetime_metadata_divides.
  destruct (unit_eqb (base a) NPY_FR_GENERIC); [reflexivity|].
  rewrite unit_eqb_refl. cbn [negb].
  rewrite u64_small by (change (2 ^ 64) with 18446744073709551616; lia).
  assert (Hland : Z.land (num a) 0xff00000000000000 = 0).
  { apply Z.bits_inj'. intros k Hk. rewrite Z.land_spec, Z.bits_0.
    destruct (Z.ltb_spec k 56).
    - assert (Hc : forall j, 0 <= j < 56 -> Z.testbit 0xff00000000000000 j = false).
      { intros j Hj.
        assert (Hj' : j = 0 \/ j = 1 \/ j = 2 \/ j = 3 \/ j = 4 \/ j = 5 \/ j = 6 \/ j = 7
                \/ j = 8 \/ j = 9 \/ j = 10 \/ j = 11 \/ j = 12 \/ j = 13 \/ j = 14 \/ j = 15
                \/ j = 16 \/ j = 17 \/ j = 18 \/ j = 19 \/ j = 20 \/ j = 21 \/ j = 22 \/ j = 23
                \/ j = 24 \/ j = 25 \/ j = 26 \/ j = 27 \/ j = 28 \/ j = 29 \/ j = 30 \/ j = 31
                \/ j = 32 \/ j = 33 \/ j = 34 \/ j = 35 \/ j = 36 \/ j = 37 \/ j = 38 \/ j = 39
                \/ j = 40 \/ j = 41 \/ j = 42 \/ j = 43 \/ j = 44 \/ j = 45 \/ j = 46 \/ j = 47
                \/ j = 48 \/ j = 49 \/ j = 50 \/ j = 51 \/ j = 52 \/ j = 53 \/ j = 54 \/ j = 55)
          by lia.
        repeat (destruct Hj' as [->|Hj']; [reflexivity|]). subst j. reflexivity. }
      rewrite Hc by lia. apply andb_false_r.
    - rewrite (Z.bits_above_log2 (num a) k); [reflexivity|lia|].
      apply Z.log2_lt_pow2; [lia|].
      apply Z.lt_le_trans with (2 ^ 56); [change (2 ^ 56) with 72057594037927936; lia|].
      apply Z.pow_le_mono_r; lia. }
  rewrite Hland. cbn [Z.eqb negb orb].
  destruct (Z.eqb_spec (num a) 0); [lia|].
  rewrite Z.mod_same by lia. reflexivity.
Qed.

Lemma cast_levels barrier divides_strict src dst
    (can_cast : PyArray_DatetimeMetaData -> PyArray_DatetimeMetaData -> NPY_CASTING -> option bool) :
  (forall casting, can_cast src dst casting =
     match casting with
     | NPY_UNSAFE_CASTING => Some true
     | NPY_SAME_KIND_CASTING =>
         Some (can_cast_units_with_barrier barrier (base src) (base dst) casting)
     | NPY_SAFE_CASTING =>
         and_then (can_cast_units_with_barrier barrier (base src) (base dst) casting)
                  (datetime_metadata_divides src dst divides_strict)
     | _ => Some (unit_eqb (base src) (base dst) && (num src =? num dst))
     end) ->
  1 <= num src <= 2147483647 ->
  (can_cast src dst NPY_NO_CASTING = Some true ->
   can_cast src dst NPY_EQUIV_CASTING = Some true)
  /\ (can_cast src dst NPY_EQUIV_CASTING = Some true ->
      can_cast src dst NPY_SAFE_CASTING = Some true)
  /\ (can_cast src dst NPY_SAFE_CASTING = Some true ->
      can_cast src dst NPY_SAME_KIND_CASTING = Some true)
  /\ (can_cast src dst NPY_SAME_KIND_CASTING = Some true ->
      can_cast src dst NPY_UNSAFE_CASTING = Some true).
Proof.
  intros Hdef Hn. rewrite !Hdef. repeat split.
  - auto.
  - intros [= H]. apply andb_true_iff in H as [Hb Hnum].
    apply unit_eqb_eq in Hb. apply Z.eqb_eq in Hnum.
    assert (dst = src) as -> by (destruct src, dst; cbn in *; congruence).
    rewrite can_cast_units_refl. cbn [and_then].
    apply metadata_divides_itself. exact Hn.
  - rewrite can_cast_units_safe.
    destruct (can_cast_units_with_barrier barrier (base src) (base dst) NPY_SAME_KIND_CASTING);
      [reflexivity|discriminate].
Qed.

(** X15.  The casting levels are nested, for datetimes and for
    timedeltas alike: with a positive source multiplier, a cast between
    two metadata allowed at one level is allowed at every looser level,
    in the order No, Equiv, Safe, SameKind, Unsafe. *)
Theorem casting_levels_are_nested (src dst : PyArray_DatetimeMetaData)
    (can_cast : PyArray_DatetimeMetaData -> PyArray_DatetimeMetaData -> NPY_CASTING -> option bool) :
  can_cast = can_cast_datetime64_metadata \/ can_cast = can_cast_timedelta64_metadata ->
  1 <= num src <= 2147483647 ->
  (can_cast src dst NPY_NO_CASTING = Some true ->
   can_cast src dst NPY_EQUIV_CASTING = Some true)
  /\ (can_cast src dst NPY_EQUIV_CASTING = Some true ->
      can_cast src dst NPY_SAFE_CASTING = Some true)
  /\ (can_cast src dst NPY_SAFE_CASTING = Some true ->
      can_cast src dst NPY_SAME_KIND_CASTING = Some true)
  /\ (can_cast src dst NPY_SAME_KIND_CASTING = Some true ->
      can_cast src dst NPY_UNSAFE_CASTING = Some true).
Proof.
  intros [->| ->] Hn.
  - apply (cast_levels NPY_FR_D false); [|exact Hn]. intros []; reflexivity.
  - apply (cast_levels NPY_FR_M true); [|exact Hn]. intros []; reflexivity.
Qed.

Lemma casting_levels_are_nested_witness :
  ((can_cast_timedelta64_metadata = can_cast_datetime64_metadata
    \/ can_cast_timedelta64_metadata = can_cast_timedelta64_metadata)
   /\ 1 <= num (mkMeta NPY_FR_h 2) <= 2147483647)
  /\ (can_cast_timedelta64_metadata (mkMeta NPY_FR_h 2) (mkMeta NPY_FR_h 2) NPY_NO_CASTING
      = Some true ->
      can_cast_timedelta64_metadata (mkMeta NPY_FR_h 2) (mkMeta NPY_FR_h 2) NPY_EQUIV_CASTING
      = Some true)
  /\ (can_cast_timedelta64_metadata (mkMeta NPY_FR_h 2) (mkMeta NPY_FR_h 2) NPY_EQUIV_CASTING
      = Some true ->
      can_cast_timedelta64_metadata (mkMeta NPY_FR_h 2) (mkMeta NPY_FR_h 2) NPY_SAFE_CASTING
      = Some true)
  /\ (can_cast_timedelta64_metadata (mkMeta NPY_FR_h 2) (mkMeta NPY_FR_h 2) NPY_SAFE_CASTING
      = Some true ->
      can_cast_timedelta64_metadata (mkMeta NPY_FR_h 2) (mkMeta NPY_FR_h 2) NPY_SAME_KIND_CASTING
      = Some true)
  /\ (can_cast_timedelta64_metadata (mkMeta NPY_FR_h 2) (mkMeta NPY_FR_h 2) NPY_SAME_KIND_CASTING
      = Some true ->
      can_cast_timedelta64_metadata (mkMeta NPY_FR_h 2) (mkMeta NPY_FR_h 2) NPY_UNSAFE_CASTING
      = Some true).
Proof.
  assert (H1 : can_cast_timedelta64_metadata = can_cast_datetime64_metadata
               \/ can_cast_timedelta64_metadata = can_cast_timedelta64_metadata)
    by (right; reflexivity).
  assert (H2 : 1 <= num (mkMeta NPY_FR_h 2) <= 2147483647) by (cbn; lia).
  split; [split; [exact H1 | exact H2]|].
  exact (casting_levels_are_nested (mkMeta NPY_FR_h 2) (mkMeta NPY_FR_h 2)
           can_cast_timedelta64_metadata H1 H2).
Defined.

Lemma divides_same_base a b strict :
  base a = base b -> base a <> NPY_FR_GENERIC ->
  datetime_metadata_divides a b strict = Some true ->
  u64 (num b) <> 0 /\ u64 (num a) mod u64 (num b) = 0.
Proof.
  intros Hb Hg. unfold datetime_metadata_divides. rewrite <- Hb.
  destruct (unit_eqb (base a) NPY_FR_GENERIC) eqn:He;
    [apply unit_eqb_eq in He; contradiction|].
  rewrite unit_eqb_refl. cbn [negb].
  destruct (_ || _); [discriminate|].
  destruct (Z.eqb_spec (u64 (num b)) 0); [discriminate|].
  intros [= H]. apply Z.eqb_eq in H. split; assumption.
Qed.

Lemma u64_range z : 0 <= u64 z < 2 ^ 64.
Proof. rewrite u64_mod. apply Z.mod_pos_bound. reflexivity. Qed.

Lemma u64_int_inj x y :
  -2147483648 <= x <= 2147483647 -> -2147483648 <= y <= 2147483647 ->
  u64 x = u64 y -> x = y.
Proof.
  rewrite !u64_mod. change (2 ^ 64) with 18446744073709551616. intros Hx Hy H.
  assert (Hm : (x - y) mod 18446744073709551616 = 0).
  { rewrite Zminus_mod, H, Z.sub_diag. reflexivity. }
  apply Z.mod_divide in Hm; [|lia]. destruct Hm as [k Hk]. lia.
Qed.

Lemma safe_both_ways barrier strict a b :
  -2147483648 <= num a <= 2147483647 -> -2147483648 <= num b <= 2147483647 ->
  and_then (can_cast_units_with_barrier barrier (base a) (base b) NPY_SAFE_CASTING)
           (datetime_metadata_divides a b strict) = Some true ->
  and_then (can_cast_units_with_barrier barrier (base b) (base a) NPY_SAFE_CASTING)
           (datetime_metadata_divides b a strict) = Some true ->
  equivalent_datetime_metadata a b = true.
Proof.
  intros Hna Hnb. rewrite !can_cast_units_safe. unfold and_then.
  destruct (can_cast_units_with_barrier barrier (base a) (base b) NPY_SAME_KIND_CASTING);
    [|discriminate].
  destruct (can_cast_units_with_barrier barrier (base b) (base a) NPY_SAME_KIND_CASTING);
    [|discriminate].
  cbn [andb]. unfold unit_leb.
  destruct (Z.leb_spec (unit_value (base a)) (unit_value (base b))); [|discriminate].
  destruct (Z.leb_spec (unit_value (base b)) (unit_value (base a))); [|discriminate].
  assert (Hb : base a = base b) by (apply unit_value_inj; lia).
  intros H1 H2. unfold equivalent_datetime_metadata. rewrite <- Hb, unit_eqb_refl.
  destruct (unit_eqb (base a) NPY_FR_GENERIC) eqn:Hg; [reflexivity|].
  assert (Hg' : base a <> NPY_FR_GENERIC).
  { intros Hc. rewrite Hc in Hg. discriminate Hg. }
  apply (divides_same_base a b strict Hb Hg') in H1 as [Hb0 Hab].
  apply (divides_same_base b a strict (eq_sym Hb)) in H2 as [Ha0 Hba]; [|congruence].
  pose proof (u64_range (num a)). pose proof (u64_range (num b)).
  apply Z.mod_divide in Hab, Hba; try assumption.
  assert (Heq : u64 (num a) = u64 (num b)) by (apply Z.divide_antisym_nonneg; tauto).
  apply u64_int_inj in Heq; try assumption. rewrite Heq, Z.eqb_refl. reflexivity.
Qed.

(** X16.  Safe casting is antisymmetric: two metadata (with multipliers
    that are C [int]s) that cast safely to each other are equivalent
    metadata, the same unit with the same multiplier or both generic.
    This holds for datetimes and for timedeltas. *)
Theorem safe_cast_both_ways_means_equivalent (a b : PyArray_DatetimeMetaData)
    (can_cast : PyArray_DatetimeMetaData -> PyArray_DatetimeMetaData -> NPY_CASTING -> option bool) :
  can_cast = can_cast_datetime64_metadata \/ can_cast = can_cast_timedelta64_metadata ->
  -2147483648 <= num a <= 2147483647 -> -2147483648 <= num b <= 2147483647 ->
  can_cast a b NPY_SAFE_CASTING = Some true ->
  can_cast b a NPY_SAFE_CASTING = Some true ->
  equivalent_datetime_metadata a b = true.
Proof.
  intros [->| ->] Hna Hnb.
  - apply (safe_both_ways NPY_FR_D false); assumption.
  - apply (safe_both_ways NPY_FR_M true); assumption.
Qed.

Lemma safe_cast_both_ways_means_equivalent_witness :
  ((can_cast_datetime64_metadata = can_cast_datetime64_metadata
    \/ can_cast_datetime64_metadata = can_cast_timedelta64_metadata)
   /\ -2147483648 <= num (mkMeta NPY_FR_ms 250) <= 2147483647
   /\ -2147483648 <= num (mkMeta NPY_FR_ms 250) <= 2147483647
   /\ can_cast_datetime64_metadata (mkMeta NPY_FR_ms 250) (mkMeta NPY_FR_ms 250)
        NPY_SAFE_CASTING = Some true
   /\ can_cast_datetime64_metadata (mkMeta NPY_FR_ms 250) (mkMeta NPY_FR_ms 250)
        NPY_SAFE_CASTING = Some true)
  /\ equivalent_datetime_metadata (mkMeta NPY_FR_ms 250) (mkMeta NPY_FR_ms 250) = true.
Proof.
  assert (H1 : can_cast_datetime64_metadata = can_cast_datetime64_metadata
               \/ can_cast_datetime64_metadata = can_cast_timedelta64_metadata)
    by (left; reflexivity).
  assert (H2 : -2147483648 <= num (mkMeta NPY_FR_ms 250) <= 2147483647) by (cbn; lia).
  assert (H3 : can_cast_datetime64_metadata (mkMeta NPY_FR_ms 250) (mkMeta NPY_FR_ms 250)
                 NPY_SAFE_CASTING = Some true) by (vm_compute; reflexivity).
  split; [split; [exact H1 | split; [exact H2 | split; [exact H2 | split; [exact H3 | exact H3]]]]|].
  exact (safe_cast_both_ways_means_equivalent _ _ can_cast_datetime64_metadata H1 H2 H2 H3 H3).
Defined.

(** *** Metadata strings and divisors *)

Lemma unit_from_string_not_generic buf str len u :
  parse_datetime_unit_from_string buf str len = Some u -> u <> NPY_FR_GENERIC.
Proof.
  unfold parse_datetime_unit_from_string.
  destruct (len =? 1)%nat.
  - destruct (char_at buf str) as [[] [] [] [] [] [] [] []];
      try discriminate; intros [= <-]; discriminate.
  - destruct (_ && _)%bool; [|discriminate].
    destruct (char_at buf str) as [[] [] [] [] [] [] [] []];
      try discriminate; intros [= <-]; discriminate.
Qed.

Lemma first_multiple_in totry baseunit den b q :
  first_multiple totry baseunit den = Some (b, q) ->
  exists t, In (t, b) (combine totry baseunit) /\ Z.rem t den = 0 /\ q = Z.quot t den.
Proof.
  revert baseunit. induction totry as [|t totry IH]; intros [|b0 baseunit];
    cbn [first_multiple combine]; try discriminate.
  destruct (Z.eqb_spec (Z.rem t den) 0) as [Hr|Hr].
  - intros [= <- <-]. exists t. split; [left; reflexivity|split; [exact Hr|reflexivity]].
  - intros H. destruct (IH _ H) as (t' & Hin & Hrem). exists t'. split; [right; exact Hin|exact Hrem].
Qed.

Lemma divisor_to_multiple_entry meta den meta' :
  convert_datetime_divisor_to_multiple meta den = Parsed meta' ->
  exists t,
    In (t, base meta')
       (combine (firstn (multiples_to_try (base meta)) (fst (_multiples_table (base meta))))
                (firstn (multiples_to_try (base meta)) (snd (_multiples_table (base meta)))))
    /\ 0 < den /\ Z.rem t den = 0 /\ num meta' = i32 (num meta * Z.quot t den).
Proof.
  unfold convert_datetime_divisor_to_multiple.
  assert (Hgen : forall b,
    (let '(totry, baseunit) := _multiples_table b in
     let n := multiples_to_try b in
     if (den <=? 0) && negb (n =? 0)%nat then Unspecified
     else
       match first_multiple (firstn n totry) (firstn n baseunit) den with
       | None => Raised PyExc_ValueError
       | Some (b', q) => Parsed (mkMeta b' (i32 (num meta * q)))
       end) = Parsed meta' ->
    exists t,
      In (t, base meta')
         (combine (firstn (multiples_to_try b) (fst (_multiples_table b)))
                  (firstn (multiples_to_try b) (snd (_multiples_table b))))
      /\ 0 < den /\ Z.rem t den = 0 /\ num meta' = i32 (num meta * Z.quot t den)).
  { intros b. destruct (_multiples_table b) as [totry baseunit]. cbn [fst snd].
    destruct (Z.leb_spec den 0) as [Hden|Hden].
    - destruct (multiples_to_try b) eqn:Hn; cbn [Nat.eqb negb andb firstn first_multiple];
        discriminate.
    - cbn [andb].
      destruct (first_multiple _ _ den) as [[b' q]|] eqn:Hf; [|discriminate].
      intros [= <-]. apply first_multiple_in in Hf as (t & Hin & Hr & ->).
      exists t. cbn [base num]. auto. }
  destruct (base meta) eqn:Hb; try discriminate; apply Hgen.
Qed.

Lemma divisor_to_multiple_finer meta den meta' :
  convert_datetime_divisor_to_multiple meta den = Parsed meta' ->
  unit_value (base meta) < unit_value (base meta') /\ base meta' <> NPY_FR_GENERIC.
Proof.
  intros H. pose proof H as H0.
  apply divisor_to_multiple_entry in H as (t & Hin & _).
  unfold convert_datetime_divisor_to_multiple in H0.
  destruct (base meta); try discriminate H0; cbn in Hin;
    repeat (destruct Hin as [[= <- <-]|Hin]; [cbn; split; [lia|discriminate]|]);
    contradiction.
Qed.

Lemma extended_unit_not_generic buf str len meta :
  parse_datetime_extended_unit_from_string buf str len = Parsed meta ->
  base meta <> NPY_FR_GENERIC.
Proof.
  unfold parse_datetime_extended_unit_from_string.
  destruct (strtol (from_offset buf str)) as [v consumed].
  destruct (_ =? _)%nat; [discriminate|].
  destruct (parse_datetime_unit_from_string _ _ _) as [b|] eqn:Hu; [|discriminate].
  apply unit_from_string_not_generic in Hu.
  assert (Hden : forall den n,
    (if negb (den =? 1) then convert_datetime_divisor_to_multiple (mkMeta b n) den
     else Parsed (mkMeta b n)) = Parsed meta -> base meta <> NPY_FR_GENERIC).
  { intros den n. destruct (negb (den =? 1)).
    - intros H. apply divisor_to_multiple_finer in H. tauto.
    - intros [= <-]. exact Hu. }
  destruct (_ && _)%bool.
  - destruct (strtol _) as [d consumed'].
    destruct (_ || _)%bool; [discriminate|]. apply Hden.
  - destruct (negb _); [discriminate|]. apply Hden.
Qed.

(** X17.  Only the empty metadata string parses to the generic unit:
    a successful parse of a string that is not empty yields one of the
    fourteen named units, also when a divisor was applied. *)
Theorem only_empty_metastr_is_generic (metastr : string) (len : nat)
    (meta : PyArray_DatetimeMetaData) :
  parse_datetime_metadata_from_metastr metastr len = Parsed meta ->
  base meta = NPY_FR_GENERIC ->
  len = 0%nat.
Proof.
  unfold parse_datetime_metadata_from_metastr.
  destruct (Nat.eqb_spec len 0) as [H0|H0]; [intros; exact H0|].
  destruct (_ || _)%bool; [discriminate|].
  destruct (_ || _)%bool; [discriminate|].
  destruct (parse_datetime_extended_unit_from_string _ _ _) as [m| |] eqn:Hp;
    try discriminate.
  destruct (negb _); [discriminate|]. intros [= <-] Hg.
  apply extended_unit_not_generic in Hp. contradiction.
Qed.

Lemma only_empty_metastr_is_generic_witness :
  (parse_datetime_metadata_from_metastr ""%string 0 = Parsed (mkMeta NPY_FR_GENERIC 1)
   /\ base (mkMeta NPY_FR_GENERIC 1) = NPY_FR_GENERIC)
  /\ 0%nat = 0%nat.
Proof.
  assert (H1 : parse_datetime_metadata_from_metastr ""%string 0
               = Parsed (mkMeta NPY_FR_GENERIC 1)) by reflexivity.
  assert (H2 : base (mkMeta NPY_FR_GENERIC 1) = NPY_FR_GENERIC) by reflexivity.
  split; [split; [exact H1 | exact H2]|].
  exact (only_empty_metastr_is_generic ""%string 0 (mkMeta NPY_FR_GENERIC 1) H1 H2).
Defined.

(** X18.  A divisor splits a tick of constant length exactly: when
    [convert_datetime_divisor_to_multiple] replaces the metadata by one
    of a finer unit of constant length, [den] ticks of the new metadata
    make one tick of the old one.  (Weeks divided by 5 go to business
    days, which have no constant length.) *)
Theorem divisor_splits_the_tick_exactly
    (meta : PyArray_DatetimeMetaData) (den : Z) (meta' : PyArray_DatetimeMetaData) :
  constant_length_unit (base meta) = true ->
  -2147 <= num meta <= 2147 ->
  convert_datetime_divisor_to_multiple meta den = Parsed meta' ->
  constant_length_unit (base meta') = true ->
  unit_value (base meta) < unit_value (base meta')
  /\ den * (num meta' * unit_attoseconds (base meta'))
     = num meta * unit_attoseconds (base meta).
Proof.
  intros Hu Hn H Hu'. split; [apply (divisor_to_multiple_finer _ _ _ H)|].
  apply divisor_to_multiple_entry in H as (t & Hin & Hden & Hrem & Hnum).
  destruct meta' as [b' n']. cbn [base num] in *. subst n'.
  assert (Hq : den * Z.quot t den = t).
  { pose proof (Z.quot_rem' t den) as E. lia. }
  assert (Ht : 0 <= t <= 1000000 ->
               i32 (num meta * Z.quot t den) = num meta * Z.quot t den).
  { intros Ht. apply i32_small.
    assert (0 <= Z.quot t den <= 1000000) by nia. nia. }
  destruct (base meta); try discriminate Hu; cbn in Hin;
    repeat (destruct Hin as [[= <- <-]|Hin];
            [try (vm_compute in Hu'; discriminate Hu');
             rewrite Ht by lia;
             match goal with
             | |- den * (?a * ?q * ?u) = _ =>
                 replace (den * (a * q * u)) with (a * u * (den * q)) by ring
             end;
             rewrite Hq; cbn [unit_attoseconds]; ring|]);
    contradiction.
Qed.

Lemma divisor_splits_the_tick_exactly_witness :
  (constant_length_unit (base (mkMeta NPY_FR_D 3)) = true
   /\ -2147 <= num (mkMeta NPY_FR_D 3) <= 2147
   /\ convert_datetime_divisor_to_multiple (mkMeta NPY_FR_D 3) 480 = Parsed (mkMeta NPY_FR_m 9)
   /\ constant_length_unit (base (mkMeta NPY_FR_m 9)) = true)
  /\ unit_value (base (mkMeta NPY_FR_D 3)) < unit_value (base (mkMeta NPY_FR_m 9))
  /\ 480 * (num (mkMeta NPY_FR_m 9) * unit_attoseconds (base (mkMeta NPY_FR_m 9)))
     = num (mkMeta NPY_FR_D 3) * unit_attoseconds (base (mkMeta NPY_FR_D 3)).
Proof.
  assert (H1 : constant_length_unit (base (mkMeta NPY_FR_D 3)) = true) by reflexivity.
  assert (H2 : -2147 <= num (mkMeta NPY_FR_D 3) <= 2147) by (cbn; lia).
  assert (H3 : convert_datetime_divisor_to_multiple (mkMeta NPY_FR_D 3) 480
               = Parsed (mkMeta NPY_FR_m 9)) by (vm_compute; reflexivity).
  assert (H4 : constant_length_unit (base (mkMeta NPY_FR_m 9)) = true) by reflexivity.
  split; [split; [exact H1 | split; [exact H2 | split; [exact H3 | exact H4]]]|].
  exact (divisor_splits_the_tick_exactly _ 480 _ H1 H2 H3 H4).
Defined.

(** *** Counting weekdays *)

(** The weekdays from Monday 1970-01-05 up to and including day [x],
    counted backwards before that Monday. *)
Lemma count_weekdays_closed_form n : forall d,
  count_weekdays n d
  = (5 * ((d + Z.of_nat n - 4) / 7) + Z.min ((d + Z.of_nat n - 4) mod 7 + 1) 5)
    - (5 * ((d - 4) / 7) + Z.min ((d - 4) mod 7 + 1) 5).
Proof.
  induction n as [|n IH]; intros d.
  - cbn [count_weekdays Z.of_nat]. rewrite Z.add_0_r. lia.
  - cbn [count_weekdays]. rewrite IH. unfold is_weekday.
    replace (d + 1 + Z.of_nat n) with (d + Z.of_nat (S n)) by lia.
    replace (d + 1 - 4) with (d - 4 + 1) by lia.
    generalize (d + Z.of_nat (S n) - 4). intros e.
    destruct (Z.ltb_spec ((d - 4 + 1) mod 7) 5); zdiv.
Qed.

Lemma get_nweekdays_closed_form first second :
  NPY_MIN_INT64 + 4 <= first -> first <= second -> second <= NPY_MAX_INT64 ->
  second - first <= 2147483647 ->
  (first - 4) mod 7 < 5 ->
  get_nweekdays first second
  = (5 * ((second - 4) / 7) + Z.min ((second - 4) mod 7 + 1) 5)
    - (5 * ((first - 4) / 7) + Z.min ((first - 4) mod 7 + 1) 5).
Proof.
  intros Hf Hle Hs Hn Hw. unfold get_nweekdays.
  destruct (Z.ltb_spec second first); [lia|].
  rewrite !get_day_of_week_floor by (unfold NPY_MIN_INT64, NPY_MAX_INT64 in *; lia).
  unfold add64, sub64, mul64, div64.
  unfold NPY_MIN_INT64, NPY_MAX_INT64 in *.
  destruct (Z.gtb_spec ((first - 4) mod 7) 4); [lia|].
  destruct (Z.gtb_spec ((second - 4) mod 7) 4);
    match goal with
    | |- context [if ?a <? ?b then _ else _] => destruct (Z.ltb_spec a b)
    end;
    repeat (progress (strip64; strip32)); zdiv.
Qed.

(** X19.  Counted from a weekday, [get_nweekdays] is the number of
    weekdays (Monday to Friday) among the days after [first] up to and
    including [second]. *)
Theorem get_nweekdays_counts_weekdays (first : Z) (n : nat) :
  NPY_MIN_INT64 + 4 <= first ->
  first + Z.of_nat n <= NPY_MAX_INT64 ->
  Z.of_nat n <= 2147483647 ->
  is_weekday first = true ->
  get_nweekdays first (first + Z.of_nat n) = count_weekdays n first.
Proof.
  intros Hf Hs Hn Hw. unfold is_weekday in Hw. apply Z.ltb_lt in Hw.
  rewrite get_nweekdays_closed_form by lia.
  rewrite count_weekdays_closed_form. reflexivity.
Qed.

Lemma get_nweekdays_counts_weekdays_witness :
  (NPY_MIN_INT64 + 4 <= 1
   /\ 1 + Z.of_nat 10 <= NPY_MAX_INT64
   /\ Z.of_nat 10 <= 2147483647
   /\ is_weekday 1 = true)
  /\ get_nweekdays 1 (1 + Z.of_nat 10) = count_weekdays 10 1.
Proof.
  assert (H1 : NPY_MIN_INT64 + 4 <= 1) by (vm_compute; discriminate).
  assert (H2 : 1 + Z.of_nat 10 <= NPY_MAX_INT64) by (vm_compute; discriminate).
  assert (H3 : Z.of_nat 10 <= 2147483647) by (vm_compute; discriminate).
  assert (H4 : is_weekday 1 = true) by reflexivity.
  split; [split; [exact H1 | split; [exact H2 | split; [exact H3 | exact H4]]]|].
  exact (get_nweekdays_counts_weekdays 1 10 H1 H2 H3 H4).
Defined.

(** *** The conversion factor and the timedelta cast *)

Lemma units_factor_same u :
  constant_length_unit u = true -> get_datetime_units_factor u u = 1.
Proof. destruct u; intros H; try discriminate H; reflexivity. Qed.

Lemma units_factor_backwards a b :
  constant_length_unit a = true -> constant_length_unit b = true ->
  unit_leb a b = false -> get_datetime_units_factor a b = 1.
Proof. intros Ha Hb Hle. rewrite (units_factor_exact a b Ha Hb), Hle. reflexivity. Qed.

Lemma base_conversion_constant_length a b :
  constant_length_unit a = true -> constant_length_unit b = true ->
  base_conversion a b = (u64 (1 * get_datetime_units_factor a b), 1).
Proof. destruct a; intros Ha Hb; try discriminate Ha; reflexivity. Qed.

Lemma units_factor_range a b : 0 <= get_datetime_units_factor a b < 2 ^ 56.
Proof. destruct a, b; vm_compute; split; first [discriminate | reflexivity]. Qed.

Lemma conversion_factor_constant_length src dst :
  constant_length_unit (base src) = true ->
  constant_length_unit (base dst) = true ->
  1 <= num src <= 2147483647 -> 1 <= num dst <= 2147483647 ->
  num src * get_datetime_units_factor (base src) (base dst) <= 2 ^ 62 ->
  num dst * get_datetime_units_factor (base dst) (base src) <= 2 ^ 62 ->
  get_datetime_units_factor (base src) (base dst) <> 0 ->
  get_datetime_units_factor (base dst) (base src) <> 0 ->
  let N := num src * get_datetime_units_factor (base src) (base dst) in
  let D := num dst * get_datetime_units_factor (base dst) (base src) in
  get_datetime_conversion_factor src dst
  = Some (mkFactor (N / Z.gcd N D) (D / Z.gcd N D) None).
Proof.
  intros Hs Hd Hns Hnd HN HD Hf1 Hf2 N D.
  pose proof (units_factor_range (base src) (base dst)) as R1.
  pose proof (units_factor_range (base dst) (base src)) as R2.
  assert (HNpos : 1 <= N) by (subst N; nia).
  assert (HDpos : 1 <= D) by (subst D; nia).
  change (2 ^ 62) with 4611686018427387904 in *.
  change (2 ^ 56) with 72057594037927936 in *.
  assert (Hred : reduced_fraction N D
                 = Some (mkFactor (N / Z.gcd N D) (D / Z.gcd N D) None)).
  { unfold reduced_fraction.
    rewrite euclidean_gcd_spec by (change (2 ^ 64) with 18446744073709551616; lia).
    pose proof (Z.gcd_nonneg N D).
    assert (Z.gcd N D <> 0) by (intros Hz; apply Z.gcd_eq_0_l in Hz; lia).
    assert (Z.gcd N D <= N) by (apply Z.divide_pos_le; [lia|apply Z.gcd_divide_l]).
    destruct (Z.eqb_spec (Z.gcd N D) 0); [contradiction|].
    assert (0 <= N / Z.gcd N D <= N).
    { split; [apply Z.div_pos; lia|]. apply Z.div_le_upper_bound; nia. }
    assert (0 <= D / Z.gcd N D <= D).
    { split; [apply Z.div_pos; lia|]. apply Z.div_le_upper_bound; nia. }
    rewrite !i64_small by (unfold NPY_MIN_INT64, NPY_MAX_INT64; lia). reflexivity. }
  unfold get_datetime_conversion_factor.
  destruct (unit_eqb (base src) NPY_FR_GENERIC) eqn:Hgs;
    [apply unit_eqb_eq in Hgs; rewrite Hgs in Hs; discriminate|].
  destruct (unit_eqb (base dst) NPY_FR_GENERIC) eqn:Hgd;
    [apply unit_eqb_eq in Hgd; rewrite Hgd in Hd; discriminate|].
  rewrite !(u64_small (num _)) by (change (2 ^ 64) with 18446744073709551616; lia).
  destruct (unit_leb (base src) (base dst)) eqn:Hle.
  - destruct (unit_eqb (base src) (base dst)) eqn:Heq; cbn [negb].
    + apply unit_eqb_eq in Heq. subst N D. rewrite <- Heq in *.
      rewrite units_factor_same in * by assumption.
      cbn [Z.eqb]. rewrite !Z.mul_1_l.
      rewrite !u64_small by (change (2 ^ 64) with 18446744073709551616; lia).
      rewrite ?Z.mul_1_r in *. exact Hred.
    + rewrite base_conversion_constant_length by assumption.
      cbn [Z.eqb]. rewrite !Z.mul_1_l.
      assert (Hb : get_datetime_units_factor (base dst) (base src) = 1).
      { apply units_factor_backwards; try assumption.
        unfold unit_leb in *. apply Z.leb_le in Hle. apply Z.leb_gt.
        assert (unit_value (base src) <> unit_value (base dst)).
        { intros Hv. apply unit_value_inj in Hv. rewrite Hv, unit_eqb_refl in Heq.
          discriminate. }
        lia. }
      subst N D. rewrite Hb in *.
      rewrite (u64_small (get_datetime_units_factor _ _))
        by (change (2 ^ 64) with 18446744073709551616; lia).
      rewrite (Z.mul_comm (get_datetime_units_factor _ _) (num src)).
      rewrite !u64_small by (change (2 ^ 64) with 18446744073709551616; lia).
      rewrite ?Z.mul_1_r in *. exact Hred.
  - assert (Hne : unit_eqb (base dst) (base src) = false).
    { destruct (unit_eqb (base dst) (base src)) eqn:Heq; [|reflexivity].
      apply unit_eqb_eq in Heq. rewrite Heq in Hle. unfold unit_leb in Hle.
      rewrite Z.leb_refl in Hle. discriminate. }
    rewrite Hne. cbn [negb].
    rewrite base_conversion_constant_length by assumption.
    cbn [Z.eqb]. rewrite !Z.mul_1_l.
    assert (Hb : get_datetime_units_factor (base src) (base dst) = 1)
      by (apply units_factor_backwards; assumption).
    subst N D. rewrite Hb in *.
    rewrite (u64_small (get_datetime_units_factor _ _))
      by (change (2 ^ 64) with 18446744073709551616; lia).
    rewrite (Z.mul_comm (get_datetime_units_factor _ _) (num dst)).
    rewrite !u64_small by (change (2 ^ 64) with 18446744073709551616; lia).
    rewrite ?Z.mul_1_r in *. exact Hred.
Qed.

Lemma factor_unit_lengths a b :
  constant_length_unit a = true -> constant_length_unit b = true ->
  get_datetime_units_factor a b <> 0 -> get_datetime_units_factor b a <> 0 ->
  exists c, 0 < c
    /\ unit_attoseconds a = get_datetime_units_factor a b * c
    /\ unit_attoseconds b = get_datetime_units_factor b a * c.
Proof.
  intros Ha Hb Hf1 Hf2.
  exists (if unit_leb a b then unit_attoseconds b else unit_attoseconds a).
  destruct a; try discriminate Ha; destruct b; try discriminate Hb;
    vm_compute in Hf1, Hf2; try congruence; vm_compute; repeat split; reflexivity.
Qed.

(** X20.  Between two units of constant length, with positive
    multipliers and while nothing overflows, the conversion factor is
    the ratio of the source tick to the destination tick in lowest
    terms, and no exception is set. *)
Theorem conversion_factor_is_reduced_tick_ratio (src dst : PyArray_DatetimeMetaData) :
  constant_length_unit (base src) = true ->
  constant_length_unit (base dst) = true ->
  1 <= num src <= 2147483647 -> 1 <= num dst <= 2147483647 ->
  get_datetime_units_factor (base src) (base dst) <> 0 ->
  get_datetime_units_factor (base dst) (base src) <> 0 ->
  num src * get_datetime_units_factor (base src) (base dst) <= 2 ^ 62 ->
  num dst * get_datetime_units_factor (base dst) (base src) <= 2 ^ 62 ->
  exists r,
    get_datetime_conversion_factor src dst = Some r
    /\ raised r = None
    /\ 0 < out_num r /\ 0 < out_denom r
    /\ Z.gcd (out_num r) (out_denom r) = 1
    /\ out_num r * (num dst * unit_attoseconds (base dst))
       = out_denom r * (num src * unit_attoseconds (base src)).
Proof.
  intros Hs Hd Hns Hnd Hf1 Hf2 HN HD.
  pose proof (units_factor_range (base src) (base dst)) as R1.
  pose proof (units_factor_range (base dst) (base src)) as R2.
  destruct (factor_unit_lengths _ _ Hs Hd Hf1 Hf2) as (c & Hc & Hc1 & Hc2).
  eexists. split; [apply conversion_factor_constant_length; assumption|].
  cbn [out_num out_denom raised]. rewrite Hc1, Hc2.
  set (N := num src * get_datetime_units_factor (base src) (base dst)) in *.
  set (D := num dst * get_datetime_units_factor (base dst) (base src)) in *.
  assert (HNpos : 1 <= N) by (subst N; nia).
  assert (HDpos : 1 <= D) by (subst D; nia).
  replace (num src * (get_datetime_units_factor (base src) (base dst) * c))
    with (N * c) by (subst N; ring).
  replace (num dst * (get_datetime_units_factor (base dst) (base src) * c))
    with (D * c) by (subst D; ring).
  clearbody N D.
  pose proof (Z.gcd_nonneg N D) as Hg0.
  assert (Hgne : Z.gcd N D <> 0) by (intros Hz; apply Z.gcd_eq_0_l in Hz; lia).
  assert (Hcop : Z.gcd (N / Z.gcd N D) (D / Z.gcd N D) = 1)
    by (apply Z.gcd_div_gcd; [exact Hgne|reflexivity]).
  destruct (Z.gcd_divide_l N D) as [n Hn].
  destruct (Z.gcd_divide_r N D) as [d Hd'].
  set (g := Z.gcd N D) in *. clearbody g.
  assert (Hn' : N / g = n) by (rewrite Hn; apply Z.div_mul; lia).
  assert (Hd'' : D / g = d) by (rewrite Hd'; apply Z.div_mul; lia).
  rewrite Hn', Hd'' in *.
  split; [reflexivity|]. split; [nia|]. split; [nia|]. split; [exact Hcop|].
  rewrite Hn, Hd'. ring.
Qed.

Lemma conversion_factor_is_reduced_tick_ratio_witness :
  (constant_length_unit (base (mkMeta NPY_FR_W 2)) = true
   /\ constant_length_unit (base (mkMeta NPY_FR_h 36)) = true
   /\ 1 <= num (mkMeta NPY_FR_W 2) <= 2147483647
   /\ 1 <= num (mkMeta NPY_FR_h 36) <= 2147483647
   /\ get_datetime_units_factor (base (mkMeta NPY_FR_W 2)) (base (mkMeta NPY_FR_h 36)) <> 0
   /\ get_datetime_units_factor (base (mkMeta NPY_FR_h 36)) (base (mkMeta NPY_FR_W 2)) <> 0
   /\ num (mkMeta NPY_FR_W 2)
      * get_datetime_units_factor (base (mkMeta NPY_FR_W 2)) (base (mkMeta NPY_FR_h 36))
      <= 2 ^ 62
   /\ num (mkMeta NPY_FR_h 36)
      * get_datetime_units_factor (base (mkMeta NPY_FR_h 36)) (base (mkMeta NPY_FR_W 2))
      <= 2 ^ 62)
  /\ exists r,
       get_datetime_conversion_factor (mkMeta NPY_FR_W 2) (mkMeta NPY_FR_h 36) = Some r
       /\ raised r = None
       /\ 0 < out_num r /\ 0 < out_denom r
       /\ Z.gcd (out_num r) (out_denom r) = 1
       /\ out_num r * (num (mkMeta NPY_FR_h 36) * unit_attoseconds (base (mkMeta NPY_FR_h 36)))
          = out_denom r * (num (mkMeta NPY_FR_W 2) * unit_attoseconds (base (mkMeta NPY_FR_W 2))).
Proof.
  assert (H1 : constant_length_unit (base (mkMeta NPY_FR_W 2)) = true) by reflexivity.
  assert (H2 : constant_length_unit (base (mkMeta NPY_FR_h 36)) = true) by reflexivity.
  assert (H3 : 1 <= num (mkMeta NPY_FR_W 2) <= 2147483647) by (cbn; lia).
  assert (H4 : 1 <= num (mkMeta NPY_FR_h 36) <= 2147483647) by (cbn; lia).
  assert (H5 : get_datetime_units_factor (base (mkMeta NPY_FR_W 2)) (base (mkMeta NPY_FR_h 36)) <> 0)
    by (vm_compute; discriminate).
  assert (H6 : get_datetime_units_factor (base (mkMeta NPY_FR_h 36)) (base (mkMeta NPY_FR_W 2)) <> 0)
    by (vm_compute; discriminate).
  assert (H7 : num (mkMeta NPY_FR_W 2)
      * get_datetime_units_factor (base (mkMeta NPY_FR_W 2)) (base (mkMeta NPY_FR_h 36))
      <= 2 ^ 62) by (vm_compute; discriminate).
  assert (H8 : num (mkMeta NPY_FR_h 36)
      * get_datetime_units_factor (base (mkMeta NPY_FR_h 36)) (base (mkMeta NPY_FR_W 2))
      <= 2 ^ 62) by (vm_compute; discriminate).
  split; [repeat (split; [assumption|]); assumption|].
  exact (conversion_factor_is_reduced_tick_ratio _ _ H1 H2 H3 H4 H5 H6 H7 H8).
Defined.

(** X21.  A timedelta cast between units of constant length, while
    nothing overflows, is the floor of the exact quotient: the source
    duration over the length of a destination tick, rounded towards
    minus infinity for negative durations as well. *)
Theorem cast_timedelta_is_floor_of_duration
    (src_meta dst_meta : PyArray_DatetimeMetaData) (v : Z) :
  constant_length_unit (base src_meta) = true ->
  constant_length_unit (base dst_meta) = true ->
  1 <= num src_meta <= 2147483647 -> 1 <= num dst_meta <= 2147483647 ->
  get_datetime_units_factor (base src_meta) (base dst_meta) <> 0 ->
  get_datetime_units_factor (base dst_meta) (base src_meta) <> 0 ->
  (Z.abs v + 1)
  * (num src_meta * get_datetime_units_factor (base src_meta) (base dst_meta)) <= 2 ^ 62 ->
  num dst_meta * get_datetime_units_factor (base dst_meta) (base src_meta) <= 2 ^ 62 ->
  cast_timedelta_to_timedelta src_meta dst_meta v
  = Cast (v * num src_meta * unit_attoseconds (base src_meta)
          / (num dst_meta * unit_attoseconds (base dst_meta))).
Proof.
  intros Hs Hd Hns Hnd Hf1 Hf2 HN HD.
  pose proof (unit_attoseconds_positive _ Hs) as HUs.
  pose proof (unit_attoseconds_positive _ Hd) as HUd.
  unfold cast_timedelta_to_timedelta, same_metadata.
  destruct (unit_eqb (base src_meta) (base dst_meta) && (num src_meta =? num dst_meta)) eqn:Hsame.
  - apply andb_true_iff in Hsame as [Hbase Hnum].
    apply unit_eqb_eq in Hbase. apply Z.eqb_eq in Hnum. rewrite Hbase, Hnum.
    f_equal. rewrite <- Z.mul_assoc. rewrite Z.div_mul by lia. reflexivity.
  - pose proof (units_factor_range (base src_meta) (base dst_meta)) as R1.
    pose proof (units_factor_range (base dst_meta) (base src_meta)) as R2.
    destruct (factor_unit_lengths _ _ Hs Hd Hf1 Hf2) as (c & Hc & Hc1 & Hc2).
    rewrite Hc1, Hc2.
    rewrite conversion_factor_constant_length; try assumption; [|nia].
    cbn [out_num out_denom raised].
    set (N := num src_meta * get_datetime_units_factor (base src_meta) (base dst_meta)) in *.
    set (D := num dst_meta * get_datetime_units_factor (base dst_meta) (base src_meta)) in *.
    assert (HNpos : 1 <= N) by (subst N; nia).
    assert (HDpos : 1 <= D) by (subst D; nia).
    replace (v * num src_meta * (get_datetime_units_factor (base src_meta) (base dst_meta) * c))
      with (v * N * c) by (subst N; ring).
    replace (num dst_meta * (get_datetime_units_factor (base dst_meta) (base src_meta) * c))
      with (D * c) by (subst D; ring).
    rewrite Z.div_mul_cancel_r by lia.
    clearbody N D. clear Hc1 Hc2 R1 R2 Hf1 Hf2.
    pose proof (Z.gcd_nonneg N D) as Hg0.
    assert (Hgne : Z.gcd N D <> 0) by (intros Hz; apply Z.gcd_eq_0_l in Hz; lia).
    destruct (Z.gcd_divide_l N D) as [n Hn].
    destruct (Z.gcd_divide_r N D) as [d Hd'].
    set (g := Z.gcd N D) in *. clearbody g.
    assert (Hn' : N / g = n) by (rewrite Hn; apply Z.div_mul; lia).
    assert (Hd'' : D / g = d) by (rewrite Hd'; apply Z.div_mul; lia).
    rewrite Hn', Hd''.
    assert (1 <= n <= N) by nia.
    assert (1 <= d <= D) by nia.
    destruct (Z.eqb_spec n 0); [lia|].
    destruct (Z.eqb_spec d 0); [lia|].
    change (2 ^ 62) with 4611686018427387904 in *.
    assert (Hvn : - 4611686018427387904 <= v * n <= 4611686018427387904) by nia.
    replace (v * N / D) with (v * n / d).
    2:{ rewrite Hn, Hd', Z.mul_assoc. rewrite Z.div_mul_cancel_r by lia. reflexivity. }
    unfold mul64, sub64, div64.
    destruct (Z.ltb_spec v 0).
    + rewrite (i64_small (v * n)) by (unfold NPY_MIN_INT64, NPY_MAX_INT64; lia).
      rewrite (i64_small (d - 1)) by (unfold NPY_MIN_INT64, NPY_MAX_INT64; lia).
      rewrite (i64_small (v * n - (d - 1))) by (unfold NPY_MIN_INT64, NPY_MAX_INT64; lia).
      rewrite quot_floor_negative by nia.
      rewrite i64_small; [reflexivity|].
      pose proof (div_bounds (v * n) d ltac:(lia)).
      unfold NPY_MIN_INT64, NPY_MAX_INT64; lia.
    + rewrite (i64_small (v * n)) by (unfold NPY_MIN_INT64, NPY_MAX_INT64; lia).
      rewrite Z.quot_div_nonneg by nia.
      rewrite i64_small; [reflexivity|].
      pose proof (div_bounds (v * n) d ltac:(lia)).
      unfold NPY_MIN_INT64, NPY_MAX_INT64; lia.
Qed.

Lemma cast_timedelta_is_floor_of_duration_witness :
  (constant_length_unit (base (mkMeta NPY_FR_h 1)) = true
   /\ constant_length_unit (base (mkMeta NPY_FR_D 2)) = true
   /\ 1 <= num (mkMeta NPY_FR_h 1) <= 2147483647
   /\ 1 <= num (mkMeta NPY_FR_D 2) <= 2147483647
   /\ get_datetime_units_factor (base (mkMeta NPY_FR_h 1)) (base (mkMeta NPY_FR_D 2)) <> 0
   /\ get_datetime_units_factor (base (mkMeta NPY_FR_D 2)) (base (mkMeta NPY_FR_h 1)) <> 0
   /\ (Z.abs (-1) + 1)
      * (num (mkMeta NPY_FR_h 1)
         * get_datetime_units_factor (base (mkMeta NPY_FR_h 1)) (base (mkMeta NPY_FR_D 2)))
      <= 2 ^ 62
   /\ num (mkMeta NPY_FR_D 2)
      * get_datetime_units_factor (base (mkMeta NPY_FR_D 2)) (base (mkMeta NPY_FR_h 1))
      <= 2 ^ 62)
  /\ cast_timedelta_to_timedelta (mkMeta NPY_FR_h 1) (mkMeta NPY_FR_D 2) (-1)
     = Cast (-1 * num (mkMeta NPY_FR_h 1) * unit_attoseconds (base (mkMeta NPY_FR_h 1))
             / (num (mkMeta NPY_FR_D 2) * unit_attoseconds (base (mkMeta NPY_FR_D 2)))).
Proof.
  assert (H1 : constant_length_unit (base (mkMeta NPY_FR_h 1)) = true) by reflexivity.
  assert (H2 : constant_length_unit (base (mkMeta NPY_FR_D 2)) = true) by reflexivity.
  assert (H3 : 1 <= num (mkMeta NPY_FR_h 1) <= 2147483647) by (cbn; lia).
  assert (H4 : 1 <= num (mkMeta NPY_FR_D 2) <= 2147483647) by (cbn; lia).
  assert (H5 : get_datetime_units_factor (base (mkMeta NPY_FR_h 1)) (base (mkMeta NPY_FR_D 2)) <> 0)
    by (vm_compute; discriminate).
  assert (H6 : get_datetime_units_factor (base (mkMeta NPY_FR_D 2)) (base (mkMeta NPY_FR_h 1)) <> 0)
    by (vm_compute; discriminate).
  assert (H7 : (Z.abs (-1) + 1)
      * (num (mkMeta NPY_FR_h 1)
         * get_datetime_units_factor (base (mkMeta NPY_FR_h 1)) (base (mkMeta NPY_FR_D 2)))
      <= 2 ^ 62) by (vm_compute; discriminate).
  assert (H8 : num (mkMeta NPY_FR_D 2)
      * get_datetime_units_factor (base (mkMeta NPY_FR_D 2)) (base (mkMeta NPY_FR_h 1))
      <= 2 ^ 62) by (vm_compute; discriminate).
  split; [repeat (split; [assumption|]); assumption|].
  exact (cast_timedelta_is_floor_of_duration _ _ (-1) H1 H2 H3 H4 H5 H6 H7 H8).
Defined.

(** *** Conversion to Python objects *)

(** X22.  Whenever [convert_timedelta_to_pyobject] asks for a
    [datetime.timedelta], while the scaled value stays within
    [npy_int64], the days, seconds and microseconds it passes add up to
    exactly the duration [td] ticks long; at most 999999999 days are
    passed, and seconds and microseconds stay under a day and a second
    in magnitude. *)
Theorem timedelta_object_is_exact (td : Z) (meta : PyArray_DatetimeMetaData)
    (days seconds useconds : Z) :
  - 2 ^ 60 <= td * num meta <= 2 ^ 60 ->
  convert_timedelta_to_pyobject td meta = PyDelta_FromDSU days seconds useconds ->
  ((days * 86400 + seconds) * 1000000 + useconds) * 1000000000000
  = td * num meta * unit_attoseconds (base meta)
  /\ -999999999 <= days <= 999999999
  /\ -86400 < seconds < 86400
  /\ -1000000 < useconds < 1000000.
Proof.
  intros Hr. change (2 ^ 60) with 1152921504606846976 in Hr.
  unfold convert_timedelta_to_pyobject.
  destruct (td =? NPY_DATETIME_NAT); [discriminate|].
  destruct (base meta); cbn [unit_gtb unit_eqb unit_value Z.gtb Z.eqb Z.compare
                             Pos.compare Pos.compare_cont Pos.eqb orb];
    try discriminate;
    unfold timedelta_days_seconds_useconds, mul64, div64, mod64;
    rewrite (i64_small (td * num meta))
      by (unfold NPY_MIN_INT64, NPY_MAX_INT64; lia);
    repeat (progress (strip64; strip32));
    match goal with
    | |- context [(?a <? ?b) || (?c >? ?d)] =>
        destruct (Z.ltb_spec a b); [discriminate|];
        destruct (Z.gtb_spec c d); [discriminate|]
    end;
    cbn [orb]; try rewrite i32_small by lia;
    intros [= <- <- <-]; cbn [unit_attoseconds]; zdiv.
Qed.

Lemma timedelta_object_is_exact_witness :
  (- 2 ^ 60 <= (-90) * num (mkMeta NPY_FR_m 1) <= 2 ^ 60
   /\ convert_timedelta_to_pyobject (-90) (mkMeta NPY_FR_m 1)
      = PyDelta_FromDSU 0 (-5400) 0)
  /\ ((0 * 86400 + (-5400)) * 1000000 + 0) * 1000000000000
     = (-90) * num (mkMeta NPY_FR_m 1) * unit_attoseconds (base (mkMeta NPY_FR_m 1))
  /\ -999999999 <= 0 <= 999999999
  /\ -86400 < -5400 < 86400
  /\ -1000000 < 0 < 1000000.
Proof.
  assert (H1 : - 2 ^ 60 <= (-90) * num (mkMeta NPY_FR_m 1) <= 2 ^ 60)
    by (vm_compute; split; discriminate).
  assert (H2 : convert_timedelta_to_pyobject (-90) (mkMeta NPY_FR_m 1)
               = PyDelta_FromDSU 0 (-5400) 0) by (vm_compute; reflexivity).
  split; [split; [exact H1 | exact H2]|].
  exact (timedelta_object_is_exact (-90) (mkMeta NPY_FR_m 1) 0 (-5400) 0 H1 H2).
Defined.

(** X23.  For a value in the range of the codec,
    [convert_datetime_to_pyobject] raises nothing, and every
    [datetime.date] or [datetime.datetime] it asks for is a valid one:
    a year from 1 to 9999, a day that exists in its month, and a time of
    day in range.  It never asks for a [datetime.timedelta]. *)
Theorem datetime_object_is_valid (dt : Z) (meta : PyArray_DatetimeMetaData) :
  value_in_codec_range meta dt ->
  exists o,
    convert_datetime_to_pyobject dt meta = Ok o
    /\ match o with
       | PyDate_FromDate y m d =>
           1 <= y <= 9999 /\ 1 <= m <= 12 /\ 1 <= d <= days_in_month y m
       | PyDateTime_FromDateAndTime y m d hour minute second usecond =>
           1 <= y <= 9999 /\ 1 <= m <= 12 /\ 1 <= d <= days_in_month y m
           /\ 0 <= hour < 24 /\ 0 <= minute < 60 /\ 0 <= second < 60
           /\ 0 <= usecond < 1000000
       | PyDelta_FromDSU _ _ _ => False
       | _ => True
       end.
Proof.
  intros Hr. unfold convert_datetime_to_pyobject.
  destruct ((dt =? NPY_DATETIME_NAT) || unit_eqb (base meta) NPY_FR_GENERIC) eqn:Hn;
    [exists Py_None; auto|].
  apply orb_false_iff in Hn as [_ Hg].
  destruct (unit_gtb (base meta) NPY_FR_us); [eexists; split; [reflexivity|exact I]|].
  assert (Hg' : base meta <> NPY_FR_GENERIC).
  { intros Hc. rewrite Hc in Hg. discriminate Hg. }
  destruct (struct_of_value_is_valid meta dt Hg' Hr) as (out & -> & Hd & Ht).
  destruct Hd as [Hm Hday].
  destruct Ht as (Hh & Hmi & Hs & Hus & _).
  destruct (Z.ltb_spec (year out) 1); [eexists; split; [reflexivity|exact I]|].
  destruct (Z.gtb_spec (year out) 9999); [eexists; split; [reflexivity|exact I]|].
  destruct (Z.eqb_spec (sec out) 60); [lia|]. cbn [orb].
  rewrite (i32_small (year out)) by lia.
  destruct (unit_gtb (base meta) NPY_FR_D); eexists; (split; [reflexivity|]);
    cbv beta iota; repeat split; lia.
Qed.

Lemma datetime_object_is_valid_witness :
  value_in_codec_range (mkMeta NPY_FR_h 1) (-1)
  /\ exists o,
    convert_datetime_to_pyobject (-1) (mkMeta NPY_FR_h 1) = Ok o
    /\ match o with
       | PyDate_FromDate y m d =>
           1 <= y <= 9999 /\ 1 <= m <= 12 /\ 1 <= d <= days_in_month y m
       | PyDateTime_FromDateAndTime y m d hour minute second usecond =>
           1 <= y <= 9999 /\ 1 <= m <= 12 /\ 1 <= d <= days_in_month y m
           /\ 0 <= hour < 24 /\ 0 <= minute < 60 /\ 0 <= second < 60
           /\ 0 <= usecond < 1000000
       | PyDelta_FromDSU _ _ _ => False
       | _ => True
       end.
Proof.
  assert (H1 : value_in_codec_range (mkMeta NPY_FR_h 1) (-1)).
  { split; [discriminate|]. cbn. lia. }
  split; [exact H1|].
  exact (datetime_object_is_valid (-1) (mkMeta NPY_FR_h 1) H1).
Defined.

(** *** Adjusting a struct by minutes *)

Lemma mod_add_radix lo radix : (lo + radix) mod radix = lo mod radix.
Proof. replace (lo + radix) with (lo + 1 * radix) by ring. apply Z_mod_plus_full. Qed.

Lemma div_add_radix lo radix : radix <> 0 -> (lo + radix) / radix = lo / radix + 1.
Proof. intros H. replace (lo + radix) with (lo + 1 * radix) by ring. apply Z.div_add. exact H. Qed.

Lemma borrow_loop_spec radix : 1 <= radix <= 2147483647 ->
  forall fuel lo hi,
    -2147483648 <= lo < radix -> - lo <= Z.of_nat fuel ->
    -2147483648 <= hi + lo / radix -> hi <= 2147483647 ->
    borrow_loop fuel radix lo hi = (lo mod radix, hi + lo / radix).
Proof.
  intros Hradix. induction fuel as [|fuel IH]; intros lo hi Hlo Hfuel Hlow Hhigh;
    cbn [borrow_loop].
  - rewrite Z.mod_small, Z.div_small by lia. f_equal. lia.
  - destruct (Z.ltb_spec lo 0).
    + assert (lo / radix < 0) by (apply Z.div_lt_upper_bound; lia).
      rewrite (i32_small (lo + radix)), (i32_small (hi - 1)) by lia.
      rewrite IH; rewrite ?mod_add_radix, ?div_add_radix by lia; try lia.
      f_equal. lia.
    + rewrite Z.mod_small, Z.div_small by lia. f_equal. lia.
Qed.

Lemma carry_loop_spec radix : 1 <= radix ->
  forall fuel lo hi,
    0 <= lo <= 2147483647 -> lo <= Z.of_nat fuel ->
    -2147483648 <= hi -> hi + lo / radix <= 2147483647 ->
    carry_loop fuel radix lo hi = (lo mod radix, hi + lo / radix).
Proof.
  intros Hradix. induction fuel as [|fuel IH]; intros lo hi Hlo Hfuel Hlow Hhigh;
    cbn [carry_loop].
  - assert (lo = 0) as -> by lia. rewrite Z.mod_0_l, Z.div_0_l by lia. f_equal. lia.
  - destruct (Z.geb_spec lo radix).
    + assert (Hsplit : lo = (lo - radix) + radix) by ring.
      assert (Hdiv : lo / radix = (lo - radix) / radix + 1)
        by (rewrite Hsplit at 1; apply div_add_radix; lia).
      assert (Hmod : lo mod radix = (lo - radix) mod radix)
        by (rewrite Hsplit at 1; apply mod_add_radix).
      assert (0 <= (lo - radix) / radix) by (apply Z.div_pos; lia).
      rewrite (i32_small (lo - radix)), (i32_small (hi + 1)) by lia.
      rewrite IH by lia. rewrite Hdiv, Hmod. f_equal. lia.
    + rewrite Z.mod_small, Z.div_small by lia. f_equal. lia.
Qed.

Lemma normalize_field_spec radix lo hi :
  1 <= radix <= 2147483647 ->
  -2147483648 <= lo <= 2147483647 ->
  -2147483648 <= hi <= 2147483647 ->
  -2147483648 <= hi + lo / radix <= 2147483647 ->
  normalize_field radix lo hi = (lo mod radix, hi + lo / radix).
Proof.
  intros Hradix Hlo Hhi Hres. unfold normalize_field.
  pose proof (Z.mod_pos_bound lo radix ltac:(lia)) as Hmod.
  destruct (Z.ltb_spec lo 0).
  - assert (Hsmall : lo mod radix / radix = 0) by (apply Z.div_small; lia).
    rewrite (borrow_loop_spec radix Hradix) by lia.
    rewrite (carry_loop_spec radix) by lia.
    rewrite Z.mod_mod, Hsmall by lia. f_equal. lia.
  - replace (Z.to_nat (- lo)) with O by lia. cbn [borrow_loop].
    apply carry_loop_spec; lia.
Qed.

Lemma days_before_next_month isleap m :
  1 <= m <= 11 ->
  days_before_month isleap (m + 1) = days_before_month isleap m + month_length isleap m.
Proof.
  intros Hm.
  assert (Hc : m = 1 \/ m = 2 \/ m = 3 \/ m = 4 \/ m = 5 \/ m = 6 \/ m = 7 \/ m = 8
          \/ m = 9 \/ m = 10 \/ m = 11) by lia.
  repeat (destruct Hc as [->|Hc]); [..|subst m]; destruct isleap; reflexivity.
Qed.

Lemma days_before_december isleap :
  days_before_month isleap 12 + month_length isleap 12
  = 365 + (if isleap then 1 else 0).
Proof. destruct isleap; reflexivity. Qed.

Ltac fields :=
  cbn [year month day hour min sec us ps as_
       set_min set_hour set_day set_month set_year].

Lemma add_minutes_reference dts minutes :
  valid_date dts -> 0 <= hour dts < 24 -> 0 <= min dts < 60 ->
  year_in_range (year dts - 1) -> year_in_range (year dts + 1) ->
  -40320 <= minutes <= 40320 ->
  let out := add_minutes_to_datetimestruct dts minutes in
  valid_date out /\ 0 <= hour out < 24 /\ 0 <= min out < 60
  /\ year dts - 1 <= year out <= year dts + 1
  /\ sec out = sec dts /\ us out = us dts /\ ps out = ps dts /\ as_ out = as_ dts
  /\ (reference_day out * 24 + hour out) * 60 + min out
     = (reference_day dts * 24 + hour dts) * 60 + min dts + minutes.
Proof.
  intros [Hm Hd] Hh Hmi Hy1 Hy2 Hmin. unfold days_in_month in Hd.
  unfold year_in_range in Hy1, Hy2.
  pose proof (month_length_bounds (is_leapyear (year dts)) (month dts) Hm) as Hlen.
  unfold add_minutes_to_datetimestruct.
  rewrite (i32_small (min dts + minutes)) by lia.
  rewrite (normalize_field_spec 60) by zdiv.
  cbv beta iota zeta.
  rewrite (normalize_field_spec 24) by zdiv.
  cbv beta iota zeta.
  set (mi := (min dts + minutes) mod 60).
  set (ho := (hour dts + (min dts + minutes) / 60) mod 24).
  set (k := (hour dts + (min dts + minutes) / 60) / 24).
  assert (Hk : -28 <= k <= 28) by (subst k; zdiv).
  assert (Hmi' : 0 <= mi < 60) by (subst mi; zdiv).
  assert (Hho' : 0 <= ho < 24) by (subst ho; zdiv).
  assert (Hsum : (k * 24 + ho) * 60 + mi = hour dts * 60 + min dts + minutes)
    by (subst k ho mi; zdiv).
  clearbody mi ho k.
  destruct dts as [y mo d h mn s u p a].
  cbn [year month day hour min sec us ps as_] in *.
  unfold valid_date, days_in_month, reference_day.
  fields. rewrite ?(i32_small mi), ?(i32_small ho), ?(i32_small (d + k)) by lia.
  destruct (Z.ltb_spec (d + k) 1) as [Hlow|Hlow].
  - (* the previous month *)
    fields. rewrite ?(i32_small (mo - 1)) by lia.
    destruct (Z.ltb_spec (mo - 1) 1) as [Hjan|Hjan]; fields.
    + assert (mo = 1) by lia. subst mo.
      unfold sub64. rewrite ?(i64_small (y - 1)) by (unfold NPY_MIN_INT64, NPY_MAX_INT64; lia).
      change (i32 12) with 12.
      pose proof (year_length (y - 1)) as Hyl.
      replace (y - 1 + 1) with y in Hyl by ring.
      pose proof (days_before_december (is_leapyear (y - 1))) as Hdec.
      pose proof (month_length_bounds (is_leapyear (y - 1)) 12 ltac:(lia)).
      change (days_before_month (is_leapyear y) 1) with 0.
      strip32.
      repeat split; try lia.
    + pose proof (days_before_next_month (is_leapyear y) (mo - 1) ltac:(lia)) as Hnext.
      replace (mo - 1 + 1) with mo in Hnext by ring.
      pose proof (month_length_bounds (is_leapyear y) (mo - 1) ltac:(lia)).
      strip32.
      repeat split; try lia.
  - destruct (Z.gtb_spec (d + k) 28) as [Hhigh|Hhigh]; fields.
    + destruct (Z.gtb_spec (d + k) (month_length (is_leapyear y) mo)) as [Hover|Hover];
        fields.
      * (* the next month *)
        strip32. fields.
        rewrite ?(i32_small (mo + 1)) by lia.
        destruct (Z.gtb_spec (mo + 1) 12) as [Hdec|Hdec]; fields.
        -- assert (mo = 12) by lia. subst mo.
           unfold add64.
           rewrite ?(i64_small (y + 1)) by (unfold NPY_MIN_INT64, NPY_MAX_INT64; lia).
           change (i32 1) with 1.
           pose proof (year_length y) as Hyl.
           pose proof (days_before_december (is_leapyear y)) as Hdec'.
           pose proof (month_length_bounds (is_leapyear (y + 1)) 1 ltac:(lia)).
           change (days_before_month (is_leapyear (y + 1)) 1) with 0.
           strip32. repeat split; try lia.
        -- pose proof (days_before_next_month (is_leapyear y) mo ltac:(lia)) as Hnext.
           pose proof (month_length_bounds (is_leapyear y) (mo + 1) ltac:(lia)).
           strip32. repeat split; try lia.
      * strip32. repeat split; try lia.
    + strip32. repeat split; try lia.
Qed.

Lemma get_datetimestruct_minutes_reference dts :
  valid_date dts -> 0 <= hour dts < 24 -> 0 <= min dts < 60 ->
  -10000000000001 <= year dts <= 10000000000001 ->
  get_datetimestruct_minutes dts = (reference_day dts * 24 + hour dts) * 60 + min dts.
Proof.
  intros Hv Hh Hm Hy. unfold get_datetimestruct_minutes.
  rewrite get_datetimestruct_days_valid by (try assumption; unfold year_in_range; lia).
  assert (-3700000000000000 <= reference_day dts <= 3700000000000000).
  { destruct Hv as [Hmo Hd]. unfold days_in_month in Hd.
    pose proof (day_of_year_bounds _ _ _ Hmo Hd) as Hb.
    assert (0 <= days_before_month (is_leapyear (year dts)) (month dts) + (day dts - 1) < 366)
      by (destruct (is_leapyear (year dts)); lia).
    unfold reference_day, days_before_year. zdiv. }
  unfold add64, mul64. rewrite (i32_small (hour dts * 60)) by lia.
  strip64. ring.
Qed.

(** X24.  On a valid struct and for an offset of at most 28 days,
    [add_minutes_to_datetimestruct] yields a valid struct that lies
    exactly [minutes] minutes later, as [get_datetimestruct_minutes]
    counts them, and leaves the seconds and their fractions alone. *)
Theorem add_minutes_shifts_by_minutes (dts : npy_datetimestruct) (minutes : Z) :
  valid_date dts -> 0 <= hour dts < 24 -> 0 <= min dts < 60 ->
  -10000000000000 <= year dts <= 10000000000000 ->
  -40320 <= minutes <= 40320 ->
  let out := add_minutes_to_datetimestruct dts minutes in
  valid_date out /\ 0 <= hour out < 24 /\ 0 <= min out < 60
  /\ sec out = sec dts /\ us out = us dts /\ ps out = ps dts /\ as_ out = as_ dts
  /\ get_datetimestruct_minutes out = get_datetimestruct_minutes dts + minutes.
Proof.
  intros Hv Hh Hm Hy Hmin.
  assert (Hy1 : year_in_range (year dts - 1)) by (unfold year_in_range; lia).
  assert (Hy2 : year_in_range (year dts + 1)) by (unfold year_in_range; lia).
  pose proof (add_minutes_reference dts minutes Hv Hh Hm Hy1 Hy2 Hmin) as Href.
  cbv zeta in Href |- *.
  generalize dependent (add_minutes_to_datetimestruct dts minutes).
  intros out (Hv' & Hh' & Hm' & Hy' & Hs & Hu & Hp & Ha & Href).
  repeat (split; [assumption|]).
  assert (Hyo : -10000000000001 <= year out <= 10000000000001) by lia.
  assert (Hyd : -10000000000001 <= year dts <= 10000000000001) by lia.
  rewrite (get_datetimestruct_minutes_reference out Hv' Hh' Hm' Hyo).
  rewrite (get_datetimestruct_minutes_reference dts Hv Hh Hm Hyd).
  exact Href.
Qed.

Lemma add_minutes_shifts_by_minutes_witness :
  (valid_date (mkDts 2000 3 1 0 10 30 0 0 0)
   /\ 0 <= hour (mkDts 2000 3 1 0 10 30 0 0 0) < 24
   /\ 0 <= min (mkDts 2000 3 1 0 10 30 0 0 0) < 60
   /\ -10000000000000 <= year (mkDts 2000 3 1 0 10 30 0 0 0) <= 10000000000000
   /\ -40320 <= -11 <= 40320)
  /\ let out := add_minutes_to_datetimestruct (mkDts 2000 3 1 0 10 30 0 0 0) (-11) in
     valid_date out /\ 0 <= hour out < 24 /\ 0 <= min out < 60
     /\ sec out = sec (mkDts 2000 3 1 0 10 30 0 0 0)
     /\ us out = us (mkDts 2000 3 1 0 10 30 0 0 0)
     /\ ps out = ps (mkDts 2000 3 1 0 10 30 0 0 0)
     /\ as_ out = as_ (mkDts 2000 3 1 0 10 30 0 0 0)
     /\ get_datetimestruct_minutes out
        = get_datetimestruct_minutes (mkDts 2000 3 1 0 10 30 0 0 0) + -11.
Proof.
  assert (H1 : valid_date (mkDts 2000 3 1 0 10 30 0 0 0))
    by (unfold valid_date; vm_compute; repeat split; discriminate).
  assert (H2 : 0 <= hour (mkDts 2000 3 1 0 10 30 0 0 0) < 24) by (cbn; lia).
  assert (H3 : 0 <= min (mkDts 2000 3 1 0 10 30 0 0 0) < 60) by (cbn; lia).
  assert (H4 : -10000000000000 <= year (mkDts 2000 3 1 0 10 30 0 0 0) <= 10000000000000)
    by (cbn; lia).
  assert (H5 : -40320 <= -11 <= 40320) by lia.
  split; [repeat (split; [assumption|]); assumption|].
  exact (add_minutes_shifts_by_minutes (mkDts 2000 3 1 0 10 30 0 0 0) (-11) H1 H2 H3 H4 H5).
Defined.

Lemma add_seconds_reference dts seconds :
  valid_date dts -> 0 <= hour dts < 24 -> 0 <= min dts < 60 -> 0 <= sec dts < 60 ->
  year_in_range (year dts - 1) -> year_in_range (year dts + 1) ->
  -2419200 <= seconds <= 2419200 ->
  let out := add_seconds_to_datetimestruct dts seconds in
  valid_date out /\ 0 <= hour out < 24 /\ 0 <= min out < 60 /\ 0 <= sec out < 60
  /\ year dts - 1 <= year out <= year dts + 1
  /\ us out = us dts /\ ps out = ps dts /\ as_ out = as_ dts
  /\ ((reference_day out * 24 + hour out) * 60 + min out) * 60 + sec out
     = ((reference_day dts * 24 + hour dts) * 60 + min dts) * 60 + sec dts + seconds.
Proof.
  intros Hv Hh Hm Hs Hy1 Hy2 Hsec out. subst out.
  unfold add_seconds_to_datetimestruct.
  destruct dts as [y mo d h mn s u p a].
  cbn [year month day hour min sec us ps as_] in *.
  assert (Hv' : forall s', valid_date (mkDts y mo d h mn s' u p a)) by (intros; exact Hv).
  assert (Hr' : forall s', reference_day (mkDts y mo d h mn s' u p a)
                           = reference_day (mkDts y mo d h mn s u p a)) by reflexivity.
  unfold set_sec; cbn [year month day hour min sec us ps as_].
  rewrite (i32_small (s + seconds)) by lia.
  destruct (Z.ltb_spec (s + seconds) 0) as [Hneg|Hneg].
  - unfold set_sec; cbn [year month day hour min sec us ps as_].
    rewrite (i32_small (Z.rem (s + seconds) 60)) by zdiv.
    destruct (Z.ltb_spec (Z.rem (s + seconds) 60) 0) as [Hrem|Hrem];
      unfold set_sec; cbn [year month day hour min sec us ps as_];
      repeat (progress strip32);
      match goal with
      | |- context [add_minutes_to_datetimestruct ?t ?k] =>
          destruct (add_minutes_reference t k (Hv' _) Hh Hm Hy1 Hy2 ltac:(zdiv))
            as ([[? ?] [? ?]] & Ha2 & Ha3 & Ha4 & Ha5 & Ha6 & Ha7 & Ha8 & Ha9);
          unfold reference_day in Ha9 |- *;
          cbn [year month day hour min sec us ps as_] in *;
          rewrite Ha5;
          repeat split; try assumption; zdiv
      end.
  - destruct (Z.geb_spec (s + seconds) 60) as [Hbig|Hbig];
      unfold set_sec; cbn [year month day hour min sec us ps as_].
    + rewrite (i32_small (Z.rem (s + seconds) 60)) by zdiv.
      match goal with
      | |- context [add_minutes_to_datetimestruct ?t ?k] =>
          destruct (add_minutes_reference t k (Hv' _) Hh Hm Hy1 Hy2 ltac:(zdiv))
            as ([[? ?] [? ?]] & Ha2 & Ha3 & Ha4 & Ha5 & Ha6 & Ha7 & Ha8 & Ha9);
          unfold reference_day in Ha9 |- *;
          cbn [year month day hour min sec us ps as_] in *;
          rewrite Ha5;
          repeat split; try assumption; zdiv
      end.
    + clear Hv' Hr'. unfold valid_date, reference_day in *.
      cbn [year month day hour min sec us ps as_] in *.
      repeat split; lia.
Qed.

(** X25.  On a valid struct with a year of magnitude at most 10^13 and
    for an offset of at most 28 days, [add_seconds_to_datetimestruct]
    yields a valid struct with seconds from 0 to 59 that lies exactly
    [seconds] seconds later, and leaves the fractions of a second
    alone. *)
Theorem add_seconds_shifts_by_seconds (dts : npy_datetimestruct) (seconds : Z) :
  valid_date dts -> 0 <= hour dts < 24 -> 0 <= min dts < 60 -> 0 <= sec dts < 60 ->
  -10000000000000 <= year dts <= 10000000000000 ->
  -2419200 <= seconds <= 2419200 ->
  let out := add_seconds_to_datetimestruct dts seconds in
  valid_date out /\ 0 <= hour out < 24 /\ 0 <= min out < 60 /\ 0 <= sec out < 60
  /\ us out = us dts /\ ps out = ps dts /\ as_ out = as_ dts
  /\ get_datetimestruct_minutes out * 60 + sec out
     = get_datetimestruct_minutes dts * 60 + sec dts + seconds.
Proof.
  intros Hv Hh Hm Hs Hy Hsec.
  assert (Hy1 : year_in_range (year dts - 1)) by (unfold year_in_range; lia).
  assert (Hy2 : year_in_range (year dts + 1)) by (unfold year_in_range; lia).
  pose proof (add_seconds_reference dts seconds Hv Hh Hm Hs Hy1 Hy2 Hsec) as Href.
  cbv zeta in Href |- *.
  generalize dependent (add_seconds_to_datetimestruct dts seconds).
  intros out (Hv' & Hh' & Hm' & Hs' & Hy' & Hu & Hp & Ha & Href).
  repeat (split; [assumption|]).
  assert (Hyo : -10000000000001 <= year out <= 10000000000001) by lia.
  assert (Hyd : -10000000000001 <= year dts <= 10000000000001) by lia.
  rewrite (get_datetimestruct_minutes_reference out Hv' Hh' Hm' Hyo).
  rewrite (get_datetimestruct_minutes_reference dts Hv Hh Hm Hyd).
  exact Href.
Qed.

Lemma add_seconds_shifts_by_seconds_witness :
  (valid_date (mkDts 1970 1 1 0 0 0 0 0 0)
   /\ 0 <= hour (mkDts 1970 1 1 0 0 0 0 0 0) < 24
   /\ 0 <= min (mkDts 1970 1 1 0 0 0 0 0 0) < 60
   /\ 0 <= sec (mkDts 1970 1 1 0 0 0 0 0 0) < 60
   /\ -10000000000000 <= year (mkDts 1970 1 1 0 0 0 0 0 0) <= 10000000000000
   /\ -2419200 <= -1 <= 2419200)
  /\ let out := add_seconds_to_datetimestruct (mkDts 1970 1 1 0 0 0 0 0 0) (-1) in
     valid_date out /\ 0 <= hour out < 24 /\ 0 <= min out < 60 /\ 0 <= sec out < 60
     /\ us out = us (mkDts 1970 1 1 0 0 0 0 0 0)
     /\ ps out = ps (mkDts 1970 1 1 0 0 0 0 0 0)
     /\ as_ out = as_ (mkDts 1970 1 1 0 0 0 0 0 0)
     /\ get_datetimestruct_minutes out * 60 + sec out
        = get_datetimestruct_minutes (mkDts 1970 1 1 0 0 0 0 0 0) * 60
          + sec (mkDts 1970 1 1 0 0 0 0 0 0) + -1.
Proof.
  assert (H1 : valid_date (mkDts 1970 1 1 0 0 0 0 0 0))
    by (unfold valid_date; vm_compute; repeat split; discriminate).
  assert (H2 : 0 <= hour (mkDts 1970 1 1 0 0 0 0 0 0) < 24) by (cbn; lia).
  assert (H3 : 0 <= min (mkDts 1970 1 1 0 0 0 0 0 0) < 60) by (cbn; lia).
  assert (H4 : 0 <= sec (mkDts 1970 1 1 0 0 0 0 0 0) < 60) by (cbn; lia).
  assert (H5 : -10000000000000 <= year (mkDts 1970 1 1 0 0 0 0 0 0) <= 10000000000000)
    by (cbn; lia).
  assert (H6 : -2419200 <= -1 <= 2419200) by lia.
  split; [repeat (split; [assumption|]); assumption|].
  exact (add_seconds_shifts_by_seconds (mkDts 1970 1 1 0 0 0 0 0 0) (-1) H1 H2 H3 H4 H5 H6).
Defined.

(** *** Divisibility of metadata *)

Lemma top_byte_clear x :
  0 <= x < 2 ^ 56 -> Z.land x 0xff00000000000000 = 0.
Proof.
  intros Hx. change 0xff00000000000000 with (Z.shiftl 255 56).
  apply Z.bits_inj'. intros k Hk. rewrite Z.land_spec, Z.bits_0.
  destruct (Z.ltb_spec k 56).
  - rewrite (Z.shiftl_spec_low 255 56 k) by lia. apply andb_false_r.
  - destruct (Z.eq_dec x 0) as [->|Hne]; [rewrite Z.bits_0; reflexivity|].
    rewrite (Z.bits_above_log2 x k); [reflexivity|lia|].
    apply Z.log2_lt_pow2; [lia|].
    apply Z.lt_le_trans with (2 ^ 56); [lia|].
    apply Z.pow_le_mono_r; lia.
Qed.

Lemma divides_nonlinear_constant_length b1 b2 num1 num2 strict :
  constant_length_unit b1 = true -> constant_length_unit b2 = true ->
  divides_nonlinear b1 b2 num1 num2 strict = inr (num1, num2).
Proof.
  destruct b1; intros H1; try discriminate H1;
    destruct b2; intros H2; try discriminate H2; reflexivity.
Qed.

Lemma metadata_divides_constant_length a b strict :
  constant_length_unit (base a) = true ->
  constant_length_unit (base b) = true ->
  1 <= num a <= 2147483647 -> 1 <= num b <= 2147483647 ->
  get_datetime_units_factor (base a) (base b) <> 0 ->
  get_datetime_units_factor (base b) (base a) <> 0 ->
  num a * get_datetime_units_factor (base a) (base b) < 2 ^ 56 ->
  num b * get_datetime_units_factor (base b) (base a) < 2 ^ 56 ->
  datetime_metadata_divides a b strict
  = Some ((num a * unit_attoseconds (base a))
          mod (num b * unit_attoseconds (base b)) =? 0).
Proof.
  intros Ha Hb Hna Hnb Hf1 Hf2 HN HD.
  pose proof (units_factor_range (base a) (base b)) as R1.
  pose proof (units_factor_range (base b) (base a)) as R2.
  destruct (factor_unit_lengths _ _ Ha Hb Hf1 Hf2) as (c & Hc & Hc1 & Hc2).
  rewrite Hc1, Hc2, !Z.mul_assoc, Z.mul_mod_distr_r by nia.
  set (N := num a * get_datetime_units_factor (base a) (base b)) in *.
  set (D := num b * get_datetime_units_factor (base b) (base a)) in *.
  assert (HNpos : 1 <= N) by (subst N; nia).
  assert (HDpos : 1 <= D) by (subst D; nia).
  assert (Hres : (N mod D * c =? 0) = (N mod D =? 0)).
  { destruct (Z.eqb_spec (N mod D) 0) as [->|Hne]; [reflexivity|].
    apply Z.eqb_neq. nia. }
  rewrite Hres.
  assert (Hfinish :
    (if negb (Z.land N 0xff00000000000000 =? 0)
        || negb (Z.land D 0xff00000000000000 =? 0) then Some false
     else if D =? 0 then None
     else Some (N mod D =? 0)) = Some (N mod D =? 0)).
  { rewrite !top_byte_clear by lia. cbn [Z.eqb negb orb].
    destruct (Z.eqb_spec D 0); [lia|reflexivity]. }
  unfold datetime_metadata_divides.
  destruct (unit_eqb (base b) NPY_FR_GENERIC) eqn:Hgb;
    [apply unit_eqb_eq in Hgb; rewrite Hgb in Hb; discriminate|].
  destruct (unit_eqb (base a) NPY_FR_GENERIC) eqn:Hga;
    [apply unit_eqb_eq in Hga; rewrite Hga in Ha; discriminate|].
  change (2 ^ 56) with 72057594037927936 in *.
  rewrite !(u64_small (num _)) by (change (2 ^ 64) with 18446744073709551616; lia).
  rewrite (divides_nonlinear_constant_length _ _ _ _ _ Ha Hb).
  destruct (unit_eqb (base a) (base b)) eqn:Heq; cbn [negb].
  - apply unit_eqb_eq in Heq. subst N D. rewrite <- Heq in *.
    rewrite units_factor_same in * by assumption.
    rewrite !Z.mul_1_r in *. exact Hfinish.
  - unfold unit_gtb. destruct (Z.gtb_spec (unit_value (base a)) (unit_value (base b))).
    + assert (Hone : get_datetime_units_factor (base a) (base b) = 1).
      { apply units_factor_backwards; try assumption. apply Z.leb_gt. lia. }
      subst N D. rewrite Hone in *. rewrite Z.mul_1_r in *.
      rewrite u64_small by (change (2 ^ 64) with 18446744073709551616; lia).
      destruct (Z.eqb_spec (num b * get_datetime_units_factor (base b) (base a)) 0); [lia|].
      exact Hfinish.
    + assert (Hone : get_datetime_units_factor (base b) (base a) = 1).
      { apply units_factor_backwards; try assumption. apply Z.leb_gt.
        assert (unit_value (base a) <> unit_value (base b)).
        { intros Hv. apply unit_value_inj in Hv. rewrite Hv, unit_eqb_refl in Heq.
          discriminate. }
        lia. }
      subst N D. rewrite Hone in *. rewrite Z.mul_1_r in *.
      rewrite u64_small by (change (2 ^ 64) with 18446744073709551616; lia).
      destruct (Z.eqb_spec (num a * get_datetime_units_factor (base a) (base b)) 0); [lia|].
      exact Hfinish.
Qed.

(** X26.  Between two metadata with units of constant length and
    positive multipliers, while the scaled multipliers stay below 2^56,
    [datetime_metadata_divides] tells whether the tick of the divisor
    divides the tick of the dividend, whatever the strict flag. *)
Theorem metadata_divides_iff_tick_divides
    (dividend divisor : PyArray_DatetimeMetaData) (strict_with_nonlinear_units : bool) :
  constant_length_unit (base dividend) = true ->
  constant_length_unit (base divisor) = true ->
  1 <= num dividend <= 2147483647 -> 1 <= num divisor <= 2147483647 ->
  get_datetime_units_factor (base dividend) (base divisor) <> 0 ->
  get_datetime_units_factor (base divisor) (base dividend) <> 0 ->
  num dividend * get_datetime_units_factor (base dividend) (base divisor) < 2 ^ 56 ->
  num divisor * get_datetime_units_factor (base divisor) (base dividend) < 2 ^ 56 ->
  datetime_metadata_divides dividend divisor strict_with_nonlinear_units
  = Some ((num dividend * unit_attoseconds (base dividend))
          mod (num divisor * unit_attoseconds (base divisor)) =? 0).
Proof. apply metadata_divides_constant_length. Qed.

Lemma metadata_divides_iff_tick_divides_witness :
  (constant_length_unit (base (mkMeta NPY_FR_D 1)) = true
   /\ constant_length_unit (base (mkMeta NPY_FR_h 36)) = true
   /\ 1 <= num (mkMeta NPY_FR_D 1) <= 2147483647
   /\ 1 <= num (mkMeta NPY_FR_h 36) <= 2147483647
   /\ get_datetime_units_factor (base (mkMeta NPY_FR_D 1)) (base (mkMeta NPY_FR_h 36)) <> 0
   /\ get_datetime_units_factor (base (mkMeta NPY_FR_h 36)) (base (mkMeta NPY_FR_D 1)) <> 0
   /\ num (mkMeta NPY_FR_D 1)
      * get_datetime_units_factor (base (mkMeta NPY_FR_D 1)) (base (mkMeta NPY_FR_h 36))
      < 2 ^ 56
   /\ num (mkMeta NPY_FR_h 36)
      * get_datetime_units_factor (base (mkMeta NPY_FR_h 36)) (base (mkMeta NPY_FR_D 1))
      < 2 ^ 56)
  /\ datetime_metadata_divides (mkMeta NPY_FR_D 1) (mkMeta NPY_FR_h 36) true
     = Some ((num (mkMeta NPY_FR_D 1) * unit_attoseconds (base (mkMeta NPY_FR_D 1)))
             mod (num (mkMeta NPY_FR_h 36) * unit_attoseconds (base (mkMeta NPY_FR_h 36)))
             =? 0).
Proof.
  assert (H1 : constant_length_unit (base (mkMeta NPY_FR_D 1)) = true) by reflexivity.
  assert (H2 : constant_length_unit (base (mkMeta NPY_FR_h 36)) = true) by reflexivity.
  assert (H3 : 1 <= num (mkMeta NPY_FR_D 1) <= 2147483647) by (cbn; lia).
  assert (H4 : 1 <= num (mkMeta NPY_FR_h 36) <= 2147483647) by (cbn; lia).
  assert (H5 : get_datetime_units_factor (base (mkMeta NPY_FR_D 1)) (base (mkMeta NPY_FR_h 36)) <> 0)
    by (vm_compute; discriminate).
  assert (H6 : get_datetime_units_factor (base (mkMeta NPY_FR_h 36)) (base (mkMeta NPY_FR_D 1)) <> 0)
    by (vm_compute; discriminate).
  assert (H7 : num (mkMeta NPY_FR_D 1)
      * get_datetime_units_factor (base (mkMeta NPY_FR_D 1)) (base (mkMeta NPY_FR_h 36))
      < 2 ^ 56) by (vm_compute; reflexivity).
  assert (H8 : num (mkMeta NPY_FR_h 36)
      * get_datetime_units_factor (base (mkMeta NPY_FR_h 36)) (base (mkMeta NPY_FR_D 1))
      < 2 ^ 56) by (vm_compute; reflexivity).
  split; [repeat (split; [assumption|]); assumption|].
  exact (metadata_divides_iff_tick_divides _ _ true H1 H2 H3 H4 H5 H6 H7 H8).
Defined.

Lemma gcd_ok_factors a b s1 s2 r :
  constant_length_unit (base a) = true ->
  constant_length_unit (base b) = true ->
  1 <= num a <= 2147483647 -> 1 <= num b <= 2147483647 ->
  compute_datetime_metadata_greatest_common_divisor a b s1 s2 = Ok r ->
  get_datetime_units_factor (base a) (base b) <> 0
  /\ get_datetime_units_factor (base b) (base a) <> 0.
Proof.
  intros Ha Hb Hna Hnb.
  destruct (unit_eqb (base a) (base b)) eqn:Hsame.
  - apply unit_eqb_eq in Hsame. rewrite <- Hsame.
    rewrite units_factor_same by assumption. intros _. split; discriminate.
  - unfold compute_datetime_metadata_greatest_common_divisor.
    destruct (unit_eqb (base a) NPY_FR_GENERIC) eqn:Hga;
      [apply unit_eqb_eq in Hga; rewrite Hga in Ha; discriminate|].
    destruct (unit_eqb (base b) NPY_FR_GENERIC) eqn:Hgb;
      [apply unit_eqb_eq in Hgb; rewrite Hgb in Hb; discriminate|].
    rewrite Hsame, (validate_units_constant_length a b _ _ s1 s2 Ha Hb).
    assert (Hne : unit_value (base a) <> unit_value (base b)).
    { intros Hv. apply unit_value_inj in Hv. rewrite Hv, unit_eqb_refl in Hsame.
      discriminate. }
    unfold unit_gtb.
    destruct (Z.gtb_spec (unit_value (base a)) (unit_value (base b))).
    + rewrite (units_factor_backwards (base a) (base b)) by
        (try assumption; apply Z.leb_gt; lia).
      destruct (Z.eq_dec (get_datetime_units_factor (base b) (base a)) 0) as [Hz|Hz].
      * rewrite Hz, Z.mul_0_r. cbn. discriminate.
      * intros _. split; [discriminate|exact Hz].
    + rewrite (units_factor_backwards (base b) (base a)) by
        (try assumption; apply Z.leb_gt; lia).
      destruct (Z.eq_dec (get_datetime_units_factor (base a) (base b)) 0) as [Hz|Hz].
      * rewrite Hz, Z.mul_0_r. cbn. discriminate.
      * intros _. split; [exact Hz|discriminate].
Qed.

Lemma gcd_divides_left a b s1 s2 r strict :
  constant_length_unit (base a) = true ->
  constant_length_unit (base b) = true ->
  1 <= num a <= 2147483647 -> 1 <= num b <= 2147483647 ->
  num a * get_datetime_units_factor (base a) (base b) < 2 ^ 56 ->
  num b * get_datetime_units_factor (base b) (base a) < 2 ^ 56 ->
  compute_datetime_metadata_greatest_common_divisor a b s1 s2 = Ok r ->
  datetime_metadata_divides a r strict = Some true.
Proof.
  intros Ha Hb Hna Hnb HN HD Hr.
  destruct (gcd_ok_factors a b s1 s2 r Ha Hb Hna Hnb Hr) as [Hf1 Hf2].
  pose proof (unit_attoseconds_positive _ Ha) as HUa.
  pose proof (unit_attoseconds_positive _ Hb) as HUb.
  change (2 ^ 56) with 72057594037927936 in *.
  destruct (gcd_constant_length a b s1 s2 r Ha Hb Hna Hnb) as [Hbase Htick];
    [change (2 ^ 64) with 18446744073709551616; lia
    |change (2 ^ 64) with 18446744073709551616; lia
    |exact Hr|].
  set (g := Z.gcd (num a * unit_attoseconds (base a))
                  (num b * unit_attoseconds (base b))) in *.
  assert (Hg_a : (g | num a * unit_attoseconds (base a))) by apply Z.gcd_divide_l.
  assert (Hg_b : (g | num b * unit_attoseconds (base b))) by apply Z.gcd_divide_r.
  assert (Hgpos : 0 < g).
  { pose proof (Z.gcd_nonneg (num a * unit_attoseconds (base a))
                             (num b * unit_attoseconds (base b))).
    assert (g <> 0) by (intros Hz; apply Z.gcd_eq_0_l in Hz; nia). lia. }
  assert (Hcr : constant_length_unit (base r) = true)
    by (rewrite Hbase; destruct (unit_gtb (base a) (base b)); assumption).
  pose proof (unit_attoseconds_positive _ Hcr) as HUr.
  assert (Hnr : 1 <= num r <= 2147483647).
  { split; [nia|].
    destruct (unit_gtb (base a) (base b)); rewrite Hbase in *.
    - apply Z.divide_pos_le in Hg_a; nia.
    - apply Z.divide_pos_le in Hg_b; nia. }
  assert (Hfr : get_datetime_units_factor (base r) (base a) = 1).
  { rewrite Hbase. unfold unit_gtb.
    destruct (Z.gtb_spec (unit_value (base a)) (unit_value (base b))).
    - apply units_factor_same. exact Ha.
    - destruct (Z.eq_dec (unit_value (base a)) (unit_value (base b))) as [He|He].
      + apply unit_value_inj in He. rewrite He. apply units_factor_same. exact Hb.
      + apply units_factor_backwards; try assumption. apply Z.leb_gt. lia. }
  assert (Hfa : get_datetime_units_factor (base a) (base r) <> 0
                /\ num a * get_datetime_units_factor (base a) (base r) < 72057594037927936).
  { rewrite Hbase. destruct (unit_gtb (base a) (base b)).
    - rewrite units_factor_same by assumption. split; [discriminate|lia].
    - split; assumption. }
  rewrite (metadata_divides_constant_length a r strict Ha Hcr Hna Hnr);
    change (2 ^ 56) with 72057594037927936; try tauto; [|rewrite Hfr; discriminate|rewrite Hfr; lia].
  rewrite Htick. f_equal. apply Z.eqb_eq. apply Z.mod_divide; [lia|exact Hg_a].
Qed.

(** X27.  The GCD metadata divides both operands: for units of
    constant length and positive multipliers, while the scaled
    multipliers stay below 2^56, [datetime_metadata_divides] accepts the
    result of [compute_datetime_metadata_greatest_common_divisor] as a
    divisor of either operand. *)
Theorem gcd_metadata_divides_both_operands
    (a b : PyArray_DatetimeMetaData) (s1 s2 : bool) (r : PyArray_DatetimeMetaData)
    (strict : bool) :
  constant_length_unit (base a) = true ->
  constant_length_unit (base b) = true ->
  1 <= num a <= 2147483647 -> 1 <= num b <= 2147483647 ->
  num a * get_datetime_units_factor (base a) (base b) < 2 ^ 56 ->
  num b * get_datetime_units_factor (base b) (base a) < 2 ^ 56 ->
  compute_datetime_metadata_greatest_common_divisor a b s1 s2 = Ok r ->
  datetime_metadata_divides a r strict = Some true
  /\ datetime_metadata_divides b r strict = Some true.
Proof.
  intros Ha Hb Hna Hnb HN HD Hr. split.
  - exact (gcd_divides_left a b s1 s2 r strict Ha Hb Hna Hnb HN HD Hr).
  - assert (Hr' : exists r', compute_datetime_metadata_greatest_common_divisor b a s2 s1 = Ok r'
                             /\ base r' = base r /\ num r' = num r).
    { destruct (compute_datetime_metadata_greatest_common_divisor b a s2 s1) as [r'|e] eqn:Hc.
      - exists r'. split; [reflexivity|].
        pose proof (gcd_commutative a b s1 s2 s2 s1 r r' Hr Hc) as He.
        unfold equivalent_datetime_metadata in He.
        assert (Hcr : constant_length_unit (base r) = true).
        { destruct (gcd_constant_length a b s1 s2 r Ha Hb Hna Hnb) as [Hbase _];
            try exact Hr; try (change (2 ^ 56) with 72057594037927936 in *;
                               change (2 ^ 64) with 18446744073709551616; lia).
          rewrite Hbase. destruct (unit_gtb (base a) (base b)); assumption. }
        destruct (unit_eqb (base r) NPY_FR_GENERIC) eqn:Hg;
          [apply unit_eqb_eq in Hg; rewrite Hg in Hcr; discriminate|].
        cbn [andb orb] in He. apply andb_true_iff in He as [He1 He2].
        apply unit_eqb_eq in He1. apply Z.eqb_eq in He2. auto.
      - exfalso. revert Hr Hc.
        unfold compute_datetime_metadata_greatest_common_divisor.
        destruct (unit_eqb (base a) NPY_FR_GENERIC) eqn:Hga;
          [apply unit_eqb_eq in Hga; rewrite Hga in Ha; discriminate|].
        destruct (unit_eqb (base b) NPY_FR_GENERIC) eqn:Hgb;
          [apply unit_eqb_eq in Hgb; rewrite Hgb in Hb; discriminate|].
        rewrite (unit_eqb_sym (base b) (base a)).
        rewrite (validate_units_constant_length a b _ _ s1 s2 Ha Hb).
        rewrite (validate_units_constant_length b a _ _ s2 s1 Hb Ha).
        destruct (unit_eqb (base a) (base b)) eqn:Hsame.
        + apply unit_eqb_eq in Hsame. rewrite Hsame, fill_out_meta_sym.
          intros -> [=].
        + assert (Hne : unit_value (base a) <> unit_value (base b)).
          { intros Hv. apply unit_value_inj in Hv. rewrite Hv, unit_eqb_refl in Hsame.
            discriminate. }
          unfold unit_gtb.
          destruct (Z.gtb_spec (unit_value (base a)) (unit_value (base b))),
                   (Z.gtb_spec (unit_value (base b)) (unit_value (base a))); try lia.
          * destruct (_ =? 0); [discriminate|].
            rewrite fill_out_meta_sym. intros -> [=].
          * destruct (_ =? 0); [discriminate|].
            rewrite fill_out_meta_sym. intros -> [=]. }
    destruct Hr' as (r' & Hc & Hb' & Hn').
    pose proof (gcd_divides_left b a s2 s1 r' strict Hb Ha Hnb Hna HD HN Hc) as Hdiv.
    destruct r as [rb rn], r' as [rb' rn']. cbn [base num] in *. subst. exact Hdiv.
Qed.

Lemma gcd_metadata_divides_both_operands_witness :
  (constant_length_unit (base (mkMeta NPY_FR_W 3)) = true
   /\ constant_length_unit (base (mkMeta NPY_FR_h 36)) = true
   /\ 1 <= num (mkMeta NPY_FR_W 3) <= 2147483647
   /\ 1 <= num (mkMeta NPY_FR_h 36) <= 2147483647
   /\ num (mkMeta NPY_FR_W 3)
      * get_datetime_units_factor (base (mkMeta NPY_FR_W 3)) (base (mkMeta NPY_FR_h 36)) < 2 ^ 56
   /\ num (mkMeta NPY_FR_h 36)
      * get_datetime_units_factor (base (mkMeta NPY_FR_h 36)) (base (mkMeta NPY_FR_W 3)) < 2 ^ 56
   /\ compute_datetime_metadata_greatest_common_divisor
        (mkMeta NPY_FR_W 3) (mkMeta NPY_FR_h 36) true true = Ok (mkMeta NPY_FR_h 36))
  /\ datetime_metadata_divides (mkMeta NPY_FR_W 3) (mkMeta NPY_FR_h 36) true = Some true
  /\ datetime_metadata_divides (mkMeta NPY_FR_h 36) (mkMeta NPY_FR_h 36) true = Some true.
Proof.
  assert (H1 : constant_length_unit (base (mkMeta NPY_FR_W 3)) = true) by reflexivity.
  assert (H2 : constant_length_unit (base (mkMeta NPY_FR_h 36)) = true) by reflexivity.
  assert (H3 : 1 <= num (mkMeta NPY_FR_W 3) <= 2147483647) by (cbn; lia).
  assert (H4 : 1 <= num (mkMeta NPY_FR_h 36) <= 2147483647) by (cbn; lia).
  assert (H5 : num (mkMeta NPY_FR_W 3)
      * get_datetime_units_factor (base (mkMeta NPY_FR_W 3)) (base (mkMeta NPY_FR_h 36)) < 2 ^ 56)
    by (vm_compute; reflexivity).
  assert (H6 : num (mkMeta NPY_FR_h 36)
      * get_datetime_units_factor (base (mkMeta NPY_FR_h 36)) (base (mkMeta NPY_FR_W 3)) < 2 ^ 56)
    by (vm_compute; reflexivity).
  assert (H7 : compute_datetime_metadata_greatest_common_divisor
        (mkMeta NPY_FR_W 3) (mkMeta NPY_FR_h 36) true true = Ok (mkMeta NPY_FR_h 36))
    by (vm_compute; reflexivity).
  split; [repeat (split; [assumption|]); assumption|].
  exact (gcd_metadata_divides_both_operands _ _ true true _ true H1 H2 H3 H4 H5 H6 H7).
Defined.

(** *** Struct to value and back *)

Lemma time_fields_injective d h m s u p a d' h' m' s' u' p' a' :
  0 <= h < 24 -> 0 <= m < 60 -> 0 <= s < 60 ->
  0 <= u < 1000000 -> 0 <= p < 1000000 -> 0 <= a < 1000000 ->
  0 <= h' < 24 -> 0 <= m' < 60 -> 0 <= s' < 60 ->
  0 <= u' < 1000000 -> 0 <= p' < 1000000 -> 0 <= a' < 1000000 ->
  (((((d * 24 + h) * 60 + m) * 60 + s) * 1000000 + u) * 1000000 + p) * 1000000 + a
  = (((((d' * 24 + h') * 60 + m') * 60 + s') * 1000000 + u') * 1000000 + p') * 1000000 + a' ->
  d = d' /\ h = h' /\ m = m' /\ s = s' /\ u = u' /\ p = p' /\ a = a'.
Proof. intros. lia. Qed.

Lemma struct_attoseconds_injective s t :
  valid_date s -> valid_time s -> valid_date t -> valid_time t ->
  struct_attoseconds s = struct_attoseconds t -> s = t.
Proof.
  intros Hds (Hh & Hmi & Hs & Hus & Hps & Has) Hdt (Hh' & Hmi' & Hs' & Hus' & Hps' & Has') Heq.
  destruct (time_fields_injective _ _ _ _ _ _ _ _ _ _ _ _ _ _
              Hh Hmi Hs Hus Hps Has Hh' Hmi' Hs' Hus' Hps' Has' Heq)
    as (E7 & E6 & E5 & E4 & E3 & E2 & E1).
  destruct (reference_day_injective s t Hds Hdt E7) as (E8 & E9 & E10).
  clear - E1 E2 E3 E4 E5 E6 E8 E9 E10.
  destruct s as [y1 mo1 d1 h1 mi1 s1 u1 p1 a1], t as [y2 mo2 d2 h2 mi2 s2 u2 p2 a2].
  cbn [year month day hour min sec us ps as_] in *. congruence.
Qed.

(** X28.  A valid struct that lies on the grid of the metadata (its
    instant is a whole number of ticks of a unit of constant length),
    with a year of magnitude at most 10^16 and at most 2^58 units away
    from the epoch, converts to a value that converts back to the same
    struct. *)
Theorem struct_value_struct_roundtrip (meta : PyArray_DatetimeMetaData)
    (dts : npy_datetimestruct) :
  constant_length_unit (base meta) = true ->
  1 <= num meta <= 2147483647 ->
  valid_date dts -> valid_time dts -> year_in_range (year dts) ->
  (num meta * unit_attoseconds (base meta) | struct_attoseconds dts) ->
  - 2 ^ 58 <= struct_attoseconds dts / unit_attoseconds (base meta) <= 2 ^ 58 ->
  exists v,
    convert_datetimestruct_to_datetime meta dts = Ok v
    /\ convert_datetime_to_datetimestruct meta v = Ok dts.
Proof.
  intros Hu Hn Hvd Hvt Hy [k Hk] Hb.
  pose proof (unit_attoseconds_positive _ Hu) as HU.
  change (2 ^ 58) with 288230376151711744 in Hb.
  assert (Hq : struct_attoseconds dts / unit_attoseconds (base meta) = k * num meta).
  { rewrite Hk, Z.mul_assoc. apply Z.div_mul. lia. }
  rewrite Hq in Hb.
  exists k. split.
  - rewrite (struct_to_value_reference meta dts Hvd Hvt Hy Hu Hn).
    + rewrite Hq, Z.div_mul by lia. reflexivity.
    + rewrite Hq. change (2 ^ 62) with 4611686018427387904. lia.
  - assert (Hnat : k <> NPY_DATETIME_NAT) by (unfold NPY_DATETIME_NAT, NPY_MIN_INT64; nia).
    destruct (value_to_struct_reference meta k Hu Hnat) as (out & Hout & Hvd' & Hvt' & _ & Hsa).
    { change (2 ^ 58) with 288230376151711744. lia. }
    rewrite Hout. f_equal.
    apply struct_attoseconds_injective; try assumption.
    rewrite Hsa, Hk. ring.
Qed.

Lemma struct_value_struct_roundtrip_witness :
  (constant_length_unit (base (mkMeta NPY_FR_m 15)) = true
   /\ 1 <= num (mkMeta NPY_FR_m 15) <= 2147483647
   /\ valid_date (mkDts 1969 12 31 23 45 0 0 0 0)
   /\ valid_time (mkDts 1969 12 31 23 45 0 0 0 0)
   /\ year_in_range (year (mkDts 1969 12 31 23 45 0 0 0 0))
   /\ (num (mkMeta NPY_FR_m 15) * unit_attoseconds (base (mkMeta NPY_FR_m 15))
       | struct_attoseconds (mkDts 1969 12 31 23 45 0 0 0 0))
   /\ - 2 ^ 58 <= struct_attoseconds (mkDts 1969 12 31 23 45 0 0 0 0)
                   / unit_attoseconds (base (mkMeta NPY_FR_m 15)) <= 2 ^ 58)
  /\ exists v,
       convert_datetimestruct_to_datetime (mkMeta NPY_FR_m 15)
         (mkDts 1969 12 31 23 45 0 0 0 0) = Ok v
       /\ convert_datetime_to_datetimestruct (mkMeta NPY_FR_m 15) v
          = Ok (mkDts 1969 12 31 23 45 0 0 0 0).
Proof.
  assert (H1 : constant_length_unit (base (mkMeta NPY_FR_m 15)) = true) by reflexivity.
  assert (H2 : 1 <= num (mkMeta NPY_FR_m 15) <= 2147483647) by (cbn; lia).
  assert (H3 : valid_date (mkDts 1969 12 31 23 45 0 0 0 0))
    by (unfold valid_date; vm_compute; repeat split; discriminate).
  assert (H4 : valid_time (mkDts 1969 12 31 23 45 0 0 0 0))
    by (unfold valid_time; cbn; lia).
  assert (H5 : year_in_range (year (mkDts 1969 12 31 23 45 0 0 0 0)))
    by (unfold year_in_range; cbn; lia).
  assert (H6 : (num (mkMeta NPY_FR_m 15) * unit_attoseconds (base (mkMeta NPY_FR_m 15))
                | struct_attoseconds (mkDts 1969 12 31 23 45 0 0 0 0)))
    by (exists (-1); vm_compute; reflexivity).
  assert (H7 : - 2 ^ 58 <= struct_attoseconds (mkDts 1969 12 31 23 45 0 0 0 0)
                   / unit_attoseconds (base (mkMeta NPY_FR_m 15)) <= 2 ^ 58)
    by (vm_compute; split; discriminate).
  split; [repeat (split; [assumption|]); assumption|].
  exact (struct_value_struct_roundtrip _ _ H1 H2 H3 H4 H5 H6 H7).
Defined.
